(** * DriveGCS_Sync: the webhook handler that mirrors Drive files into a bucket

    A shallow embedding of [DriveGCS_Sync_handler.py].  The development
    follows the handler function by function: the metadata lookup, the
    ancestor walk [get_drive_path], the re-rooting
    [get_relative_path_from_shared_folder], the export table of
    [download_drive_file], the two bucket writers, [handle_webhook]
    itself and the two diagnostic endpoints [test_endpoint] and
    [test_file_processing].  The properties proved about them come last.

    Modelling choices:
    - Python strings are [string]s, the UTF-8 bytes of the Python text; the
      separator ['/'] is one byte that occurs in no multi-byte sequence, so
      [split], [join], [startswith] and [endswith] agree with their Python
      counterparts.
    - The functions run in a small state-and-exception monad.  The state
      holds the objects of the destination store and the list of calls
      made to Drive and to the store.
    - What Drive and the store answer is given by the client records
      [DriveService] and [GcsClient]; Drive is only read, and its answers
      stay the same for the time of a request.
    - A metadata response always carries a name and is never an empty
      dict; the request body is a JSON object with string values.
    - Logging and the final [time.sleep(0.5)] change no value computed
      here and are left out. *)

From Equations Require Import Equations.
From stdpp Require Import base option list strings gmap.
From Stdlib Require Import Ascii String Lia.

Local Open Scope string_scope.
Local Open Scope list_scope.

(** ** Python string and list primitives *)

Module Py.

(** [s.split(sep)] for a one-character separator: always at least one
    piece, and an empty piece around every separator. *)
Fixpoint split (sep : ascii) (s : string) : list string :=
  match s with
  | EmptyString => [EmptyString]
  | String c s' =>
      if Ascii.eqb c sep then EmptyString :: split sep s'
      else match split sep s' with
           | [] => [String c EmptyString]
           | p :: ps => String c p :: ps
           end
  end.

(** [sep.join(parts)]. *)
Definition join (sep : string) (parts : list string) : string :=
  String.concat sep parts.

(** [s.startswith(p)]. *)
Definition startswith (s p : string) : bool := String.prefix p s.

(** [s.endswith(suffix)]. *)
Fixpoint endswith (s suffix : string) : bool :=
  String.eqb s suffix
  || match s with
     | EmptyString => false
     | String _ s' => endswith s' suffix
     end.

(** [l.index(x)]: the first position of [x]; [None] stands for the
    [ValueError] Python raises when [x] is absent. *)
Fixpoint index (x : string) (l : list string) : option nat :=
  match l with
  | [] => None
  | y :: l' => if String.eqb y x then Some 0
               else option_map S (index x l')
  end.

(** [l[-1]] on a list known to be non-empty. *)
Definition last_item (l : list string) : string := List.last l EmptyString.

(** [l[:-1]]. *)
Definition all_but_last (l : list string) : list string :=
  take (List.length l - 1) l.

(** Truthiness of a string: [bool(s)]. *)
Definition truthy (s : string) : bool :=
  match s with EmptyString => false | String _ _ => true end.

(** Truthiness of an optional string ([None] and [''] are falsy). *)
Definition truthy_opt (s : option string) : bool :=
  match s with None => false | Some s => truthy s end.

(** [a or b] on optional strings. *)
Definition or_else (a b : option string) : option string :=
  if truthy_opt a then a else b.

End Py.

(** ** Exceptions, the world and the handler monad *)

(** The two kinds of exception the handler distinguishes:
    [googleapiclient.errors.HttpError] and everything else. *)
Inductive exn : Type :=
| HttpError (msg : string)
| OtherException (msg : string).

(** [str(e)]. *)
Definition str (e : exn) : string :=
  match e with HttpError m => m | OtherException m => m end.

Inductive outcome (A : Type) : Type :=
| Returned (a : A)
| Raised (e : exn).
Arguments Returned {A} a.
Arguments Raised {A} e.

(** File content is an opaque sequence of bytes. *)
Definition content : Type := list Byte.byte.

(** Every call that leaves the process, in the order it is made. *)
Inductive call : Type :=
| FilesGet (file_id : string)
| ExportMedia (file_id mime_type : string)
| GetMedia (file_id : string)
| BlobExists (bucket_name blob_name : string)
| BlobUploadFromString (bucket_name blob_name : string)
| BlobUploadFromFile (bucket_name blob_name : string).

(** The part of the world a request can change: the objects of the
    destination store, and the record of the calls made so far. *)
Record World : Type := mkWorld {
  gcs_objects : gmap (string * string) content;
  calls : list call
}.

Definition M (A : Type) : Type := World -> outcome A * World.

Definition ret {A} (a : A) : M A := fun w => (Returned a, w).

Definition raise {A} (e : exn) : M A := fun w => (Raised e, w).

Definition bind {A B} (m : M A) (k : A -> M B) : M B :=
  fun w => match m w with
           | (Returned a, w') => k a w'
           | (Raised e, w') => (Raised e, w')
           end.

(** [try: body  except HttpError: handler]. *)
Definition try_except_HttpError {A} (body : M A) (handler : M A) : M A :=
  fun w => match body w with
           | (Raised (HttpError _), w') => handler w'
           | r => r
           end.

(** [try: body  except Exception as e: handler e]. *)
Definition try_except_Exception {A} (body : M A) (handler : exn -> M A) : M A :=
  fun w => match body w with
           | (Raised e, w') => handler e w'
           | r => r
           end.

(** The world once call [c] has been made. *)
Definition called (c : call) (w : World) : World :=
  mkWorld (gcs_objects w) (calls w ++ [c]).

(** The world once the calls [cs] have been made, in that order. *)
Definition after (cs : list call) (w : World) : World :=
  mkWorld (gcs_objects w) (calls w ++ cs).

Definition record_call (c : call) : M unit :=
  fun w => (Returned tt, called c w).

Declare Scope py_scope.
Delimit Scope py_scope with py.
Notation "x <- m ;; k" := (bind m (fun x => k))
  (at level 100, m at next level, right associativity) : py_scope.
Notation "m ;;; k" := (bind m (fun _ => k))
  (at level 100, right associativity) : py_scope.
Local Open Scope py_scope.

(** ** The Drive service *)

(** The fields of a [files().get] response that the handler reads. *)
Record Metadata : Type := mkMetadata {
  name : string;
  parents : list string;
  mimeType : option string
}.

(** An authenticated Drive client: what each request answers.  The handler
    only reads from Drive, so the answers do not depend on the world. *)
Record DriveService : Type := mkDrive {
  files_get : string -> outcome Metadata;
  files_get_media : string -> outcome content;
  files_export_media : string -> string -> outcome content
}.

Definition execute {A} (c : call) (answer : outcome A) : M A :=
  record_call c ;;;
  match answer with
  | Returned a => ret a
  | Raised e => raise e
  end.

(** [get_file_metadata]: the response, or [None] on an [HttpError]. *)
Definition get_file_metadata (drive_service : DriveService) (file_id : string)
  : M (option Metadata) :=
  try_except_HttpError
    (m <- execute (FilesGet file_id) (files_get drive_service file_id) ;;
     ret (Some m))
    (ret None).

(** ** The ancestor walk *)

Definition max_depth : nat := 20.

(** The [while current_id and depth < max_depth] loop of [get_drive_path];
    it returns [path_parts] (leaf first) as it stands when the loop ends. *)
Equations? walk (drive_service : DriveService) (current_id : string)
    (depth : nat) (path_parts : list string) (w : World)
  : outcome (list string) * World by wf (max_depth - depth) lt :=
  walk drive_service current_id depth path_parts w
    with Py.truthy current_id, lt_dec depth max_depth => {
    | true, left Hlt with get_file_metadata drive_service current_id w => {
      | (Raised e, w') := (Raised e, w')
      | (Returned None, w') := (Returned path_parts, w')
      | (Returned (Some parent_metadata), w')
          with parents parent_metadata => {
          | [] := (Returned (path_parts ++ [name parent_metadata]), w')
          | p :: _ :=
              walk drive_service p (S depth)
                   (path_parts ++ [name parent_metadata]) w' } }
    | _, _ := (Returned path_parts, w) }.
Proof. lia. Qed.

(** [get_drive_path]: the names from the topmost fetched ancestor down to
    the file, joined by ['/']; [None] when the first lookup fails or any
    exception escapes. *)
Definition get_drive_path (drive_service : DriveService) (file_id : string)
  : M (option string) :=
  try_except_Exception
    (metadata <- get_file_metadata drive_service file_id ;;
     match metadata with
     | None => ret None
     | Some metadata =>
         let path_parts := [name metadata] in
         match parents metadata with
         | [] => ret (Some (name metadata))
         | current_id :: _ =>
             path_parts <- walk drive_service current_id 0 path_parts ;;
             ret (Some (Py.join "/" (rev path_parts)))
         end
     end)
    (fun _ => ret None).

(** ** Re-rooting a path under the shared folder *)

(** The [folder_path] expression shared by both branches:
    ['/'.join(parts[:-1]) if len(parts) > 1 else ""]. *)
Definition folder_path_of (parts : list string) : string :=
  if (1 <? List.length parts)%nat then Py.join "/" (Py.all_but_last parts) else "".

(** [get_relative_path_from_shared_folder] returns the pair
    [(file_name, folder_path)]; either may be [None]. *)
Definition get_relative_path_from_shared_folder (drive_service : DriveService)
    (file_id shared_folder_id : string) : M (option string * option string) :=
  try_except_Exception
    (full_path <- get_drive_path drive_service file_id ;;
     match full_path with
     | None => ret (None, None)
     | Some full_path =>
         if negb (Py.truthy full_path) then ret (None, None)
         else
           shared_folder_metadata <-
             get_file_metadata drive_service shared_folder_id ;;
           match shared_folder_metadata with
           | None => ret (None, None)
           | Some shared_folder_metadata =>
               let shared_folder_name := name shared_folder_metadata in
               let path_parts := Py.split "/" full_path in
               match Py.index shared_folder_name path_parts with
               | Some shared_folder_index =>
                   let relative_parts :=
                     drop (shared_folder_index + 1) path_parts in
                   match relative_parts with
                   | [] => ret (None, Some "")
                   | _ :: _ =>
                       let file_name := Py.last_item relative_parts in
                       let folder_path := folder_path_of relative_parts in
                       ret (Some file_name, Some folder_path)
                   end
               | None =>
                   (* except ValueError *)
                   let file_name := Py.last_item path_parts in
                   let folder_path := folder_path_of path_parts in
                   ret (Some file_name, Some folder_path)
               end
           end
     end)
    (fun _ => ret (None, None)).

(** ** Download and export *)

(** [d.get(key, default)] on a dict written as an association list. *)
Fixpoint dict_get {V} (d : list (string * V)) (key : string) (default : V) : V :=
  match d with
  | [] => default
  | (k, v) :: d' => if String.eqb k key then v else dict_get d' key default
  end.

Definition export_formats : list (string * (string * string)) :=
  [ ("application/vnd.google-apps.document",
      ("application/pdf", ".pdf"));
    ("application/vnd.google-apps.spreadsheet",
      ("application/vnd.openxmlformats-officedocument.spreadsheetml.sheet",
       ".xlsx"));
    ("application/vnd.google-apps.presentation",
      ("application/vnd.openxmlformats-officedocument.presentationml.presentation",
       ".pptx")) ].

(** [mime_type and mime_type.startswith('application/vnd.google-apps')]. *)
Definition is_google_apps (mime_type : option string) : bool :=
  match mime_type with
  | None => false
  | Some m => Py.truthy m && Py.startswith m "application/vnd.google-apps"
  end.

(** [download_drive_file] returns [(file_content, extension)], or
    [(None, None)] on an [HttpError].  The chunked download loop is one
    request to the service here: it yields the whole content or raises.
    The calls recorded say which download was asked for, not how many
    chunk requests it took. *)
Definition download_drive_file (drive_service : DriveService)
    (file_id : string) (mime_type : option string)
  : M (option content * option string) :=
  try_except_HttpError
    (if is_google_apps mime_type then
       let mime_type := default "" mime_type in
       let '(export_mime_type, extension) :=
         dict_get export_formats mime_type ("application/pdf", ".pdf") in
       file_content <-
         execute (ExportMedia file_id export_mime_type)
                 (files_export_media drive_service file_id export_mime_type) ;;
       ret (Some file_content, Some extension)
     else
       file_content <-
         execute (GetMedia file_id) (files_get_media drive_service file_id) ;;
       ret (Some file_content, Some ""))
    (ret (None, None)).

(** ** The destination store *)

(** An authenticated storage client: which requests it refuses. *)
Record GcsClient : Type := mkGcs {
  upload_error : string -> string -> option exn;
  exists_error : string -> string -> option exn
}.

Definition put_object (bucket_name blob_name : string) (data : content)
  : M unit :=
  fun w => (Returned tt,
            mkWorld (<[(bucket_name, blob_name) := data]> (gcs_objects w))
                    (calls w)).

Definition has_object (bucket_name blob_name : string) : M bool :=
  fun w => (Returned
              (bool_decide (is_Some (gcs_objects w !! (bucket_name, blob_name)))),
            w).

(** [blob.upload_from_file] and [blob.upload_from_string]: the object is
    written, replacing any object of that name, unless the client raises. *)
Definition blob_upload (gcs_client : GcsClient) (c : call)
    (bucket_name blob_name : string) (data : content) : M unit :=
  record_call c ;;;
  match upload_error gcs_client bucket_name blob_name with
  | Some e => raise e
  | None => put_object bucket_name blob_name data
  end.

(** [blob.exists()]. *)
Definition blob_exists (gcs_client : GcsClient)
    (bucket_name blob_name : string) : M bool :=
  record_call (BlobExists bucket_name blob_name) ;;;
  match exists_error gcs_client bucket_name blob_name with
  | Some e => raise e
  | None => has_object bucket_name blob_name
  end.

Definition upload_to_gcs (gcs_client : GcsClient)
    (bucket_name blob_name : string) (file_content : content) : M bool :=
  try_except_Exception
    (blob_upload gcs_client (BlobUploadFromFile bucket_name blob_name)
                 bucket_name blob_name file_content ;;;
     ret true)
    (fun _ => ret false).

Definition create_gcs_folder_structure (gcs_client : GcsClient)
    (bucket_name gcs_path : string) : M bool :=
  try_except_Exception
    (if negb (Py.truthy gcs_path) || String.eqb gcs_path "/" then ret true
     else
       let folder_blob := (gcs_path ++ "/")%string in
       present <- blob_exists gcs_client bucket_name folder_blob ;;
       (if negb present then
          blob_upload gcs_client (BlobUploadFromString bucket_name folder_blob)
                      bucket_name folder_blob []
        else ret tt) ;;;
       ret true)
    (fun _ => ret false).

(** ** The path filter *)

(** The [for part in path_parts] loop of [validate_file_path], with its
    early [return True] and the [return True] that follows the loop. *)
Fixpoint validate_loop (path_parts : list string) : bool :=
  match path_parts with
  | [] => true
  | part :: rest =>
      if existsb (String.eqb part) ["2025"] then true
      else validate_loop rest
  end.

Definition validate_file_path (file_path : option string) : bool :=
  if negb (Py.truthy_opt file_path) then true
  else
    let path_parts := Py.split "/" (default "" file_path) in
    validate_loop path_parts.

(** ** The webhook handler *)

(** The module-level configuration constants. *)
Record Config : Type := mkConfig {
  BUCKET_NAME : string;
  GCS_BASE_PATH : string;
  SHARED_FOLDER_ID : string
}.

Definition deployed_config : Config :=
  mkConfig "testbucket1233455"
           "cogninest.ai/1 ANG Data Aggregator"
           "1-dFuPfkdYLlVS9VLgIehIGfh6ZcQLXF3".

(** What building each client from the service-account key yields. *)
Record ServiceAccount : Type := mkAccount {
  build_drive : outcome DriveService;
  storage_client : outcome GcsClient
}.

Definition authenticate_drive (account : ServiceAccount)
  : M (option DriveService) :=
  try_except_Exception
    (match build_drive account with
     | Returned drive_service => ret (Some drive_service)
     | Raised e => raise e
     end)
    (fun _ => ret None).

Definition authenticate_gcs (account : ServiceAccount)
  : M (option GcsClient) :=
  try_except_Exception
    (match storage_client account with
     | Returned client => ret (Some client)
     | Raised e => raise e
     end)
    (fun _ => ret None).

(** JSON values of the response bodies. *)
Inductive json : Type :=
| JString (s : string)
| JBool (b : bool)
| JNull.

Definition json_of (s : option string) : json :=
  match s with Some s => JString s | None => JNull end.

(** A response: the [jsonify]-ed dict and the HTTP status. *)
Definition Response : Type := list (string * json) * nat.

(** [data.get(key)] on the request's JSON object. *)
Fixpoint data_get (data : list (string * string)) (key : string)
  : option string :=
  match data with
  | [] => None
  | (k, v) :: data' => if String.eqb k key then Some v else data_get data' key
  end.

(** [gcs_folder_path]: the base path, followed by the relative folder
    path when there is one. *)
Definition gcs_folder_path (base_path : string)
    (relative_folder_path : option string) : string :=
  if Py.truthy_opt relative_folder_path
  then (base_path ++ "/" ++ default "" relative_folder_path)%string
  else base_path.

(** [gcs_filename]: the file name, with the export extension unless it is
    empty or already there. *)
Definition gcs_filename (file_name : string) (extension : option string)
  : string :=
  if Py.truthy_opt extension
     && negb (Py.endswith file_name (default "" extension))
  then (file_name ++ default "" extension)%string
  else file_name.

(** [gcs_object_name]: [f"{gcs_folder_path}/{gcs_filename}"]. *)
Definition gcs_object_name (folder_path filename : string) : string :=
  (folder_path ++ "/" ++ filename)%string.

Definition is_folder (metadata : Metadata) : bool :=
  match mimeType metadata with
  | Some t => String.eqb t "application/vnd.google-apps.folder"
  | None => false
  end.

Definition error_body (msg : string) : list (string * json) :=
  [("error", JString msg)].

Definition handle_webhook (cfg : Config) (account : ServiceAccount)
    (data : list (string * string)) : M Response :=
  try_except_Exception
    (let file_id := Py.or_else (data_get data "file_id") (data_get data "id") in
     match file_id with
     | Some (String _ _ as file_id) =>
       drive_service <- authenticate_drive account ;;
       gcs_client <- authenticate_gcs account ;;
       match drive_service, gcs_client with
       | Some drive_service, Some gcs_client =>
         metadata <- get_file_metadata drive_service file_id ;;
         match metadata with
         | None => ret (error_body "Could not retrieve file metadata", 404)
         | Some metadata =>
           if is_folder metadata then
             ret ([("success", JBool true);
                   ("message", JString "Skipped folder - only processing files");
                   ("file_id", JString file_id)], 200)
           else
             rel <- get_relative_path_from_shared_folder
                      drive_service file_id (SHARED_FOLDER_ID cfg) ;;
             let relative_folder_path := snd rel in
             match fst rel with
             | Some (String _ _ as file_name) =>
               if negb (validate_file_path relative_folder_path) then
                 ret ([("success", JBool true);
                       ("message", JString "Skipped file - not in target folder");
                       ("file_name", JString file_name);
                       ("path", json_of relative_folder_path)], 200)
               else
                 let gcs_folder_path :=
                   gcs_folder_path (GCS_BASE_PATH cfg) relative_folder_path in
                 (if Py.truthy_opt relative_folder_path then
                    create_gcs_folder_structure
                      gcs_client (BUCKET_NAME cfg) gcs_folder_path
                  else ret true) ;;;
                 downloaded <- download_drive_file
                                 drive_service file_id (mimeType metadata) ;;
                 let extension := snd downloaded in
                 match fst downloaded with
                 | None =>
                     ret (error_body "Could not download file from Drive", 500)
                 | Some file_content =>
                     let gcs_filename := gcs_filename file_name extension in
                     let gcs_object_name :=
                       gcs_object_name gcs_folder_path gcs_filename in
                     upload_success <-
                       upload_to_gcs gcs_client (BUCKET_NAME cfg)
                                     gcs_object_name file_content ;;
                     if (upload_success : bool) then
                       ret ([("success", JBool true);
                             ("message",
                              JString ("Successfully replicated: " ++ file_name
                                       ++ " to " ++ gcs_object_name)%string);
                             ("file_name", JString file_name);
                             ("original_name", JString (name metadata));
                             ("drive_path", json_of relative_folder_path);
                             ("gcs_path", JString gcs_object_name);
                             ("file_id", JString file_id);
                             ("mime_type", json_of (mimeType metadata))], 200)
                     else
                       ret (error_body
                              ("Failed to replicate: " ++ file_name)%string, 500)
                 end
             | _ => ret (error_body "Could not determine file path", 500)
             end
         end
       | _, _ => ret (error_body "Authentication failed", 500)
       end
     | _ => ret (error_body "File ID not provided", 400)
     end)
    (fun e => ret (error_body (str e), 500)).


(** ** The diagnostic endpoints *)

(** JSON values with lists and nested objects, for the diagnostic
    responses. *)
#[warnings="-register-all"]
Inductive jtree : Type :=
| Leaf (j : json)
| Items (l : list string)
| Node (fields : list (string * jtree)).

(** A diagnostic response: the [jsonify]-ed dict and the HTTP status, 200
    when the source gives none. *)
Definition Report : Type := list (string * jtree) * nat.

Definition error_report (msg : string) : list (string * jtree) :=
  [("error", Leaf (JString msg))].

(** [f"{x}"] for a value that may be [None]. *)
Definition format_opt (s : option string) : string :=
  match s with Some s => s | None => "None" end.

(** [metadata['mimeType']]: a [KeyError] when the field is missing. *)
Definition mimeType_item (metadata : Metadata) : M string :=
  match mimeType metadata with
  | Some t => ret t
  | None => raise (OtherException "'mimeType'")
  end.

(** [test_file_processing]: the [/test-file/<file_id>] endpoint. *)
Definition test_file_processing (cfg : Config) (account : ServiceAccount)
    (file_id : string) : M Report :=
  try_except_Exception
    (drive_service <- authenticate_drive account ;;
     match drive_service with
     | None => ret (error_report "Drive authentication failed", 500)
     | Some drive_service =>
       metadata <- get_file_metadata drive_service file_id ;;
       match metadata with
       | None => ret (error_report "File not found or not accessible", 404)
       | Some metadata =>
         full_path <- get_drive_path drive_service file_id ;;
         rel <- get_relative_path_from_shared_folder
                  drive_service file_id (SHARED_FOLDER_ID cfg) ;;
         let file_name := fst rel in
         let relative_path := snd rel in
         let should_process := validate_file_path relative_path in
         let gcs_path :=
           if Py.truthy_opt relative_path
           then (GCS_BASE_PATH cfg ++ "/" ++ format_opt relative_path
                 ++ "/" ++ format_opt file_name)%string
           else (GCS_BASE_PATH cfg ++ "/" ++ format_opt file_name)%string in
         mime_type <- mimeType_item metadata ;;
         ret ([("file_id", Leaf (JString file_id));
               ("file_name", Leaf (json_of file_name));
               ("full_drive_path", Leaf (json_of full_path));
               ("relative_path", Leaf (json_of relative_path));
               ("should_process", Leaf (JBool should_process));
               ("gcs_path", Leaf (JString gcs_path));
               ("metadata",
                Node [("name", Leaf (JString (name metadata)));
                      ("mimeType", Leaf (JString mime_type));
                      ("parents", Items (parents metadata))])], 200)
       end
     end)
    (fun e => ret (error_report (str e), 500)).

(** What reading [client_email] from the service-account key file
    yields. *)
Record KeyFile : Type := mkKeyFile {
  client_email : outcome string
}.

(** [test_endpoint]: the [/test] health check. *)
Definition test_endpoint (cfg : Config) (account : ServiceAccount)
    (key_file : KeyFile) : M Report :=
  try_except_Exception
    (drive_service <- authenticate_drive account ;;
     gcs_client <- authenticate_gcs account ;;
     match drive_service, gcs_client with
     | Some drive_service, Some gcs_client =>
       shared_folder_metadata <-
         get_file_metadata drive_service (SHARED_FOLDER_ID cfg) ;;
       service_email <-
         match client_email key_file with
         | Returned email => ret email
         | Raised e => raise e
         end ;;
       ret ([("status", Leaf (JString "Service is running locally! 🚀"));
             ("bucket", Leaf (JString (BUCKET_NAME cfg)));
             ("gcs_base_path", Leaf (JString (GCS_BASE_PATH cfg)));
             ("shared_folder_id", Leaf (JString (SHARED_FOLDER_ID cfg)));
             ("shared_folder_name",
              Leaf (JString match shared_folder_metadata with
                            | Some m => name m
                            | None => "Not accessible"
                            end));
             ("shared_folder_access",
              Leaf (JBool match shared_folder_metadata with
                          | Some _ => true
                          | None => false
                          end));
             ("service_account_email", Leaf (JString service_email));
             ("environment", Leaf (JString "localhost"))], 200)
     | _, _ => ret (error_report "Authentication failed", 500)
     end)
    (fun e => ret (error_report (str e), 500)).

(** * Specifications *)

(** ** The ancestor chain, as a relation on the Drive service

    [ascent ds n id names]: starting at ancestor [id] with [n] hops left,
    the walk gathers [names] (nearest ancestor first).  It ends at the depth
    ceiling, at an empty identifier, at an ancestor whose lookup fails with
    an [HttpError], or at an ancestor without parents. *)
Inductive ascent (ds : DriveService) : nat -> string -> list string -> Prop :=
| ascent_ceiling id :
    ascent ds 0 id []
| ascent_no_id n :
    ascent ds (S n) "" []
| ascent_unreadable n id msg :
    Py.truthy id = true ->
    files_get ds id = Raised (HttpError msg) ->
    ascent ds (S n) id []
| ascent_top n id m :
    Py.truthy id = true ->
    files_get ds id = Returned m ->
    parents m = [] ->
    ascent ds (S n) id [name m]
| ascent_hop n id m p ps names :
    Py.truthy id = true ->
    files_get ds id = Returned m ->
    parents m = p :: ps ->
    ascent ds n p names ->
    ascent ds (S n) id (name m :: names).

(** [ascent_aborts ds n id]: within [n] hops from [id], a lookup raises
    something other than an [HttpError]. *)
Inductive ascent_aborts (ds : DriveService) : nat -> string -> Prop :=
| aborts_here n id msg :
    Py.truthy id = true ->
    files_get ds id = Raised (OtherException msg) ->
    ascent_aborts ds (S n) id
| aborts_above n id m p ps :
    Py.truthy id = true ->
    files_get ds id = Returned m ->
    parents m = p :: ps ->
    ascent_aborts ds n p ->
    ascent_aborts ds (S n) id.

(** [path_chain ds id chain]: the names, topmost first, of the item [id]
    and of the ancestors the walk reaches from it. *)
Inductive path_chain (ds : DriveService) (id : string) : list string -> Prop :=
| chain_orphan m :
    files_get ds id = Returned m ->
    parents m = [] ->
    path_chain ds id [name m]
| chain_ascent m p ps names :
    files_get ds id = Returned m ->
    parents m = p :: ps ->
    ascent ds max_depth p names ->
    path_chain ds id (rev (name m :: names)).

(** What [get_drive_path] answers for [id]: the chain joined by ['/'], or
    [None] when the lookup of [id] itself fails, or when some lookup raises
    something other than an [HttpError]. *)
Inductive drive_path_answer (ds : DriveService) (id : string)
  : option string -> Prop :=
| answer_first_lookup_fails e :
    files_get ds id = Raised e ->
    drive_path_answer ds id None
| answer_aborted m p ps :
    files_get ds id = Returned m ->
    parents m = p :: ps ->
    ascent_aborts ds max_depth p ->
    drive_path_answer ds id None
| answer_chain chain :
    path_chain ds id chain ->
    drive_path_answer ds id (Some (Py.join "/" chain)).

(** A set of identifiers that the first-parent link never leaves: every
    member is found and has a first parent in the set.  The nodes of a
    cycle of parent links form such a set. *)
Definition endless (ds : DriveService) (P : string -> Prop) : Prop :=
  forall id, P id ->
    Py.truthy id = true /\
    exists m p ps,
      files_get ds id = Returned m /\ parents m = p :: ps /\ P p.

(** [w'] differs from [w] by metadata lookups only. *)
Definition lookups_only (w w' : World) : Prop :=
  gcs_objects w' = gcs_objects w /\
  exists ids, calls w' = calls w ++ map FilesGet ids.

(** [has_char c s]: the character [c] occurs in [s]. *)
Fixpoint has_char (c : ascii) (s : string) : bool :=
  match s with
  | EmptyString => false
  | String c' s' => Ascii.eqb c' c || has_char c s'
  end.

(** The pair computed from [path_parts] and the shared folder's name by
    the inner [try] of [get_relative_path_from_shared_folder]. *)
Definition relative_to (shared_folder_name : string) (path_parts : list string)
  : option string * option string :=
  match Py.index shared_folder_name path_parts with
  | Some shared_folder_index =>
      match drop (shared_folder_index + 1) path_parts with
      | [] => (None, Some "")
      | relative_parts =>
          (Some (Py.last_item relative_parts),
           Some (folder_path_of relative_parts))
      end
  | None =>
      (Some (Py.last_item path_parts), Some (folder_path_of path_parts))
  end.

(** ** The stages of a request *)

(** The identifier a request names: [data.get('file_id') or data.get('id')],
    when it is truthy. *)
Definition requested (data : list (string * string)) (file_id : string) : Prop :=
  Py.or_else (data_get data "file_id") (data_get data "id") = Some file_id
  /\ Py.truthy file_id = true.

(** The request [download_drive_file] sends for an item, and its answer. *)
Definition download_request (ds : DriveService) (file_id : string)
    (mime_type : option string) : call * outcome content :=
  if is_google_apps mime_type then
    let export_mime_type :=
      fst (dict_get export_formats (default "" mime_type)
                    ("application/pdf", ".pdf")) in
    (ExportMedia file_id export_mime_type,
     files_export_media ds file_id export_mime_type)
  else (GetMedia file_id, files_get_media ds file_id).

(** The extension [download_drive_file] hands back with the content. *)
Definition download_extension (mime_type : option string) : string :=
  if is_google_apps mime_type then
    snd (dict_get export_formats (default "" mime_type)
                  ("application/pdf", ".pdf"))
  else "".

(** The world once the folder marker has been dealt with, just before the
    download. *)
Definition before_download (cfg : Config) (gcs_client : GcsClient)
    (relative_folder_path : option string) (w : World) : World :=
  if Py.truthy_opt relative_folder_path then
    snd (create_gcs_folder_structure
           gcs_client (BUCKET_NAME cfg)
           (gcs_folder_path (GCS_BASE_PATH cfg) relative_folder_path) w)
  else w.

(** The object name a file is mirrored to. *)
Definition destination (cfg : Config) (relative_folder_path : option string)
    (file_name : string) (mime_type : option string) : string :=
  gcs_object_name
    (gcs_folder_path (GCS_BASE_PATH cfg) relative_folder_path)
    (gcs_filename file_name (Some (download_extension mime_type))).

(** The body of the response to a mirrored file. *)
Definition replicated_body (file_id file_name : string) (metadata : Metadata)
    (relative_folder_path : option string) (gcs_object_name : string)
  : list (string * json) :=
  [("success", JBool true);
   ("message",
    JString ("Successfully replicated: " ++ file_name
             ++ " to " ++ gcs_object_name)%string);
   ("file_name", JString file_name);
   ("original_name", JString (name metadata));
   ("drive_path", json_of relative_folder_path);
   ("gcs_path", JString gcs_object_name);
   ("file_id", JString file_id);
   ("mime_type", json_of (mimeType metadata))].

(** ** Failures of a request *)

Inductive failure : Type :=
| AuthenticationFailure
| MetadataNotFound
| PathResolutionFailure
| TransferFailure.

(** The status each kind of failure is answered with. *)
Definition failure_status (k : failure) : nat :=
  match k with
  | AuthenticationFailure => 500
  | MetadataNotFound => 404
  | PathResolutionFailure => 500
  | TransferFailure => 500
  end.

(** The message reported for a failed download: the handler's own for an
    [HttpError], the exception's text otherwise. *)
Definition download_failure_message (e : exn) : string :=
  match e with
  | HttpError _ => "Could not download file from Drive"
  | OtherException msg => msg
  end.

(** [fails cfg account data w k msg w']: the request [data], handled from
    world [w], meets a failure of kind [k]; [msg] is the message owed to
    the caller and [w'] the world as the failing step leaves it. *)
Inductive fails (cfg : Config) (account : ServiceAccount)
    (data : list (string * string)) (w : World)
  : failure -> string -> World -> Prop :=
| drive_login_fails file_id e :
    requested data file_id ->
    build_drive account = Raised e ->
    fails cfg account data w AuthenticationFailure "Authentication failed" w
| gcs_login_fails file_id e :
    requested data file_id ->
    storage_client account = Raised e ->
    fails cfg account data w AuthenticationFailure "Authentication failed" w
| lookup_fails file_id ds gc msg :
    requested data file_id ->
    build_drive account = Returned ds ->
    storage_client account = Returned gc ->
    files_get ds file_id = Raised (HttpError msg) ->
    fails cfg account data w MetadataNotFound
          "Could not retrieve file metadata" (called (FilesGet file_id) w)
| path_fails file_id ds gc m file_name relative_folder_path w2 :
    requested data file_id ->
    build_drive account = Returned ds ->
    storage_client account = Returned gc ->
    files_get ds file_id = Returned m ->
    is_folder m = false ->
    get_relative_path_from_shared_folder
      ds file_id (SHARED_FOLDER_ID cfg) (called (FilesGet file_id) w)
    = (Returned (file_name, relative_folder_path), w2) ->
    Py.truthy_opt file_name = false ->
    fails cfg account data w PathResolutionFailure
          "Could not determine file path" w2
| download_fails file_id ds gc m file_name relative_folder_path w2 e :
    requested data file_id ->
    build_drive account = Returned ds ->
    storage_client account = Returned gc ->
    files_get ds file_id = Returned m ->
    is_folder m = false ->
    get_relative_path_from_shared_folder
      ds file_id (SHARED_FOLDER_ID cfg) (called (FilesGet file_id) w)
    = (Returned (Some file_name, relative_folder_path), w2) ->
    Py.truthy file_name = true ->
    snd (download_request ds file_id (mimeType m)) = Raised e ->
    fails cfg account data w TransferFailure (download_failure_message e)
          (called (fst (download_request ds file_id (mimeType m)))
                  (before_download cfg gc relative_folder_path w2))
| upload_fails file_id ds gc m file_name relative_folder_path w2
               file_content e :
    requested data file_id ->
    build_drive account = Returned ds ->
    storage_client account = Returned gc ->
    files_get ds file_id = Returned m ->
    is_folder m = false ->
    get_relative_path_from_shared_folder
      ds file_id (SHARED_FOLDER_ID cfg) (called (FilesGet file_id) w)
    = (Returned (Some file_name, relative_folder_path), w2) ->
    Py.truthy file_name = true ->
    snd (download_request ds file_id (mimeType m)) = Returned file_content ->
    upload_error gc (BUCKET_NAME cfg)
      (destination cfg relative_folder_path file_name (mimeType m)) = Some e ->
    fails cfg account data w TransferFailure
          ("Failed to replicate: " ++ file_name)%string
          (called (BlobUploadFromFile
                     (BUCKET_NAME cfg)
                     (destination cfg relative_folder_path file_name
                                  (mimeType m)))
             (called (fst (download_request ds file_id (mimeType m)))
                     (before_download cfg gc relative_folder_path w2))).

(** ** Separators in a key *)

(** [leading_sep s]: [s] begins with ['/']. *)
Definition leading_sep (s : string) : bool :=
  match s with
  | EmptyString => false
  | String c _ => Ascii.eqb c "/"
  end.

(** [trailing_sep s]: [s] ends with ['/']. *)
Definition trailing_sep (s : string) : bool := Py.endswith s "/".

(** [doubled_sep s]: two ['/'] in a row somewhere in [s]. *)
Fixpoint doubled_sep (s : string) : bool :=
  match s with
  | EmptyString => false
  | String c s' => (Ascii.eqb c "/" && leading_sep s') || doubled_sep s'
  end.

(** A piece of a key that brings no separator trouble of its own: it is
    not empty, has no doubled ['/'] and none at either end. *)
Definition tidy (s : string) : bool :=
  Py.truthy s
  && negb (doubled_sep s) && negb (leading_sep s) && negb (trailing_sep s).

(** ** The export table, as the specification words it *)

Definition export_extension_spec (mime_type : option string) : string :=
  match mime_type with
  | None => ""
  | Some t =>
      if String.eqb t "application/vnd.google-apps.document" then ".pdf"
      else if String.eqb t "application/vnd.google-apps.spreadsheet" then ".xlsx"
      else if String.eqb t "application/vnd.google-apps.presentation" then ".pptx"
      else if Py.startswith t "application/vnd.google-apps" then ".pdf"
      else ""
  end.

(** ** Scenarios

    Small Drive trees and clients on which the statements below are
    evaluated. *)

(** A Drive service that finds exactly the listed items; every other
    lookup fails with an [HttpError], and every download yields [data]. *)
Fixpoint find_item (items : list (string * Metadata)) (id : string)
  : outcome Metadata :=
  match items with
  | [] => Raised (HttpError "File not found")
  | (i, m) :: items' =>
      if String.eqb i id then Returned m else find_item items' id
  end.

Definition drive_with (items : list (string * Metadata)) (data : content)
  : DriveService :=
  mkDrive (find_item items) (fun _ => Returned data) (fun _ _ => Returned data).

(** A storage client that accepts every request. *)
Definition willing_gcs : GcsClient := mkGcs (fun _ _ => None) (fun _ _ => None).

(** The world before the request: an empty bucket, no call made. *)
Definition fresh : World := mkWorld ∅ [].

(** A file in a shared folder whose own parent the service account cannot
    read. *)
Definition unreadable_parent_drive : DriveService :=
  drive_with
    [ ("f", mkMetadata "notes.txt" ["s"] (Some "text/plain"));
      ("s", mkMetadata "Shared" ["x"]
                       (Some "application/vnd.google-apps.folder")) ]
    [].

(** Three folders whose parent links form a cycle, and a file in one of
    them. *)
Definition ring_drive : DriveService :=
  drive_with
    [ ("f", mkMetadata "leaf" ["a"] (Some "text/plain"));
      ("a", mkMetadata "A" ["b"] (Some "application/vnd.google-apps.folder"));
      ("b", mkMetadata "B" ["c"] (Some "application/vnd.google-apps.folder"));
      ("c", mkMetadata "C" ["a"] (Some "application/vnd.google-apps.folder")) ]
    [].

Definition on_ring (id : string) : Prop := id = "a" \/ id = "b" \/ id = "c".

(** The spreadsheet [Q3.gsheet] under [Root/Finance/2025] and the file
    [budget.csv] directly under [Root]; the shared folder [Root]
    (identifier ["r"]) sits in [My Drive]. *)
Definition finance_drive : DriveService :=
  drive_with
    [ ("q", mkMetadata "Q3.gsheet" ["y"]
                       (Some "application/vnd.google-apps.spreadsheet"));
      ("b", mkMetadata "budget.csv" ["r"] (Some "text/csv"));
      ("y", mkMetadata "2025" ["n"] (Some "application/vnd.google-apps.folder"));
      ("n", mkMetadata "Finance" ["r"]
                       (Some "application/vnd.google-apps.folder"));
      ("r", mkMetadata "Root" ["d"] (Some "application/vnd.google-apps.folder"));
      ("d", mkMetadata "My Drive" [] (Some "application/vnd.google-apps.folder")) ]
    [].

(** A file outside the shared tree, and a file that merely bears the
    shared folder's name. *)
Definition outside_drive : DriveService :=
  drive_with
    [ ("f", mkMetadata "notes.txt" ["e"] (Some "text/plain"));
      ("e", mkMetadata "Elsewhere" [] (Some "application/vnd.google-apps.folder"));
      ("g", mkMetadata "Root" [] (Some "text/plain"));
      ("r", mkMetadata "Root" [] (Some "application/vnd.google-apps.folder")) ]
    [].


(** A configuration with base prefix ["X"] and shared folder ["r"]. *)
Definition test_config : Config := mkConfig "bucket" "X" "r".

(** A storage client that refuses every upload. *)
Definition refusing_gcs : GcsClient :=
  mkGcs (fun _ _ => Some (OtherException "403 Forbidden")) (fun _ _ => None).

(** [finance_drive] with every download refused. *)
Definition sealed_finance_drive : DriveService :=
  mkDrive (files_get finance_drive)
          (fun _ => Raised (HttpError "403 Forbidden"))
          (fun _ _ => Raised (HttpError "403 Forbidden")).

(** ** What a request may write *)

(** [writes_within P S S']: the store [S'] keeps every object name of [S],
    and differs from [S] only at names that satisfy [P]. *)
Definition writes_within (P : string * string -> Prop)
    (S S' : gmap (string * string) content) : Prop :=
  forall k,
    (S' !! k <> S !! k -> P k) /\ (is_Some (S !! k) -> is_Some (S' !! k)).

(** The object names of the configured bucket that lie under the base
    path. *)
Definition under_base (cfg : Config) (k : string * string) : Prop :=
  fst k = BUCKET_NAME cfg
  /\ Py.startswith (snd k) (GCS_BASE_PATH cfg ++ "/")%string = true.

(** A world whose bucket already holds a report and a folder marker with
    some content of its own. *)
Definition stocked : World :=
  mkWorld (<[("bucket", "X/Finance/") := [Byte.x01]]>
             (<[("bucket", "X/report") := [Byte.x02]]> ∅)) [].

(** The tail of a Drive path that a relative folder path and a file name
    stand for. *)
Definition relative_name (folder_path file_name : string) : string :=
  if Py.truthy folder_path then (folder_path ++ "/" ++ file_name)%string
  else file_name.

(** Two Drive services that agree on what the walk reads: whether an
    item is found or which kind of exception its lookup raises, its name,
    and its first parent. *)
Definition same_lineage (ds ds' : DriveService) : Prop :=
  forall id,
    match files_get ds id, files_get ds' id with
    | Returned m, Returned m' =>
        name m = name m' /\ head (parents m) = head (parents m')
    | Raised (HttpError _), Raised (HttpError _) => True
    | Raised (OtherException _), Raised (OtherException _) => True
    | _, _ => False
    end.

(** [finance_drive] with second parents, other MIME types and other
    error texts. *)
Definition finance_drive_shared_twice : DriveService :=
  mkDrive
    (fun id =>
       match files_get finance_drive id with
       | Returned m =>
           Returned (mkMetadata (name m)
                       match parents m with
                       | [] => []
                       | p :: ps => p :: "elsewhere" :: ps
                       end
                       None)
       | Raised (HttpError _) => Raised (HttpError "403 Forbidden")
       | Raised e => Raised e
       end)
    (files_get_media finance_drive)
    (files_export_media finance_drive).

(** A key file that can be read, and one that cannot. *)
Definition good_key_file : KeyFile :=
  mkKeyFile (Returned "sync@project.iam.gserviceaccount.com").

Definition missing_key_file : KeyFile :=
  mkKeyFile (Raised (OtherException "[Errno 2] No such file or directory")).

(** An item whose metadata carries no MIME type. *)
Definition untyped_drive : DriveService :=
  drive_with [ ("u", mkMetadata "untyped" [] None) ] [].


(** A report in a folder whose name ends with ['/']. *)
Definition trailing_slash_drive : DriveService :=
  drive_with
    [ ("p", mkMetadata "report" ["a"] (Some "text/plain"));
      ("a", mkMetadata "A/" ["r"] (Some "application/vnd.google-apps.folder"));
      ("r", mkMetadata "Root" [] (Some "application/vnd.google-apps.folder")) ]
    [].

(** ** Counting calls *)

(** Metadata lookups, and requests to the destination store. *)
Definition is_lookup (c : call) : bool :=
  match c with FilesGet _ => true | _ => false end.

Definition is_store_request (c : call) : bool :=
  match c with
  | BlobExists _ _ | BlobUploadFromString _ _ | BlobUploadFromFile _ _ => true
  | _ => false
  end.

Definition count (p : call -> bool) (cs : list call) : nat :=
  List.length (List.filter p cs).

(** A Drive whose answers tell the requests apart: a download as it is, an
    export to PDF, and an export to anything else. *)
Definition converting_drive : DriveService :=
  mkDrive (files_get finance_drive)
          (fun _ => Returned [Byte.x03])
          (fun _ export_mime_type =>
             if String.eqb export_mime_type "application/pdf"
             then Returned [Byte.x01] else Returned [Byte.x02]).

(** * Properties *)

(** Decide the loop's depth test from what is known about the depth. *)
Ltac depth_test :=
  match goal with
  | |- context [(?d <? max_depth)%nat] =>
      first
        [ replace (d <? max_depth)%nat with true
            by (symmetry; apply Nat.ltb_lt; lia)
        | replace (d <? max_depth)%nat with false
            by (symmetry; apply Nat.ltb_ge; lia) ]
  end.

(** Close a goal of [handle_webhook_always_answers] whose response is an
    error body. *)
Ltac answers_error :=
  do 2 eexists;
  split; [reflexivity | right; eexists; split; [reflexivity | tauto]].

(** ** Worlds *)

Lemma after_after cs1 cs2 w : after cs2 (after cs1 w) = after (cs1 ++ cs2) w.
Proof. unfold after; cbn. now rewrite app_assoc. Qed.

Lemma called_after c w : called c w = after [c] w.
Proof. reflexivity. Qed.

Lemma after_nil w : after [] w = w.
Proof. destruct w. unfold after; cbn. now rewrite app_nil_r. Qed.

(** ** The ancestor walk *)

Section Walk.

Variable ds : DriveService.

Lemma walk_eq cid depth parts w :
  walk ds cid depth parts w =
  if Py.truthy cid && (depth <? max_depth)%nat then
    match get_file_metadata ds cid w with
    | (Raised e, w') => (Raised e, w')
    | (Returned None, w') => (Returned parts, w')
    | (Returned (Some pm), w') =>
        match parents pm with
        | [] => (Returned (parts ++ [name pm]), w')
        | p :: _ => walk ds p (S depth) (parts ++ [name pm]) w'
        end
    end
  else (Returned parts, w).
Proof.
  simp walk.
  destruct (Py.truthy cid); destruct (lt_dec depth max_depth) as [Hlt|Hge];
    cbn [andb].
  - rewrite (proj2 (Nat.ltb_lt _ _) Hlt). cbn.
    destruct (get_file_metadata ds cid w) as [[[pm|]|e] w']; cbn; try reflexivity.
    destruct (parents pm); reflexivity.
  - rewrite (proj2 (Nat.ltb_nlt _ _) Hge). reflexivity.
  - reflexivity.
  - reflexivity.
Qed.

Lemma get_file_metadata_eq id w :
  get_file_metadata ds id w =
  (match files_get ds id with
   | Returned m => Returned (Some m)
   | Raised (HttpError _) => Returned None
   | Raised e => Raised e
   end, called (FilesGet id) w).
Proof.
  unfold get_file_metadata, try_except_HttpError, execute, bind, record_call.
  destruct (files_get ds id) as [m|[msg|msg]]; reflexivity.
Qed.

(** One turn of the loop, with the lookup resolved. *)
Lemma walk_step cid depth parts w :
  walk ds cid depth parts w =
  if Py.truthy cid && (depth <? max_depth)%nat then
    match files_get ds cid with
    | Returned pm =>
        match parents pm with
        | [] => (Returned (parts ++ [name pm]), called (FilesGet cid) w)
        | p :: _ =>
            walk ds p (S depth) (parts ++ [name pm]) (called (FilesGet cid) w)
        end
    | Raised (HttpError _) => (Returned parts, called (FilesGet cid) w)
    | Raised e => (Raised e, called (FilesGet cid) w)
    end
  else (Returned parts, w).
Proof.
  rewrite walk_eq, get_file_metadata_eq.
  destruct (files_get ds cid) as [m|[msg|msg]]; reflexivity.
Qed.

Lemma walk_ascent n cid names :
  ascent ds n cid names ->
  forall depth parts w, depth + n = max_depth ->
    fst (walk ds cid depth parts w) = Returned (parts ++ names).
Proof.
  induction 1 as [id|n|n id msg Hid Hget|n id m Hid Hget Hpar
                 |n id m p ps names Hid Hget Hpar _ IH];
    intros depth parts w Hd; rewrite walk_step.
  - depth_test.
    rewrite andb_false_r, app_nil_r. reflexivity.
  - cbn. rewrite app_nil_r. reflexivity.
  - rewrite Hid, Hget, app_nil_r.
    destruct (depth <? max_depth)%nat; reflexivity.
  - rewrite Hid, Hget, Hpar.
    depth_test.
    reflexivity.
  - rewrite Hid, Hget, Hpar.
    depth_test.
    cbn [andb]. rewrite IH by lia. rewrite <- app_assoc. reflexivity.
Qed.

Lemma walk_aborts n cid :
  ascent_aborts ds n cid ->
  forall depth parts w, depth + n = max_depth ->
    exists e, fst (walk ds cid depth parts w) = Raised e.
Proof.
  induction 1 as [n id msg Hid Hget|n id m p ps Hid Hget Hpar _ IH];
    intros depth parts w Hd; rewrite walk_step;
    rewrite Hid, Hget;
    depth_test; cbn [andb].
  - eexists. reflexivity.
  - rewrite Hpar. apply IH. lia.
Qed.

(** Every walk either gathers some names or aborts. *)
Lemma ascent_total n :
  forall cid, (exists names, ascent ds n cid names) \/ ascent_aborts ds n cid.
Proof.
  induction n as [|n IH]; intros cid.
  - left. exists []. constructor.
  - destruct (Py.truthy cid) eqn:Hid.
    + destruct (files_get ds cid) as [m|[msg|msg]] eqn:Hget.
      * destruct (parents m) as [|p ps] eqn:Hpar.
        -- left. exists [name m]. now apply ascent_top.
        -- destruct (IH p) as [[names Hn]|Hab].
           ++ left. exists (name m :: names). eapply ascent_hop; eauto.
           ++ right. eapply aborts_above; eauto.
      * left. exists []. eapply ascent_unreadable; eauto.
      * right. eapply aborts_here; eauto.
    + destruct cid; [|discriminate]. left. exists []. constructor.
Qed.

(** The loop only looks metadata up, at most once per remaining hop. *)
Lemma walk_world :
  forall k cid depth parts w, max_depth - depth <= k ->
    exists ids,
      snd (walk ds cid depth parts w) = after (map FilesGet ids) w /\
      List.length ids <= max_depth - depth.
Proof.
  induction k as [|k IH]; intros cid depth parts w Hk; rewrite walk_step.
  - depth_test.
    rewrite andb_false_r. exists []. cbn [map snd]. rewrite after_nil.
    split; [reflexivity | cbn [List.length]; lia].
  - destruct (Py.truthy cid && (depth <? max_depth)%nat) eqn:Hc.
    + apply andb_true_iff in Hc as [_ Hlt]. apply Nat.ltb_lt in Hlt.
      destruct (files_get ds cid) as [m|[msg|msg]].
      * destruct (parents m) as [|p ps].
        -- exists [cid]. split; [reflexivity | cbn [List.length]; lia].
        -- destruct (IH p (S depth) (parts ++ [name m])
                        (called (FilesGet cid) w)) as (ids & Hw & Hlen);
             [lia|].
           exists (cid :: ids). rewrite Hw, called_after, after_after.
           split; [reflexivity | cbn [List.length]; lia].
      * exists [cid]. split; [reflexivity | cbn [List.length]; lia].
      * exists [cid]. split; [reflexivity | cbn [List.length]; lia].
    + exists []. cbn [map snd]. rewrite after_nil.
      split; [reflexivity | cbn [List.length]; lia].
Qed.

(** On an endless chain the loop uses every hop it has. *)
Lemma walk_endless P (HP : endless ds P) :
  forall n cid depth parts w, P cid -> depth + n = max_depth ->
    exists names ids,
      walk ds cid depth parts w
      = (Returned (parts ++ names), after (map FilesGet ids) w) /\
      List.length names = n /\ List.length ids = n.
Proof.
  induction n as [|n IH]; intros cid depth parts w Hcid Hd; rewrite walk_step.
  - depth_test.
    rewrite andb_false_r. exists [], []. cbn [map]. rewrite after_nil, app_nil_r.
    repeat split.
  - destruct (HP cid Hcid) as (Hid & m & p & ps & Hget & Hpar & Hp).
    rewrite Hid, Hget, Hpar.
    depth_test.
    cbn [andb].
    destruct (IH p (S depth) (parts ++ [name m]) (called (FilesGet cid) w) Hp)
      as (names & ids & Hw & Hn & Hi); [lia|].
    exists (name m :: names), (cid :: ids).
    rewrite Hw, called_after, after_after, <- app_assoc.
    repeat split; cbn [List.length]; lia.
Qed.

Lemma walk_fst :
  forall k cid depth parts w w', max_depth - depth <= k ->
    fst (walk ds cid depth parts w) = fst (walk ds cid depth parts w').
Proof.
  induction k as [|k IH]; intros cid depth parts w w' Hk;
    rewrite (walk_step cid depth parts w), (walk_step cid depth parts w').
  - depth_test.
    rewrite andb_false_r. reflexivity.
  - destruct (Py.truthy cid && (depth <? max_depth)%nat) eqn:Hc;
      [|reflexivity].
    apply andb_true_iff in Hc as [_ Hlt]. apply Nat.ltb_lt in Hlt.
    destruct (files_get ds cid) as [m|[msg|msg]]; try reflexivity.
    destruct (parents m) as [|p ps]; [reflexivity|].
    apply IH. lia.
Qed.

End Walk.

(** ** The path of an item *)

Lemma get_drive_path_eq ds id w :
  get_drive_path ds id w =
  match files_get ds id with
  | Returned m =>
      match parents m with
      | [] => (Returned (Some (name m)), called (FilesGet id) w)
      | p :: _ =>
          match walk ds p 0 [name m] (called (FilesGet id) w) with
          | (Returned parts, w') =>
              (Returned (Some (Py.join "/" (rev parts))), w')
          | (Raised _, w') => (Returned None, w')
          end
      end
  | Raised _ => (Returned None, called (FilesGet id) w)
  end.
Proof.
  unfold get_drive_path, try_except_Exception, bind.
  rewrite get_file_metadata_eq.
  destruct (files_get ds id) as [m|[msg|msg]]; try reflexivity.
  destruct (parents m) as [|p ps]; try reflexivity.
  destruct (walk ds p 0 [name m] (called (FilesGet id) w)) as [[parts|e] w'];
    reflexivity.
Qed.

Lemma path_chain_walked ds id chain w :
  path_chain ds id chain ->
  fst (get_drive_path ds id w) = Returned (Some (Py.join "/" chain)).
Proof.
  intros [m Hget Hpar|m p ps names Hget Hpar Hasc];
    rewrite get_drive_path_eq, Hget, Hpar; [reflexivity|].
  pose proof (walk_ascent ds _ _ _ Hasc 0 [name m] (called (FilesGet id) w)
                          eq_refl) as Hw.
  destruct (walk ds p 0 [name m] (called (FilesGet id) w)) as [[parts|e] w'];
    cbn in Hw; [|discriminate].
  injection Hw as ->. reflexivity.
Qed.

(** The relations describe one walk: a given service and identifier admit
    one chain at most, and a walk that aborts admits none. *)
Lemma ascent_functional ds n id names1 :
  ascent ds n id names1 -> forall names2, ascent ds n id names2 ->
  names1 = names2.
Proof.
  induction 1 as [id|n|n id msg Hid Hget|n id m Hid Hget Hpar
                 |n id m p ps names Hid Hget Hpar _ IH];
    intros names2 H2; inversion H2; subst; try reflexivity;
    try discriminate; try congruence.
  - match goal with
    | Hm : files_get ds id = Returned ?m' |- _ =>
        rewrite Hget in Hm; injection Hm as <-
    end.
    match goal with
    | Hp : parents m = ?p' :: _ |- _ =>
        rewrite Hpar in Hp; injection Hp as <- <-
    end.
    f_equal. now apply IH.
Qed.

Lemma ascent_not_aborted ds n id names :
  ascent ds n id names -> ~ ascent_aborts ds n id.
Proof.
  induction 1 as [id|n|n id msg Hid Hget|n id m Hid Hget Hpar
                 |n id m p ps names Hid Hget Hpar _ IH];
    intros Hab; inversion Hab; subst; try discriminate; congruence.
Qed.

Lemma path_chain_functional ds id chain1 chain2 :
  path_chain ds id chain1 -> path_chain ds id chain2 -> chain1 = chain2.
Proof.
  intros [m1 Hg1 Hp1|m1 p1 ps1 names1 Hg1 Hp1 Ha1]
         [m2 Hg2 Hp2|m2 p2 ps2 names2 Hg2 Hp2 Ha2];
    rewrite Hg1 in Hg2; injection Hg2 as <-; try congruence.
  rewrite Hp1 in Hp2. injection Hp2 as <- <-.
  now rewrite (ascent_functional _ _ _ _ Ha1 _ Ha2).
Qed.

Lemma drive_path_answer_functional ds id r1 r2 :
  drive_path_answer ds id r1 -> drive_path_answer ds id r2 -> r1 = r2.
Proof.
  intros H1 H2.
  assert (Hrun : forall r, drive_path_answer ds id r ->
                   fst (get_drive_path ds id fresh) = Returned r).
  { intros r [e He|m p ps Hg Hp Hab|chain Hchain].
    - rewrite get_drive_path_eq, He. reflexivity.
    - rewrite get_drive_path_eq, Hg, Hp.
      destruct (walk_aborts ds _ _ Hab 0 [name m] (called (FilesGet id) fresh)
                            eq_refl) as [e He].
      destruct (walk ds p 0 [name m] (called (FilesGet id) fresh))
        as [[parts|e'] w']; cbn in He; [discriminate | reflexivity].
    - now apply path_chain_walked. }
  pose proof (Hrun _ H1) as E1. pose proof (Hrun _ H2) as E2.
  rewrite E1 in E2. now injection E2.
Qed.

(** C4 (as amended): [get_drive_path] always answers.  It answers [None]
    when the lookup of the starting identifier fails, or when a lookup
    raises something other than an [HttpError]; otherwise it answers the
    names of the item and of the ancestors it reached, topmost first,
    joined by ['/'] -- an ancestor whose lookup fails with an [HttpError]
    only ends the walk below it. *)
Theorem get_drive_path_answer ds id w :
  exists r,
    fst (get_drive_path ds id w) = Returned r /\ drive_path_answer ds id r.
Proof.
  destruct (files_get ds id) as [m|e] eqn:Hget.
  - destruct (parents m) as [|p ps] eqn:Hpar.
    + exists (Some (Py.join "/" [name m])). split.
      * apply path_chain_walked. now apply chain_orphan.
      * apply answer_chain. now apply chain_orphan.
    + destruct (ascent_total ds max_depth p) as [[names Hasc]|Hab].
      * exists (Some (Py.join "/" (rev (name m :: names)))). split.
        -- apply path_chain_walked. eapply chain_ascent; eauto.
        -- apply answer_chain. eapply chain_ascent; eauto.
      * exists None. split; [|eapply answer_aborted; eauto].
        rewrite get_drive_path_eq, Hget, Hpar.
        destruct (walk_aborts ds _ _ Hab 0 [name m] (called (FilesGet id) w)
                              eq_refl) as [e He].
        destruct (walk ds p 0 [name m] (called (FilesGet id) w))
          as [[parts|e'] w']; cbn in He; [discriminate | reflexivity].
  - exists None. split; [|eapply answer_first_lookup_fails; eauto].
    rewrite get_drive_path_eq, Hget. reflexivity.
Qed.

(** C4 (counterexample): the lookup of the shared folder's parent fails,
    and the walk still answers with the path gathered below it. *)
Lemma get_drive_path_ancestor_failure :
  files_get unreadable_parent_drive "x" = Raised (HttpError "File not found")
  /\ In (FilesGet "x") (calls (snd (get_drive_path unreadable_parent_drive "f" fresh)))
  /\ fst (get_drive_path unreadable_parent_drive "f" fresh)
     = Returned (Some "Shared/notes.txt")
  /\ fst (get_drive_path unreadable_parent_drive "f" fresh) <> Returned None.
Proof.
  split; [reflexivity|]. split; [vm_compute; tauto|].
  split; [reflexivity | discriminate].
Qed.

(** C5: whatever the Drive service answers, [get_drive_path] returns
    without raising, having looked up at most 20 ancestors beyond the
    starting item and written nothing; on an endless chain of parent links
    (a cycle of any length) it makes exactly 20 hops and returns the
    truncated path of 21 names. *)
Theorem get_drive_path_bounded ds id w :
  exists r hops,
    fst (get_drive_path ds id w) = Returned r /\
    snd (get_drive_path ds id w) = after (FilesGet id :: map FilesGet hops) w /\
    List.length hops <= 20 /\
    (forall P m p ps,
        endless ds P ->
        files_get ds id = Returned m -> parents m = p :: ps -> P p ->
        List.length hops = 20 /\
        exists names,
          List.length names = 21 /\ r = Some (Py.join "/" names)).
Proof.
  rewrite get_drive_path_eq.
  destruct (files_get ds id) as [m|e] eqn:Hget.
  - destruct (parents m) as [|p ps] eqn:Hpar.
    + exists (Some (name m)), [].
      split; [reflexivity|]. split; [reflexivity|]. split; [cbn; lia|].
      intros P m' p' ps' _ [= <-] Hpar' _. congruence.
    + destruct (walk_world ds max_depth p 0 [name m] (called (FilesGet id) w))
        as (ids & Hw & Hlen); [lia|].
      destruct (walk ds p 0 [name m] (called (FilesGet id) w))
        as [[parts|e] w'] eqn:Hwalk; cbn [snd] in Hw; subst w'.
      * exists (Some (Py.join "/" (rev parts))), ids.
        rewrite called_after, after_after.
        split; [reflexivity|]. split; [reflexivity|]. split; [exact Hlen|].
        intros P m' p' ps' HP [= <-] Hpar' Hp'.
        rewrite Hpar in Hpar'. injection Hpar' as <- <-.
        destruct (walk_endless ds P HP max_depth p 0 [name m]
                    (called (FilesGet id) w) Hp' eq_refl)
          as (names & ids' & Hw' & Hn & Hi).
        rewrite Hwalk in Hw'. injection Hw' as -> Hafter.
        split.
        -- apply app_inv_head in Hafter.
           apply (f_equal (@List.length _)) in Hafter.
           rewrite !length_map in Hafter. unfold max_depth in Hi. lia.
        -- exists (rev ([name m] ++ names)). split; [|reflexivity].
           rewrite length_rev, length_app. unfold max_depth in Hn. cbn. lia.
      * exists None, ids.
        rewrite called_after, after_after.
        split; [reflexivity|]. split; [reflexivity|]. split; [exact Hlen|].
        intros P m' p' ps' HP [= <-] Hpar' Hp'.
        rewrite Hpar in Hpar'. injection Hpar' as <- <-.
        destruct (walk_endless ds P HP max_depth p 0 [name m]
                    (called (FilesGet id) w) Hp' eq_refl)
          as (names & ids' & Hw' & Hn & Hi).
        rewrite Hwalk in Hw'. discriminate.
  - exists None, [].
    split; [reflexivity|]. split; [reflexivity|]. split; [cbn; lia|].
    intros P m' p' ps' _ [=].
Qed.

(** C5 (witness): the three-folder ring. *)
Lemma get_drive_path_bounded_witness :
  endless ring_drive on_ring /\
  exists r (hops : list string),
    fst (get_drive_path ring_drive "f" fresh) = Returned r /\
    List.length hops = 20 /\
    exists names, List.length names = 21 /\ r = Some (Py.join "/" names).
Proof.
  assert (Hring : endless ring_drive on_ring).
  { intros id [ -> | [ -> | -> ] ]; (split; [reflexivity|]);
      do 3 eexists; (split; [reflexivity|]); (split; [reflexivity|]);
      unfold on_ring; tauto. }
  split; [exact Hring|].
  destruct (get_drive_path_bounded ring_drive "f" fresh)
    as (r & hops & Hr & _ & _ & Hcycle).
  destruct (Hcycle on_ring _ _ _ Hring eq_refl eq_refl (or_introl eq_refl))
    as (Hhops & names & Hnames & ->).
  exists (Some (Py.join "/" names)), hops.
  split; [exact Hr|]. split; [exact Hhops|].
  exists names. split; [exact Hnames | reflexivity].
Defined.

(** The ring, evaluated: twenty hops, twenty-one names. *)
Example ring_drive_path :
  get_drive_path ring_drive "f" fresh
  = (Returned (Some "B/A/C/B/A/C/B/A/C/B/A/C/B/A/C/B/A/C/B/A/leaf"),
     after (FilesGet "f"
            :: map FilesGet ["a"; "b"; "c"; "a"; "b"; "c"; "a"; "b"; "c"; "a";
                             "b"; "c"; "a"; "b"; "c"; "a"; "b"; "c"; "a"; "b"])
           fresh).
Proof. vm_compute. reflexivity. Qed.

(** ** Strings and lists *)

Lemma split_not_nil sep s : Py.split sep s <> [].
Proof.
  destruct s as [|c s]; cbn [Py.split]; [discriminate|].
  destruct (Ascii.eqb c sep); [discriminate|].
  destruct (Py.split sep s); discriminate.
Qed.

Lemma split_no_sep sep s : has_char sep s = false -> Py.split sep s = [s].
Proof.
  induction s as [|c s IH]; cbn [Py.split has_char]; [reflexivity|].
  intros H. apply orb_false_iff in H as [Hc Hs].
  rewrite Hc, (IH Hs). reflexivity.
Qed.

Lemma split_app_sep sep a b :
  has_char sep a = false ->
  Py.split sep (a ++ String sep b)%string = a :: Py.split sep b.
Proof.
  induction a as [|c a IH]; simpl.
  - intros _. rewrite Ascii.eqb_refl. reflexivity.
  - intros H. apply orb_false_iff in H as [Hc Ha].
    rewrite Hc, (IH Ha). reflexivity.
Qed.

(** Splitting undoes joining when no part contains the separator. *)
Lemma split_join parts :
  parts <> [] ->
  Forall (fun s => has_char "/" s = false) parts ->
  Py.split "/" (Py.join "/" parts) = parts.
Proof.
  intros Hne Hall. induction Hall as [|x l Hx Hl IH]; [congruence|].
  destruct l as [|y l].
  - cbn. now apply split_no_sep.
  - change (Py.join "/" (x :: y :: l))
      with (x ++ String "/" (Py.join "/" (y :: l)))%string.
    rewrite split_app_sep by exact Hx. rewrite IH by discriminate.
    reflexivity.
Qed.

(** Joining undoes splitting, always. *)
Lemma join_split s : Py.join "/" (Py.split "/" s) = s.
Proof.
  induction s as [|c s IH]; [reflexivity|].
  cbn [Py.split]. destruct (Ascii.eqb_spec c "/") as [->|Hc].
  - pose proof (split_not_nil "/" s) as Hne.
    destruct (Py.split "/" s) as [|p ps]; [congruence|].
    change (Py.join "/" ("" :: p :: ps))
      with (String "/" (Py.join "/" (p :: ps))).
    now rewrite IH.
  - pose proof (split_not_nil "/" s) as Hne.
    destruct (Py.split "/" s) as [|p ps]; [congruence|].
    rewrite <- IH. destruct ps; reflexivity.
Qed.

Lemma index_first x pre rest :
  ~ In x pre -> Py.index x (pre ++ x :: rest) = Some (List.length pre).
Proof.
  induction pre as [|y pre IH]; cbn; intros Hn.
  - now rewrite String.eqb_refl.
  - destruct (String.eqb_spec y x) as [->|_]; [tauto|].
    rewrite IH by tauto. reflexivity.
Qed.

Lemma index_absent x l : ~ In x l -> Py.index x l = None.
Proof.
  induction l as [|y l IH]; cbn; intros Hn; [reflexivity|].
  destruct (String.eqb_spec y x) as [->|_]; [tauto|].
  rewrite IH by tauto. reflexivity.
Qed.

Lemma drop_past pre (x : string) rest :
  drop (List.length pre + 1) (pre ++ x :: rest) = rest.
Proof. induction pre as [|y pre IH]; cbn; [reflexivity | exact IH]. Qed.

Lemma last_item_snoc l x : Py.last_item (l ++ [x]) = x.
Proof. unfold Py.last_item. apply List.last_last. Qed.

Lemma all_but_last_snoc l x : Py.all_but_last (l ++ [x]) = l.
Proof.
  unfold Py.all_but_last. rewrite length_app. cbn [List.length].
  replace (List.length l + 1 - 1) with (List.length l) by lia.
  induction l as [|y l IH]; cbn; [reflexivity | now rewrite IH].
Qed.

Lemma folder_path_of_snoc l x : folder_path_of (l ++ [x]) = Py.join "/" l.
Proof.
  unfold folder_path_of. rewrite all_but_last_snoc.
  destruct l as [|y l]; [reflexivity|].
  rewrite length_app. cbn [List.length].
  replace (1 <? S (List.length l) + 1)%nat with true; [reflexivity|].
  symmetry. apply Nat.ltb_lt. lia.
Qed.

(** ** The walk does not depend on the world it starts in *)

Lemma get_drive_path_fst ds id w w' :
  fst (get_drive_path ds id w) = fst (get_drive_path ds id w').
Proof.
  rewrite !get_drive_path_eq.
  destruct (files_get ds id) as [m|e]; [|reflexivity].
  destruct (parents m) as [|p ps]; [reflexivity|].
  pose proof (walk_fst ds max_depth p 0 [name m] (called (FilesGet id) w)
                       (called (FilesGet id) w') (Nat.le_refl _)) as H.
  destruct (walk ds p 0 [name m] (called (FilesGet id) w)) as [[parts|e] w1];
    destruct (walk ds p 0 [name m] (called (FilesGet id) w'))
      as [[parts'|e'] w1']; cbn in H; try discriminate; try reflexivity.
  now injection H as ->.
Qed.

Lemma get_drive_path_lookups ds id w :
  lookups_only w (snd (get_drive_path ds id w)).
Proof.
  rewrite get_drive_path_eq.
  destruct (files_get ds id) as [m|e];
    [|split; [reflexivity | now exists [id]]].
  destruct (parents m) as [|p ps];
    [split; [reflexivity | now exists [id]]|].
  destruct (walk_world ds max_depth p 0 [name m] (called (FilesGet id) w))
    as (ids & Hw & _); [lia|].
  destruct (walk ds p 0 [name m] (called (FilesGet id) w)) as [[parts|e] w'];
    cbn [snd] in *; subst w'; rewrite called_after, after_after;
    (split; [reflexivity | now exists (id :: ids)]).
Qed.

(** ** Re-rooting *)

Lemma relative_path_eq ds file_id shared_folder_id w :
  get_relative_path_from_shared_folder ds file_id shared_folder_id w =
  match get_drive_path ds file_id w with
  | (Returned (Some full_path), w1) =>
      if Py.truthy full_path then
        (match files_get ds shared_folder_id with
         | Returned shared =>
             Returned (relative_to (name shared) (Py.split "/" full_path))
         | Raised _ => Returned (None, None)
         end, called (FilesGet shared_folder_id) w1)
      else (Returned (None, None), w1)
  | (_, w1) => (Returned (None, None), w1)
  end.
Proof.
  unfold get_relative_path_from_shared_folder, try_except_Exception, bind.
  destruct (get_drive_path ds file_id w) as [[[full_path|]|e] w1];
    try reflexivity.
  destruct (Py.truthy full_path); cbn [negb]; [|reflexivity].
  rewrite get_file_metadata_eq.
  destruct (files_get ds shared_folder_id) as [shared|[msg|msg]];
    try reflexivity.
  unfold relative_to.
  destruct (Py.index (name shared) (Py.split "/" full_path)) as [i|];
    [|reflexivity].
  destruct (drop (i + 1) (Py.split "/" full_path)); reflexivity.
Qed.

Lemma relative_path_lookups ds file_id shared_folder_id w :
  lookups_only w
    (snd (get_relative_path_from_shared_folder ds file_id shared_folder_id w)).
Proof.
  rewrite relative_path_eq.
  destruct (get_drive_path_lookups ds file_id w) as (Hg & ids & Hc).
  destruct (get_drive_path ds file_id w) as [[[full_path|]|e] w1];
    cbn [snd] in *; try (split; [exact Hg | now exists ids]).
  destruct (Py.truthy full_path); cbn [snd];
    [|split; [exact Hg | now exists ids]].
  split; [exact Hg|]. exists (ids ++ [shared_folder_id]).
  cbn. rewrite Hc, map_app, <- app_assoc. reflexivity.
Qed.

(** The re-rooting, in terms of the components of the walked path. *)
Lemma relative_path_of_parts ds file_id shared_folder_id w full_path shared :
  fst (get_drive_path ds file_id w) = Returned (Some full_path) ->
  full_path <> "" ->
  files_get ds shared_folder_id = Returned shared ->
  fst (get_relative_path_from_shared_folder ds file_id shared_folder_id w)
  = Returned (relative_to (name shared) (Py.split "/" full_path)).
Proof.
  intros Hpath Hne Hshared. rewrite relative_path_eq.
  destruct (get_drive_path ds file_id w) as [r w1]. cbn [fst] in Hpath.
  subst r. destruct full_path as [|c s]; [congruence|]. cbn [Py.truthy].
  rewrite Hshared. reflexivity.
Qed.

Lemma relative_to_below root pre mid last :
  ~ In root pre ->
  relative_to root (pre ++ root :: mid ++ [last])
  = (Some last, Some (Py.join "/" mid)).
Proof.
  intros Hpre. unfold relative_to.
  rewrite index_first by exact Hpre. rewrite drop_past.
  destruct (mid ++ [last]) as [|x l] eqn:E.
  - destruct mid; discriminate.
  - rewrite <- E, last_item_snoc, folder_path_of_snoc. reflexivity.
Qed.

Lemma relative_to_fallback root init last :
  ~ In root (init ++ [last]) ->
  relative_to root (init ++ [last]) = (Some last, Some (Py.join "/" init)).
Proof.
  intros Hno. unfold relative_to.
  rewrite index_absent by exact Hno.
  rewrite last_item_snoc, folder_path_of_snoc. reflexivity.
Qed.

Lemma relative_to_at_root root pre :
  ~ In root pre -> relative_to root (pre ++ [root]) = (None, Some "").
Proof.
  intros Hpre. unfold relative_to.
  rewrite index_first by exact Hpre. rewrite drop_past. reflexivity.
Qed.

(** The re-rooting in terms of the components of the walked path: what is
    returned when the shared folder's name is one of them ... *)
Lemma relative_parts_below_root
    ds file_id shared_folder_id w full_path shared pre mid last :
  fst (get_drive_path ds file_id w) = Returned (Some full_path) ->
  files_get ds shared_folder_id = Returned shared ->
  Py.split "/" full_path = pre ++ name shared :: mid ++ [last] ->
  ~ In (name shared) pre ->
  fst (get_relative_path_from_shared_folder ds file_id shared_folder_id w)
  = Returned (Some last, Some (Py.join "/" mid)).
Proof.
  intros Hpath Hshared Hparts Hpre.
  rewrite (relative_path_of_parts _ _ _ _ _ _ Hpath) with (2 := Hshared).
  - rewrite Hparts, relative_to_below by exact Hpre. reflexivity.
  - intros ->. cbn in Hparts. destruct pre as [|? [|? ?]]; try discriminate.
    destruct mid; discriminate.
Qed.

(** ... and when it is none of them. *)
Lemma relative_parts_fallback
    ds file_id shared_folder_id w full_path shared init last :
  fst (get_drive_path ds file_id w) = Returned (Some full_path) ->
  full_path <> "" ->
  files_get ds shared_folder_id = Returned shared ->
  Py.split "/" full_path = init ++ [last] ->
  ~ In (name shared) (Py.split "/" full_path) ->
  fst (get_relative_path_from_shared_folder ds file_id shared_folder_id w)
  = Returned (Some last, Some (Py.join "/" init)).
Proof.
  intros Hpath Hne Hshared Hparts Hno.
  rewrite (relative_path_of_parts _ _ _ _ _ _ Hpath Hne Hshared).
  rewrite Hparts in *. now rewrite relative_to_fallback.
Qed.

(** ** The handler, stage by stage *)

Lemma authenticate_drive_eq account w :
  authenticate_drive account w =
  (Returned (match build_drive account with
             | Returned ds => Some ds
             | Raised _ => None
             end), w).
Proof.
  unfold authenticate_drive, try_except_Exception.
  destruct (build_drive account); reflexivity.
Qed.

Lemma authenticate_gcs_eq account w :
  authenticate_gcs account w =
  (Returned (match storage_client account with
             | Returned gc => Some gc
             | Raised _ => None
             end), w).
Proof.
  unfold authenticate_gcs, try_except_Exception.
  destruct (storage_client account); reflexivity.
Qed.

Lemma download_drive_file_eq ds file_id mime_type w :
  download_drive_file ds file_id mime_type w =
  (match snd (download_request ds file_id mime_type) with
   | Returned file_content =>
       Returned (Some file_content, Some (download_extension mime_type))
   | Raised (HttpError _) => Returned (None, None)
   | Raised e => Raised e
   end, called (fst (download_request ds file_id mime_type)) w).
Proof.
  unfold download_drive_file, download_request, download_extension,
    try_except_HttpError, execute, bind, record_call.
  destruct (is_google_apps mime_type).
  - destruct (dict_get export_formats (default "" mime_type)
                       ("application/pdf", ".pdf")) as [emt ext].
    cbn [fst snd].
    destruct (files_export_media ds file_id emt) as [c|[msg|msg]]; reflexivity.
  - cbn [fst snd].
    destruct (files_get_media ds file_id) as [c|[msg|msg]]; reflexivity.
Qed.

Lemma upload_to_gcs_eq gc bucket_name blob_name file_content w :
  upload_to_gcs gc bucket_name blob_name file_content w =
  match upload_error gc bucket_name blob_name with
  | None =>
      (Returned true,
       mkWorld (<[(bucket_name, blob_name) := file_content]> (gcs_objects w))
               (calls w ++ [BlobUploadFromFile bucket_name blob_name]))
  | Some _ =>
      (Returned false, called (BlobUploadFromFile bucket_name blob_name) w)
  end.
Proof.
  unfold upload_to_gcs, try_except_Exception, blob_upload, bind, record_call.
  destruct (upload_error gc bucket_name blob_name); reflexivity.
Qed.

(** C7: [validate_file_path] accepts every path. *)
Theorem validate_file_path_accepts_all file_path :
  validate_file_path file_path = true.
Proof.
  unfold validate_file_path.
  destruct (negb (Py.truthy_opt file_path)); [reflexivity|].
  induction (Py.split "/" (default "" file_path)) as [|part rest IH];
    [reflexivity|].
  cbn [validate_loop]. destruct (existsb (String.eqb part) ["2025"]);
    [reflexivity | exact IH].
Qed.

Lemma create_folder_returns gc bucket_name gcs_path w :
  exists b, fst (create_gcs_folder_structure gc bucket_name gcs_path w)
            = Returned b.
Proof.
  unfold create_gcs_folder_structure, try_except_Exception.
  match goal with |- context [match ?body w with _ => _ end] =>
    destruct (body w) as [[b|e] w'] end; eexists; reflexivity.
Qed.

(** The handler on an item that is found and is not a folder. *)
Lemma handle_webhook_file cfg account data w file_id ds gc m :
  requested data file_id ->
  build_drive account = Returned ds ->
  storage_client account = Returned gc ->
  files_get ds file_id = Returned m ->
  is_folder m = false ->
  handle_webhook cfg account data w =
  match get_relative_path_from_shared_folder
          ds file_id (SHARED_FOLDER_ID cfg) (called (FilesGet file_id) w) with
  | (Returned (Some (String c s), relative_folder_path), w2) =>
      let file_name := String c s in
      let key := destination cfg relative_folder_path file_name (mimeType m) in
      let w4 := called (fst (download_request ds file_id (mimeType m)))
                       (before_download cfg gc relative_folder_path w2) in
      match snd (download_request ds file_id (mimeType m)) with
      | Returned file_content =>
          match upload_error gc (BUCKET_NAME cfg) key with
          | None =>
              (Returned (replicated_body file_id file_name m
                                         relative_folder_path key, 200),
               mkWorld (<[(BUCKET_NAME cfg, key) := file_content]>
                          (gcs_objects w4))
                       (calls w4 ++ [BlobUploadFromFile (BUCKET_NAME cfg) key]))
          | Some _ =>
              (Returned (error_body
                           ("Failed to replicate: " ++ file_name)%string, 500),
               called (BlobUploadFromFile (BUCKET_NAME cfg) key) w4)
          end
      | Raised (HttpError _) =>
          (Returned (error_body "Could not download file from Drive", 500), w4)
      | Raised e => (Returned (error_body (str e), 500), w4)
      end
  | (Returned _, w2) =>
      (Returned (error_body "Could not determine file path", 500), w2)
  | (Raised e, w2) => (Returned (error_body (str e), 500), w2)
  end.
Proof.
  intros [Hreq Hid] Hdrive Hgcs Hget Hfolder.
  unfold handle_webhook, try_except_Exception, bind.
  rewrite Hreq. destruct file_id as [|c0 s0]; [discriminate|].
  rewrite authenticate_drive_eq, authenticate_gcs_eq, Hdrive, Hgcs.
  rewrite get_file_metadata_eq, Hget, Hfolder.
  destruct (get_relative_path_from_shared_folder _ _ _ _)
    as [[[[[|c s]|] rfp]|e] w2]; cbn [fst snd]; try reflexivity.
  rewrite validate_file_path_accepts_all. cbn [negb].
  unfold before_download.
  destruct (Py.truthy_opt rfp).
  - destruct (create_folder_returns gc (BUCKET_NAME cfg)
                (gcs_folder_path (GCS_BASE_PATH cfg) rfp) w2) as [b Hb].
    destruct (create_gcs_folder_structure _ _ _ w2) as [r w3].
    cbn [fst snd] in *. subst r.
    rewrite download_drive_file_eq.
    destruct (snd (download_request ds (String c0 s0) (mimeType m)))
      as [content|[msg|msg]]; cbn [fst snd]; try reflexivity.
    rewrite upload_to_gcs_eq. unfold destination.
    destruct (upload_error gc _ _); reflexivity.
  - unfold ret at 1.
    rewrite download_drive_file_eq.
    destruct (snd (download_request ds (String c0 s0) (mimeType m)))
      as [content|[msg|msg]]; cbn [fst snd]; try reflexivity.
    rewrite upload_to_gcs_eq. unfold destination.
    destruct (upload_error gc _ _); reflexivity.
Qed.

(** The handler when a client cannot be built. *)
Lemma handle_webhook_unauthenticated cfg account data w file_id :
  requested data file_id ->
  (exists e, build_drive account = Raised e)
  \/ (exists e, storage_client account = Raised e) ->
  handle_webhook cfg account data w
  = (Returned (error_body "Authentication failed", 500), w).
Proof.
  intros [Hreq Hid] Hauth.
  unfold handle_webhook, try_except_Exception, bind.
  rewrite Hreq. destruct file_id as [|c0 s0]; [discriminate|].
  rewrite authenticate_drive_eq, authenticate_gcs_eq.
  destruct Hauth as [[e He]|[e He]]; rewrite He.
  - reflexivity.
  - destruct (build_drive account); reflexivity.
Qed.

(** The handler up to the metadata of the requested item. *)
Lemma handle_webhook_lookup cfg account data w file_id ds gc :
  requested data file_id ->
  build_drive account = Returned ds ->
  storage_client account = Returned gc ->
  (forall msg, files_get ds file_id = Raised (HttpError msg) ->
     handle_webhook cfg account data w
     = (Returned (error_body "Could not retrieve file metadata", 404),
        called (FilesGet file_id) w))
  /\ (forall m, files_get ds file_id = Returned m -> is_folder m = true ->
        handle_webhook cfg account data w
        = (Returned ([("success", JBool true);
                      ("message",
                       JString "Skipped folder - only processing files");
                      ("file_id", JString file_id)], 200),
           called (FilesGet file_id) w)).
Proof.
  intros [Hreq Hid] Hdrive Hgcs.
  unfold handle_webhook, try_except_Exception, bind.
  rewrite Hreq. destruct file_id as [|c0 s0]; [discriminate|].
  rewrite authenticate_drive_eq, authenticate_gcs_eq, Hdrive, Hgcs.
  rewrite get_file_metadata_eq.
  split.
  - intros msg ->. reflexivity.
  - intros m -> ->. reflexivity.
Qed.

(** C8: each kind of failure is answered with its status -- 500 for a
    failed authentication, 404 for an identifier without metadata, 500 for
    an unresolved path, 500 for a failed download or upload -- and with an
    error message; the world is left as the failing step left it, so
    nothing is tried again. *)
Theorem handle_webhook_failure cfg account data w k msg w' :
  fails cfg account data w k msg w' ->
  handle_webhook cfg account data w
  = (Returned (error_body msg, failure_status k), w').
Proof.
  intros [file_id e Hreq He
         |file_id e Hreq He
         |file_id ds gc m Hreq Hds Hgc Hget
         |file_id ds gc m file_name rfp w2 Hreq Hds Hgc Hget Hfolder Hrel Hname
         |file_id ds gc m file_name rfp w2 e Hreq Hds Hgc Hget Hfolder Hrel
            Hname Hdl
         |file_id ds gc m file_name rfp w2 content e Hreq Hds Hgc Hget Hfolder
            Hrel Hname Hdl Hup].
  - eapply handle_webhook_unauthenticated; eauto.
  - eapply handle_webhook_unauthenticated; eauto.
  - eapply (proj1 (handle_webhook_lookup cfg account data w _ _ _
                     Hreq Hds Hgc)); eauto.
  - rewrite (handle_webhook_file _ _ _ _ _ _ _ _ Hreq Hds Hgc Hget Hfolder).
    rewrite Hrel. destruct file_name as [[|c s]|]; try reflexivity.
    discriminate.
  - rewrite (handle_webhook_file _ _ _ _ _ _ _ _ Hreq Hds Hgc Hget Hfolder).
    rewrite Hrel. destruct file_name as [|c s]; [discriminate|].
    cbv zeta. rewrite Hdl. destruct e; reflexivity.
  - rewrite (handle_webhook_file _ _ _ _ _ _ _ _ Hreq Hds Hgc Hget Hfolder).
    rewrite Hrel. destruct file_name as [|c s]; [discriminate|].
    cbv zeta. rewrite Hdl, Hup. reflexivity.
Qed.

(** C8 (witness): one request for each failure. *)
Lemma handle_webhook_failure_witness :
  fst (handle_webhook test_config
         (mkAccount (Raised (OtherException "bad key")) (Returned willing_gcs))
         [("file_id", "q")] fresh)
  = Returned (error_body "Authentication failed", 500)
  /\ fst (handle_webhook test_config
            (mkAccount (Returned finance_drive) (Returned willing_gcs))
            [("file_id", "zzz")] fresh)
     = Returned (error_body "Could not retrieve file metadata", 404)
  /\ fst (handle_webhook test_config
            (mkAccount (Returned outside_drive) (Returned willing_gcs))
            [("id", "g")] fresh)
     = Returned (error_body "Could not determine file path", 500)
  /\ fst (handle_webhook test_config
            (mkAccount (Returned sealed_finance_drive) (Returned willing_gcs))
            [("id", "q")] fresh)
     = Returned (error_body "Could not download file from Drive", 500)
  /\ fst (handle_webhook test_config
            (mkAccount (Returned finance_drive) (Returned refusing_gcs))
            [("id", "q")] fresh)
     = Returned (error_body "Failed to replicate: Q3.gsheet", 500).
Proof.
  assert (Hq : requested [("id", "q")] "q") by (split; reflexivity).
  split; [|split; [|split; [|split]]].
  - rewrite (handle_webhook_failure _ _ _ _ _ _ _
               (drive_login_fails test_config
                  (mkAccount (Raised (OtherException "bad key"))
                             (Returned willing_gcs))
                  [("file_id", "q")] fresh "q" (OtherException "bad key")
                  (conj eq_refl eq_refl) eq_refl)).
    reflexivity.
  - rewrite (handle_webhook_failure _ _ _ _ _ _ _
               (lookup_fails test_config
                  (mkAccount (Returned finance_drive) (Returned willing_gcs))
                  [("file_id", "zzz")] fresh "zzz" finance_drive willing_gcs
                  "File not found" (conj eq_refl eq_refl)
                  eq_refl eq_refl eq_refl)).
    reflexivity.
  - rewrite (handle_webhook_failure _ _ _ _ _ _ _
               (path_fails test_config
                  (mkAccount (Returned outside_drive) (Returned willing_gcs))
                  [("id", "g")] fresh "g" outside_drive willing_gcs
                  (mkMetadata "Root" [] (Some "text/plain")) None (Some "")
                  (after [FilesGet "g"; FilesGet "g"; FilesGet "r"] fresh)
                  (conj eq_refl eq_refl)
                  eq_refl eq_refl eq_refl eq_refl eq_refl eq_refl)).
    reflexivity.
  - rewrite (handle_webhook_failure _ _ _ _ _ _ _
               (download_fails test_config
                  (mkAccount (Returned sealed_finance_drive)
                             (Returned willing_gcs))
                  [("id", "q")] fresh "q" sealed_finance_drive willing_gcs
                  (mkMetadata "Q3.gsheet" ["y"]
                     (Some "application/vnd.google-apps.spreadsheet"))
                  "Q3.gsheet" (Some "Finance/2025")
                  (after (map FilesGet ["q"; "q"; "y"; "n"; "r"; "d"; "r"])
                         fresh)
                  (HttpError "403 Forbidden") Hq
                  eq_refl eq_refl eq_refl eq_refl eq_refl eq_refl eq_refl)).
    reflexivity.
  - rewrite (handle_webhook_failure _ _ _ _ _ _ _
               (upload_fails test_config
                  (mkAccount (Returned finance_drive) (Returned refusing_gcs))
                  [("id", "q")] fresh "q" finance_drive refusing_gcs
                  (mkMetadata "Q3.gsheet" ["y"]
                     (Some "application/vnd.google-apps.spreadsheet"))
                  "Q3.gsheet" (Some "Finance/2025")
                  (after (map FilesGet ["q"; "q"; "y"; "n"; "r"; "d"; "r"])
                         fresh)
                  [] (OtherException "403 Forbidden") Hq
                  eq_refl eq_refl eq_refl eq_refl eq_refl eq_refl eq_refl
                  eq_refl)).
    reflexivity.
Defined.

(** C9: an item whose MIME type is the folder type is answered with 200
    and the skip message; the only call made is the lookup of the item
    itself, and the destination store is as it was. *)
Theorem handle_webhook_skips_folder cfg account data w file_id ds gc m :
  requested data file_id ->
  build_drive account = Returned ds ->
  storage_client account = Returned gc ->
  files_get ds file_id = Returned m ->
  mimeType m = Some "application/vnd.google-apps.folder" ->
  fst (handle_webhook cfg account data w)
  = Returned ([("success", JBool true);
               ("message", JString "Skipped folder - only processing files");
               ("file_id", JString file_id)], 200)
  /\ calls (snd (handle_webhook cfg account data w))
     = calls w ++ [FilesGet file_id]
  /\ gcs_objects (snd (handle_webhook cfg account data w)) = gcs_objects w.
Proof.
  intros Hreq Hds Hgc Hget Hmime.
  assert (Hfolder : is_folder m = true)
    by (unfold is_folder; rewrite Hmime; reflexivity).
  rewrite (proj2 (handle_webhook_lookup cfg account data w _ _ _ Hreq Hds Hgc)
             m Hget Hfolder).
  repeat split.
Qed.

(** C9 (witness): the folder [2025] of the finance tree. *)
Lemma handle_webhook_skips_folder_witness :
  fst (handle_webhook test_config
         (mkAccount (Returned finance_drive) (Returned willing_gcs))
         [("file_id", "y")] fresh)
  = Returned ([("success", JBool true);
               ("message", JString "Skipped folder - only processing files");
               ("file_id", JString "y")], 200)
  /\ calls (snd (handle_webhook test_config
                   (mkAccount (Returned finance_drive) (Returned willing_gcs))
                   [("file_id", "y")] fresh))
     = calls fresh ++ [FilesGet "y"]
  /\ gcs_objects (snd (handle_webhook test_config
                         (mkAccount (Returned finance_drive)
                                    (Returned willing_gcs))
                         [("file_id", "y")] fresh))
     = gcs_objects fresh.
Proof.
  apply (handle_webhook_skips_folder test_config
           (mkAccount (Returned finance_drive) (Returned willing_gcs))
           [("file_id", "y")] fresh "y" finance_drive willing_gcs
           (mkMetadata "2025" ["n"] (Some "application/vnd.google-apps.folder"))).
  - split; reflexivity.
  - reflexivity.
  - reflexivity.
  - reflexivity.
  - reflexivity.
Defined.

(** C10 (as amended): when the first occurrence of the shared folder's name
    among the components of the walked path is the last component,
    [get_relative_path_from_shared_folder] returns [(None, "")]; the
    handler, for an item that is not of the folder type, then answers 500
    with a path-resolution error, having made metadata lookups only. *)
Theorem relative_path_at_root ds file_id cfg w full_path shared pre :
  fst (get_drive_path ds file_id w) = Returned (Some full_path) ->
  full_path <> "" ->
  files_get ds (SHARED_FOLDER_ID cfg) = Returned shared ->
  Py.split "/" full_path = pre ++ [name shared] ->
  ~ In (name shared) pre ->
  fst (get_relative_path_from_shared_folder
         ds file_id (SHARED_FOLDER_ID cfg) w)
  = Returned (None, Some "")
  /\ forall account data gc m,
       requested data file_id ->
       build_drive account = Returned ds ->
       storage_client account = Returned gc ->
       files_get ds file_id = Returned m ->
       is_folder m = false ->
       fst (handle_webhook cfg account data w)
       = Returned (error_body "Could not determine file path", 500)
       /\ lookups_only w (snd (handle_webhook cfg account data w)).
Proof.
  intros Hpath Hne Hshared Hparts Hpre.
  assert (Hrel : forall w0,
             fst (get_relative_path_from_shared_folder
                    ds file_id (SHARED_FOLDER_ID cfg) w0)
             = Returned (None, Some "")).
  { intros w0.
    rewrite (relative_path_of_parts ds file_id _ w0 full_path shared);
      [|rewrite (get_drive_path_fst ds file_id w0 w); exact Hpath
       |exact Hne|exact Hshared].
    rewrite Hparts, relative_to_at_root by exact Hpre. reflexivity. }
  split; [apply Hrel|].
  intros account data gc m Hreq Hds Hgc Hget Hfolder.
  rewrite (handle_webhook_file _ _ _ _ _ _ _ _ Hreq Hds Hgc Hget Hfolder).
  pose proof (Hrel (called (FilesGet file_id) w)) as Hrun.
  pose proof (relative_path_lookups ds file_id (SHARED_FOLDER_ID cfg)
                (called (FilesGet file_id) w)) as (Hstore & ids & Hcalls).
  destruct (get_relative_path_from_shared_folder _ _ _ _) as [r w2].
  cbn [fst snd] in *. subst r. cbn [fst snd].
  split; [reflexivity|]. split; [exact Hstore|].
  exists (file_id :: ids). rewrite Hcalls. cbn. rewrite <- app_assoc.
  reflexivity.
Qed.

(** C10 (witness): a text file named like the shared folder. *)
Lemma relative_path_at_root_witness :
  fst (get_relative_path_from_shared_folder
         outside_drive "g" (SHARED_FOLDER_ID test_config) fresh)
  = Returned (None, Some "")
  /\ fst (handle_webhook test_config
            (mkAccount (Returned outside_drive) (Returned willing_gcs))
            [("id", "g")] fresh)
     = Returned (error_body "Could not determine file path", 500).
Proof.
  destruct (relative_path_at_root outside_drive "g" test_config fresh "Root"
              (mkMetadata "Root" []
                          (Some "application/vnd.google-apps.folder")) [])
    as [Hrel Hhandler].
  - reflexivity.
  - discriminate.
  - reflexivity.
  - reflexivity.
  - intros [].
  - split; [exact Hrel|].
    apply (Hhandler
             (mkAccount (Returned outside_drive) (Returned willing_gcs))
             [("id", "g")] willing_gcs
             (mkMetadata "Root" [] (Some "text/plain"))).
    + split; reflexivity.
    + reflexivity.
    + reflexivity.
    + reflexivity.
    + reflexivity.
Defined.

(** C10 (counterexample): the request names the shared folder itself.  Its
    name is the last component of its path and the re-rooting yields
    [(None, "")], yet the handler answers 200: the folder is skipped before
    any path is resolved. *)
Lemma handle_webhook_on_shared_root :
  fst (get_drive_path finance_drive "r" fresh) = Returned (Some "My Drive/Root")
  /\ Py.split "/" "My Drive/Root" = ["My Drive"; "Root"]
  /\ fst (get_relative_path_from_shared_folder
            finance_drive "r" (SHARED_FOLDER_ID test_config) fresh)
     = Returned (None, Some "")
  /\ fst (handle_webhook test_config
            (mkAccount (Returned finance_drive) (Returned willing_gcs))
            [("file_id", "r")] fresh)
     = Returned ([("success", JBool true);
                  ("message", JString "Skipped folder - only processing files");
                  ("file_id", JString "r")], 200)
  /\ fst (handle_webhook test_config
            (mkAccount (Returned finance_drive) (Returned willing_gcs))
            [("file_id", "r")] fresh)
     <> Returned (error_body "Could not determine file path", 500).
Proof.
  split; [reflexivity|]. split; [reflexivity|]. split; [reflexivity|].
  split; [reflexivity|]. vm_compute. discriminate.
Qed.

(** ** The destination key *)

Lemma string_app_assoc (a b c : string) :
  ((a ++ b) ++ c = a ++ b ++ c)%string.
Proof.
  induction a as [|x a IH]; [reflexivity|].
  change (String x ((a ++ b) ++ c) = String x (a ++ b ++ c))%string.
  now rewrite IH.
Qed.

Lemma trailing_sep_app a b :
  b <> "" -> trailing_sep (a ++ b)%string = trailing_sep b.
Proof.
  intros Hb. unfold trailing_sep.
  induction a as [|c a IH]; [reflexivity|].
  change (String c a ++ b)%string with (String c (a ++ b)%string).
  cbn [Py.endswith]. rewrite IH.
  replace (String c (a ++ b) =? "/")%string with false; [reflexivity|].
  symmetry. apply String.eqb_neq. intros Heq. injection Heq as _ H.
  destruct a; simpl in H; [exact (Hb H) | discriminate].
Qed.

Lemma leading_sep_app a b :
  a <> "" -> leading_sep (a ++ b)%string = leading_sep a.
Proof. destruct a; [congruence | reflexivity]. Qed.

Lemma doubled_sep_join a b :
  doubled_sep a = false -> trailing_sep a = false ->
  doubled_sep b = false -> leading_sep b = false ->
  doubled_sep (a ++ "/" ++ b)%string = false.
Proof.
  intros Ha Ta Hb Lb. induction a as [|c a IH].
  - change ("" ++ "/" ++ b)%string with (String "/" b).
    cbn [doubled_sep]. now rewrite Lb, Hb, andb_false_r.
  - change (String c a ++ "/" ++ b)%string
      with (String c (a ++ "/" ++ b)%string).
    cbn [doubled_sep] in *.
    apply orb_false_iff in Ha as [Hc Ha].
    unfold trailing_sep in Ta. cbn [Py.endswith] in Ta.
    apply orb_false_iff in Ta as [Hs Ta].
    rewrite (IH Ha Ta), orb_false_r.
    destruct a as [|d a].
    + change (leading_sep ("" ++ "/" ++ b)%string) with true.
      rewrite andb_true_r. apply String.eqb_neq in Hs.
      destruct (Ascii.eqb_spec c "/") as [->|]; [congruence | reflexivity].
    + exact Hc.
Qed.

(** The key in both cases, and its separators. *)
Lemma object_name_shape base relative_folder_path filename :
  gcs_object_name (gcs_folder_path base relative_folder_path) filename
  = (if Py.truthy_opt relative_folder_path
     then base ++ "/" ++ default "" relative_folder_path ++ "/" ++ filename
     else base ++ "/" ++ filename)%string.
Proof.
  unfold gcs_object_name, gcs_folder_path.
  destruct (Py.truthy_opt relative_folder_path); [|reflexivity].
  now rewrite !string_app_assoc.
Qed.

Lemma tidy_inv s :
  tidy s = true ->
  s <> "" /\ doubled_sep s = false /\ leading_sep s = false
  /\ trailing_sep s = false.
Proof.
  unfold tidy. intros H.
  apply andb_true_iff in H as [H Ht]. apply andb_true_iff in H as [H Hl].
  apply andb_true_iff in H as [Hn Hd].
  apply negb_true_iff in Ht, Hl, Hd.
  repeat split; try assumption. intros ->. discriminate.
Qed.

(** C2 (as amended): the destination key is the base prefix, the relative
    folder path when there is one, and the file name, each separated by one
    ['/'].  The key has no doubled separator and does not end with one when
    the pieces bring none: the base prefix has no doubled ['/'] and does not
    end with one, the relative folder path is empty or tidy, and the file
    name is tidy. *)
Theorem destination_key base relative_folder_path filename :
  let key :=
    gcs_object_name (gcs_folder_path base (Some relative_folder_path))
                    filename in
  (relative_folder_path <> "" ->
   key = (base ++ "/" ++ relative_folder_path ++ "/" ++ filename)%string)
  /\ (relative_folder_path = "" -> key = (base ++ "/" ++ filename)%string)
  /\ (doubled_sep base = false -> trailing_sep base = false ->
      relative_folder_path = "" \/ tidy relative_folder_path = true ->
      tidy filename = true ->
      doubled_sep key = false /\ trailing_sep key = false).
Proof.
  intros key. unfold key. rewrite object_name_shape. cbn [default].
  split; [|split].
  - destruct relative_folder_path; [congruence | reflexivity].
  - intros ->. reflexivity.
  - intros Hbd Hbt Hrel Hfile.
    apply tidy_inv in Hfile as (Hfn & Hfd & Hfl & Hft).
    destruct Hrel as [->|Hrel].
    + cbn [Py.truthy_opt Py.truthy]. split.
      * now apply doubled_sep_join.
      * rewrite trailing_sep_app by discriminate.
        rewrite (trailing_sep_app "/" filename Hfn). exact Hft.
    + apply tidy_inv in Hrel as (Hrn & Hrd & Hrl & Hrt).
      destruct relative_folder_path as [|c r]; [congruence|].
      cbn [Py.truthy_opt Py.truthy]. split.
      * apply doubled_sep_join; [exact Hbd | exact Hbt | | exact Hrl].
        now apply doubled_sep_join.
      * rewrite trailing_sep_app by discriminate.
        rewrite (trailing_sep_app "/" _) by discriminate.
        rewrite trailing_sep_app by discriminate.
        rewrite (trailing_sep_app "/" filename Hfn). exact Hft.
Qed.

(** C2 (witness): prefix ["X"], file ["report"], under ["A/B"] and directly
    under the shared folder. *)
Lemma destination_key_witness :
  gcs_object_name (gcs_folder_path "X" (Some "A/B")) "report" = "X/A/B/report"
  /\ gcs_object_name (gcs_folder_path "X" (Some "")) "report" = "X/report"
  /\ doubled_sep (gcs_object_name (gcs_folder_path "X" (Some "A/B")) "report")
     = false
  /\ trailing_sep (gcs_object_name (gcs_folder_path "X" (Some "A/B")) "report")
     = false.
Proof.
  destruct (destination_key "X" "A/B" "report") as (Hdeep & _ & Htidy).
  destruct (destination_key "X" "" "report") as (_ & Hflat & _).
  split; [apply Hdeep; discriminate|].
  split; [apply Hflat; reflexivity|].
  apply Htidy.
  - reflexivity.
  - reflexivity.
  - right. reflexivity.
  - reflexivity.
Defined.

(** C2 (counterexample): a report in a folder named ["A/"] under the shared
    folder.  The relative folder path is ["A/"], and the key the handler
    builds and uploads to is ["X/A//report"], with a doubled ['/']:
    nothing is normalised on the way. *)
Lemma destination_key_doubled_separator :
  fst (get_relative_path_from_shared_folder
         trailing_slash_drive "p" (SHARED_FOLDER_ID test_config) fresh)
  = Returned (Some "report", Some "A/")
  /\ gcs_object_name (gcs_folder_path "X" (Some "A/")) "report"
     = "X/A//report"
  /\ doubled_sep (gcs_object_name (gcs_folder_path "X" (Some "A/")) "report")
     = true
  /\ fst (handle_webhook test_config
            (mkAccount (Returned trailing_slash_drive) (Returned willing_gcs))
            [("file_id", "p")] fresh)
     = Returned (replicated_body "p" "report"
                   (mkMetadata "report" ["a"] (Some "text/plain"))
                   (Some "A/") "X/A//report", 200)
  /\ gcs_objects
       (snd (handle_webhook test_config
               (mkAccount (Returned trailing_slash_drive)
                          (Returned willing_gcs))
               [("file_id", "p")] fresh))
     !! ("bucket", "X/A//report") = Some [].
Proof.
  split; [reflexivity|]. split; [reflexivity|]. split; [reflexivity|].
  split; vm_compute; reflexivity.
Qed.

(** ** Export extensions *)

Lemma string_app_empty (s : string) : (s ++ "")%string = s.
Proof.
  induction s as [|c s IH]; [reflexivity|].
  change (String c (s ++ "")%string = String c s). now rewrite IH.
Qed.

(** [Py.endswith] decides whether [suffix] ends [s]. *)
Lemma endswith_spec s suffix :
  Py.endswith s suffix = true <-> exists p, s = (p ++ suffix)%string.
Proof.
  induction s as [|c s IH]; cbn [Py.endswith].
  - rewrite orb_false_r. split.
    + intros H. apply String.eqb_eq in H as <-. now exists "".
    + intros [p Hp]. destruct p; [|discriminate].
      change ("" ++ suffix)%string with suffix in Hp. subst.
      apply String.eqb_refl.
  - rewrite orb_true_iff, IH. split.
    + intros [H|[p ->]].
      * apply String.eqb_eq in H as <-. now exists "".
      * now exists (String c p).
    + intros [[|c' p] Hp].
      * left. change ("" ++ suffix)%string with suffix in Hp. subst.
        apply String.eqb_refl.
      * right. change (String c' p ++ suffix)%string
          with (String c' (p ++ suffix)%string) in Hp.
        injection Hp as _ ->. now exists p.
Qed.

Lemma download_extension_spec mime_type :
  download_extension mime_type = export_extension_spec mime_type.
Proof.
  unfold download_extension, export_extension_spec, is_google_apps.
  destruct mime_type as [t|]; [|reflexivity]. cbn [default].
  destruct (String.eqb_spec t "application/vnd.google-apps.document")
    as [->|Hdoc]; [reflexivity|].
  destruct (String.eqb_spec t "application/vnd.google-apps.spreadsheet")
    as [->|Hsheet]; [reflexivity|].
  destruct (String.eqb_spec t "application/vnd.google-apps.presentation")
    as [->|Hslide]; [reflexivity|].
  cbn [dict_get export_formats]. unfold id.
  rewrite (proj2 (String.eqb_neq "application/vnd.google-apps.document" t)),
    (proj2 (String.eqb_neq "application/vnd.google-apps.spreadsheet" t)),
    (proj2 (String.eqb_neq "application/vnd.google-apps.presentation" t))
    by congruence.
  destruct t as [|c t]; [reflexivity|]. cbn [Py.truthy andb].
  destruct (Py.startswith (String c t) "application/vnd.google-apps");
    reflexivity.
Qed.

Lemma gcs_filename_eq file_name extension :
  gcs_filename file_name (Some extension)
  = if Py.endswith file_name extension then file_name
    else (file_name ++ extension)%string.
Proof.
  unfold gcs_filename. cbn [default Py.truthy_opt]. unfold id.
  destruct extension as [|c e].
  - cbn [Py.truthy andb].
    destruct (Py.endswith file_name ""); [reflexivity|].
    now rewrite string_app_empty.
  - cbn [Py.truthy andb]. destruct (Py.endswith file_name (String c e));
      reflexivity.
Qed.

(** C3: a download that succeeds hands back the extension the export
    table assigns to the MIME type -- [.pdf] for documents, [.xlsx] for
    spreadsheets, [.pptx] for presentations, [.pdf] for any other
    [application/vnd.google-apps] type, none for every other type -- and
    the destination file name is the file name followed by that extension
    exactly when the file name does not already end with it. *)
Theorem export_extension_appended ds file_id mime_type w file_name :
  let extension := export_extension_spec mime_type in
  (forall file_content,
      snd (download_request ds file_id mime_type) = Returned file_content ->
      fst (download_drive_file ds file_id mime_type w)
      = Returned (Some file_content, Some extension))
  /\ ((exists p, file_name = (p ++ extension)%string) ->
      gcs_filename file_name (Some extension) = file_name)
  /\ (~ (exists p, file_name = (p ++ extension)%string) ->
      gcs_filename file_name (Some extension)
      = (file_name ++ extension)%string)
  /\ (is_google_apps mime_type = false ->
      extension = "" /\ gcs_filename file_name (Some extension) = file_name).
Proof.
  intros extension. unfold extension. split; [|split; [|split]].
  - intros file_content Hdl.
    rewrite download_drive_file_eq, Hdl, download_extension_spec. reflexivity.
  - intros Hends. apply endswith_spec in Hends.
    now rewrite gcs_filename_eq, Hends.
  - intros Hnot. rewrite gcs_filename_eq.
    destruct (Py.endswith file_name _) eqn:E; [|reflexivity].
    apply endswith_spec in E. contradiction.
  - intros Hplain. rewrite <- download_extension_spec.
    unfold download_extension. rewrite Hplain. split; reflexivity.
Qed.

(** C3 (witness): the spreadsheet [Q3.gsheet], a name that already carries
    the extension, and a plain image. *)
Lemma export_extension_witness :
  fst (download_drive_file finance_drive "q"
         (Some "application/vnd.google-apps.spreadsheet") fresh)
  = Returned (Some [], Some ".xlsx")
  /\ gcs_filename "Q3.gsheet" (Some ".xlsx") = "Q3.gsheet.xlsx"
  /\ gcs_filename "Q3.xlsx" (Some ".xlsx") = "Q3.xlsx"
  /\ gcs_filename "photo.jpg" (Some "") = "photo.jpg".
Proof.
  destruct (export_extension_appended finance_drive "q"
              (Some "application/vnd.google-apps.spreadsheet") fresh
              "Q3.gsheet") as (Hdl & _ & Happend & _).
  destruct (export_extension_appended finance_drive "q"
              (Some "application/vnd.google-apps.spreadsheet") fresh
              "Q3.xlsx") as (_ & Hkeep & _).
  destruct (export_extension_appended finance_drive "q" (Some "image/jpeg") fresh
              "photo.jpg") as (_ & _ & _ & Hplain).
  split; [apply Hdl; reflexivity|].
  split; [apply Happend|].
  { intros H. apply endswith_spec in H. discriminate H. }
  split; [apply Hkeep; now exists "Q3"|].
  apply Hplain. reflexivity.
Defined.

(** ** A request that succeeds *)

Lemma handle_webhook_replicates
    cfg account data w file_id ds gc m file_name relative_folder_path w2
    file_content :
  requested data file_id ->
  build_drive account = Returned ds ->
  storage_client account = Returned gc ->
  files_get ds file_id = Returned m ->
  is_folder m = false ->
  get_relative_path_from_shared_folder
    ds file_id (SHARED_FOLDER_ID cfg) (called (FilesGet file_id) w)
  = (Returned (Some file_name, relative_folder_path), w2) ->
  Py.truthy file_name = true ->
  snd (download_request ds file_id (mimeType m)) = Returned file_content ->
  upload_error gc (BUCKET_NAME cfg)
    (destination cfg relative_folder_path file_name (mimeType m)) = None ->
  let key := destination cfg relative_folder_path file_name (mimeType m) in
  fst (handle_webhook cfg account data w)
  = Returned (replicated_body file_id file_name m relative_folder_path key, 200)
  /\ gcs_objects (snd (handle_webhook cfg account data w))
       !! (BUCKET_NAME cfg, key) = Some file_content.
Proof.
  intros Hreq Hds Hgc Hget Hfolder Hrel Hname Hdl Hup key. subst key.
  rewrite (handle_webhook_file _ _ _ _ _ _ _ _ Hreq Hds Hgc Hget Hfolder).
  rewrite Hrel. destruct file_name as [|c s]; [discriminate|].
  cbv zeta. rewrite Hdl, Hup. cbn [fst snd gcs_objects].
  split; [reflexivity|]. apply lookup_insert_eq.
Qed.

(** A request that names no file is refused before anything is called. *)
Lemma handle_webhook_without_id cfg account data w :
  Py.truthy_opt (Py.or_else (data_get data "file_id") (data_get data "id"))
  = false ->
  handle_webhook cfg account data w
  = (Returned (error_body "File ID not provided", 400), w).
Proof.
  intros H. unfold handle_webhook, try_except_Exception.
  destruct (Py.or_else _ _) as [[|c s]|]; try reflexivity. discriminate.
Qed.

(** The two scenarios of the specification: [Q3.gsheet] under
    [Root/Finance/2025], and a file directly inside the shared folder. *)
Example mirror_q3 :
  fst (handle_webhook test_config
         (mkAccount (Returned finance_drive) (Returned willing_gcs))
         [("file_id", "q")] fresh)
  = Returned (replicated_body "q" "Q3.gsheet"
                (mkMetadata "Q3.gsheet" ["y"]
                   (Some "application/vnd.google-apps.spreadsheet"))
                (Some "Finance/2025") "X/Finance/2025/Q3.gsheet.xlsx", 200).
Proof. vm_compute. reflexivity. Qed.

Example mirror_directly_under_root :
  fst (handle_webhook test_config
         (mkAccount (Returned finance_drive) (Returned willing_gcs))
         [("file_id", "b")] fresh)
  = Returned (replicated_body "b" "budget.csv"
                (mkMetadata "budget.csv" ["r"] (Some "text/csv"))
                (Some "") "X/budget.csv", 200).
Proof. vm_compute. reflexivity. Qed.

(** ** Names and path components

    The re-rooting works on the components of the joined path.  They are
    the names the walk gathered as long as no name contains ['/']. *)

Lemma path_chain_not_nil ds id chain : path_chain ds id chain -> chain <> [].
Proof.
  intros [m _ _|m p ps names _ _ _]; [discriminate|].
  cbn [rev]. destruct (rev names); discriminate.
Qed.



(** The chain of [Q3.gsheet]. *)
Lemma finance_chain :
  path_chain finance_drive "q"
             ["My Drive"; "Root"; "Finance"; "2025"; "Q3.gsheet"].
Proof.
  apply (chain_ascent finance_drive "q"
           (mkMetadata "Q3.gsheet" ["y"]
              (Some "application/vnd.google-apps.spreadsheet"))
           "y" [] ["2025"; "Finance"; "Root"; "My Drive"]);
    [reflexivity | reflexivity |].
  apply (ascent_hop finance_drive 19 "y"
           (mkMetadata "2025" ["n"] (Some "application/vnd.google-apps.folder"))
           "n" []); [reflexivity | reflexivity | reflexivity |].
  apply (ascent_hop finance_drive 18 "n"
           (mkMetadata "Finance" ["r"]
              (Some "application/vnd.google-apps.folder"))
           "r" []); [reflexivity | reflexivity | reflexivity |].
  apply (ascent_hop finance_drive 17 "r"
           (mkMetadata "Root" ["d"] (Some "application/vnd.google-apps.folder"))
           "d" []); [reflexivity | reflexivity | reflexivity |].
  apply (ascent_top finance_drive 16 "d"
           (mkMetadata "My Drive" []
              (Some "application/vnd.google-apps.folder"))); reflexivity.
Defined.









(** ** Every request is answered *)

(** X26: no exception escapes the handler, and the status of its response
    is 200, 400, 404 or 500; every response other than 200 is a body with
    the single key ["error"]. *)
Lemma handle_webhook_always_answers cfg account data w :
  exists body status,
    fst (handle_webhook cfg account data w) = Returned (body, status)
    /\ (status = 200
        \/ exists msg, body = error_body msg
                       /\ (status = 400 \/ status = 404 \/ status = 500)).
Proof.
  destruct (Py.or_else (data_get data "file_id") (data_get data "id"))
    as [[|c0 s0]|] eqn:Hreq;
    try (rewrite handle_webhook_without_id by (rewrite Hreq; reflexivity);
         answers_error).
  assert (Hrequested : requested data (String c0 s0)) by (split; [exact Hreq|reflexivity]).
  destruct (build_drive account) as [ds|e] eqn:Hds;
    [|rewrite (handle_webhook_unauthenticated _ _ _ _ _ Hrequested)
        by (left; eauto);
      answers_error].
  destruct (storage_client account) as [gc|e] eqn:Hgc;
    [|rewrite (handle_webhook_unauthenticated _ _ _ _ _ Hrequested)
        by (right; eauto);
      answers_error].
  destruct (files_get ds (String c0 s0)) as [m|[msg|msg]] eqn:Hget.
  - destruct (is_folder m) eqn:Hfolder.
    + rewrite (proj2 (handle_webhook_lookup _ _ _ w _ _ _ Hrequested Hds Hgc)
                 m Hget Hfolder).
      do 2 eexists; split; [reflexivity|left; reflexivity].
    + rewrite (handle_webhook_file _ _ _ w _ _ _ _ Hrequested Hds Hgc Hget
                 Hfolder).
      destruct (get_relative_path_from_shared_folder _ _ _ _)
        as [[[[[|c s]|] rfp]|e] w2];
        try (answers_error).
      cbv zeta.
      destruct (snd (download_request ds (String c0 s0) (mimeType m)))
        as [content|[emsg|emsg]];
        try (answers_error).
      destruct (upload_error gc _ _).
      * answers_error.
      * do 2 eexists; split; [reflexivity|left; reflexivity].
  - rewrite (proj1 (handle_webhook_lookup _ _ _ w _ _ _ Hrequested Hds Hgc)
               msg Hget).
    answers_error.
  - unfold handle_webhook, try_except_Exception, bind.
    rewrite Hreq, authenticate_drive_eq, authenticate_gcs_eq, Hds, Hgc.
    rewrite get_file_metadata_eq, Hget.
    answers_error.
Qed.

(** ** The folder marker and the upload *)

Lemma create_gcs_folder_structure_eq gc bucket_name gcs_path w :
  create_gcs_folder_structure gc bucket_name gcs_path w =
  if negb (Py.truthy gcs_path) || String.eqb gcs_path "/" then
    (Returned true, w)
  else
    let folder_blob := (gcs_path ++ "/")%string in
    match exists_error gc bucket_name folder_blob with
    | Some _ => (Returned false, called (BlobExists bucket_name folder_blob) w)
    | None =>
        if bool_decide (is_Some (gcs_objects w !! (bucket_name, folder_blob)))
        then (Returned true, called (BlobExists bucket_name folder_blob) w)
        else
          match upload_error gc bucket_name folder_blob with
          | Some _ =>
              (Returned false,
               after [BlobExists bucket_name folder_blob;
                      BlobUploadFromString bucket_name folder_blob] w)
          | None =>
              (Returned true,
               mkWorld (<[(bucket_name, folder_blob) := []]> (gcs_objects w))
                       (calls w ++ [BlobExists bucket_name folder_blob;
                                    BlobUploadFromString bucket_name
                                                         folder_blob]))
          end
    end.
Proof.
  unfold create_gcs_folder_structure, try_except_Exception, bind,
    blob_exists, blob_upload, record_call, has_object, put_object.
  destruct (negb (Py.truthy gcs_path) || String.eqb gcs_path "/");
    [reflexivity|].
  cbv zeta. unfold bind.
  destruct (exists_error gc bucket_name (gcs_path ++ "/")); [reflexivity|].
  cbn [ret called gcs_objects].
  destruct (bool_decide (is_Some (gcs_objects w !! (bucket_name,
                                                     (gcs_path ++ "/")%string))));
    cbn [negb]; [reflexivity|].
  destruct (upload_error gc bucket_name (gcs_path ++ "/"));
    unfold after, called; cbn; rewrite <- app_assoc; reflexivity.
Qed.

(** X1: for a folder path other than [""] and ["/"] and a client that
    accepts the requests, [create_gcs_folder_structure] returns [True] and
    the marker [gcs_path + "/"] is in the bucket afterwards; every object
    that was there before keeps its content (a marker that exists is not
    rewritten) and no other name is touched. *)
Theorem create_folder_marks gc bucket_name gcs_path w :
  Py.truthy gcs_path = true ->
  gcs_path <> "/" ->
  exists_error gc bucket_name (gcs_path ++ "/")%string = None ->
  upload_error gc bucket_name (gcs_path ++ "/")%string = None ->
  fst (create_gcs_folder_structure gc bucket_name gcs_path w) = Returned true
  /\ is_Some (gcs_objects
                (snd (create_gcs_folder_structure gc bucket_name gcs_path w))
              !! (bucket_name, (gcs_path ++ "/")%string))
  /\ (forall k v,
         gcs_objects w !! k = Some v ->
         gcs_objects
           (snd (create_gcs_folder_structure gc bucket_name gcs_path w)) !! k
         = Some v)
  /\ (forall k,
         k <> (bucket_name, (gcs_path ++ "/")%string) ->
         gcs_objects
           (snd (create_gcs_folder_structure gc bucket_name gcs_path w)) !! k
         = gcs_objects w !! k).
Proof.
  intros Htruthy Hroot Hexists Hupload.
  rewrite create_gcs_folder_structure_eq, Htruthy.
  rewrite (proj2 (String.eqb_neq _ _) Hroot). cbn [negb orb]. cbv zeta.
  rewrite Hexists.
  destruct (bool_decide (is_Some (gcs_objects w !! (bucket_name,
                                                     (gcs_path ++ "/")%string))))
    eqn:Hthere.
  - apply bool_decide_eq_true in Hthere. cbn [fst snd called gcs_objects].
    repeat split; auto.
  - apply bool_decide_eq_false in Hthere. rewrite Hupload.
    cbn [fst snd gcs_objects].
    split; [reflexivity|]. split; [rewrite lookup_insert_eq; eauto|].
    split.
    + intros k v Hk. rewrite lookup_insert_ne; [exact Hk|].
      intros <-. apply Hthere. eauto.
    + intros k Hk. now rewrite lookup_insert_ne.
Qed.

(** X1 (witness): marking [X/Finance] in a bucket that holds the marker,
    and [X/Other] in one that does not. *)
Lemma create_folder_marks_witness :
  gcs_objects (snd (create_gcs_folder_structure
                      willing_gcs "bucket" "X/Finance" stocked))
    !! ("bucket", "X/Finance/") = Some [Byte.x01]
  /\ is_Some (gcs_objects (snd (create_gcs_folder_structure
                                  willing_gcs "bucket" "X/Other" stocked))
              !! ("bucket", "X/Other/")).
Proof.
  destruct (create_folder_marks willing_gcs "bucket" "X/Finance" stocked)
    as (_ & _ & Hkeep & _);
    [reflexivity | discriminate | reflexivity | reflexivity |].
  destruct (create_folder_marks willing_gcs "bucket" "X/Other" stocked)
    as (_ & Hthere & _);
    [reflexivity | discriminate | reflexivity | reflexivity |].
  split; [apply Hkeep; reflexivity | exact Hthere].
Defined.

Lemma create_folder_leaves_marker gc bucket_name gcs_path w :
  Py.truthy gcs_path = true ->
  gcs_path <> "/" ->
  exists_error gc bucket_name (gcs_path ++ "/")%string = None ->
  upload_error gc bucket_name (gcs_path ++ "/")%string = None ->
  is_Some (gcs_objects
             (snd (create_gcs_folder_structure gc bucket_name gcs_path w))
           !! (bucket_name, (gcs_path ++ "/")%string)).
Proof.
  intros Htruthy Hroot Hexists Hupload.
  rewrite create_gcs_folder_structure_eq, Htruthy.
  rewrite (proj2 (String.eqb_neq _ _) Hroot). cbn [negb orb]. cbv zeta.
  rewrite Hexists.
  destruct (bool_decide (is_Some (gcs_objects w !! (bucket_name,
                                                     (gcs_path ++ "/")%string))))
    eqn:Hthere.
  - apply bool_decide_eq_true in Hthere. exact Hthere.
  - rewrite Hupload. cbn [snd gcs_objects]. rewrite lookup_insert_eq. eauto.
Qed.

(** X2: creating the marker a second time changes nothing: the second
    call finds the marker, returns [True], and only asks whether the
    marker exists. *)
Theorem create_folder_idempotent gc bucket_name gcs_path w :
  Py.truthy gcs_path = true ->
  gcs_path <> "/" ->
  exists_error gc bucket_name (gcs_path ++ "/")%string = None ->
  upload_error gc bucket_name (gcs_path ++ "/")%string = None ->
  let w1 := snd (create_gcs_folder_structure gc bucket_name gcs_path w) in
  create_gcs_folder_structure gc bucket_name gcs_path w1
  = (Returned true,
     called (BlobExists bucket_name (gcs_path ++ "/")%string) w1).
Proof.
  intros Htruthy Hroot Hexists Hupload w1.
  pose proof (create_folder_leaves_marker gc bucket_name gcs_path w
                Htruthy Hroot Hexists Hupload) as Hthere.
  fold w1 in Hthere.
  rewrite create_gcs_folder_structure_eq, Htruthy.
  rewrite (proj2 (String.eqb_neq _ _) Hroot). cbn [negb orb]. cbv zeta.
  rewrite Hexists. now rewrite (bool_decide_eq_true_2 _ Hthere).
Qed.

(** X2 (witness): marking [X/Other] twice. *)
Lemma create_folder_idempotent_witness :
  let w1 := snd (create_gcs_folder_structure
                   willing_gcs "bucket" "X/Other" stocked) in
  create_gcs_folder_structure willing_gcs "bucket" "X/Other" w1
  = (Returned true, called (BlobExists "bucket" "X/Other/") w1).
Proof.
  apply (create_folder_idempotent willing_gcs "bucket" "X/Other" stocked);
    [reflexivity | discriminate | reflexivity | reflexivity].
Defined.

(** X3: [create_gcs_folder_structure] never raises; when it returns
    [False] the bucket is as it was, and for the paths [""] and ["/"] it
    returns [True] without a call. *)
Theorem create_folder_failure gc bucket_name gcs_path w :
  (exists ok,
      fst (create_gcs_folder_structure gc bucket_name gcs_path w)
      = Returned ok
      /\ (ok = false ->
          gcs_objects
            (snd (create_gcs_folder_structure gc bucket_name gcs_path w))
          = gcs_objects w))
  /\ (gcs_path = "" \/ gcs_path = "/" ->
      create_gcs_folder_structure gc bucket_name gcs_path w
      = (Returned true, w)).
Proof.
  rewrite create_gcs_folder_structure_eq. split.
  - destruct (negb (Py.truthy gcs_path) || String.eqb gcs_path "/");
      [exists true; split; [reflexivity | discriminate]|].
    cbv zeta.
    destruct (exists_error gc bucket_name (gcs_path ++ "/"));
      [exists false; split; reflexivity|].
    destruct (bool_decide _);
      [exists true; split; [reflexivity | discriminate]|].
    destruct (upload_error gc bucket_name (gcs_path ++ "/"));
      [exists false; split; reflexivity
      |exists true; split; [reflexivity | discriminate]].
  - intros [-> | ->]; reflexivity.
Qed.

(** X3 (witness): the root path ["/"], and a client that refuses the
    marker. *)
Lemma create_folder_failure_witness :
  create_gcs_folder_structure refusing_gcs "bucket" "/" stocked
  = (Returned true, stocked)
  /\ fst (create_gcs_folder_structure refusing_gcs "bucket" "X/Other" stocked)
     = Returned false
  /\ gcs_objects
       (snd (create_gcs_folder_structure refusing_gcs "bucket" "X/Other"
                                         stocked))
     = gcs_objects stocked.
Proof.
  destruct (create_folder_failure refusing_gcs "bucket" "/" stocked)
    as [_ Hroot].
  destruct (create_folder_failure refusing_gcs "bucket" "X/Other" stocked)
    as [(ok & Hok & Hsame) _].
  split; [apply Hroot; right; reflexivity|].
  assert (ok = false) as -> by (vm_compute in Hok; congruence).
  split; [exact Hok | apply Hsame; reflexivity].
Defined.

(** X4: an upload the client accepts returns [True] and puts the content
    at the object name, whatever was there before; no other object
    changes. *)
Theorem upload_to_gcs_overwrites gc bucket_name blob_name file_content w :
  upload_error gc bucket_name blob_name = None ->
  fst (upload_to_gcs gc bucket_name blob_name file_content w) = Returned true
  /\ gcs_objects (snd (upload_to_gcs gc bucket_name blob_name file_content w))
       !! (bucket_name, blob_name) = Some file_content
  /\ forall k, k <> (bucket_name, blob_name) ->
       gcs_objects (snd (upload_to_gcs gc bucket_name blob_name file_content w))
         !! k = gcs_objects w !! k.
Proof.
  intros Hok. rewrite upload_to_gcs_eq, Hok. cbn [fst snd gcs_objects].
  split; [reflexivity|]. split; [apply lookup_insert_eq|].
  intros k Hk. now rewrite lookup_insert_ne.
Qed.

(** X4 (witness): replacing the report of the stocked bucket. *)
Lemma upload_to_gcs_overwrites_witness :
  gcs_objects (snd (upload_to_gcs willing_gcs "bucket" "X/report"
                                  [Byte.x09] stocked))
    !! ("bucket", "X/report") = Some [Byte.x09]
  /\ gcs_objects (snd (upload_to_gcs willing_gcs "bucket" "X/report"
                                     [Byte.x09] stocked))
       !! ("bucket", "X/Finance/") = Some [Byte.x01].
Proof.
  destruct (upload_to_gcs_overwrites willing_gcs "bucket" "X/report"
              [Byte.x09] stocked eq_refl) as (_ & Hput & Hframe).
  split; [exact Hput|]. rewrite Hframe; [reflexivity | discriminate].
Defined.

(** X5: [upload_to_gcs] never raises: when the client refuses the upload
    it returns [False] and the bucket is as it was. *)
Theorem upload_to_gcs_refused gc bucket_name blob_name file_content w e :
  upload_error gc bucket_name blob_name = Some e ->
  upload_to_gcs gc bucket_name blob_name file_content w
  = (Returned false, called (BlobUploadFromFile bucket_name blob_name) w)
  /\ gcs_objects (snd (upload_to_gcs gc bucket_name blob_name file_content w))
     = gcs_objects w.
Proof. intros He. rewrite upload_to_gcs_eq, He. split; reflexivity. Qed.

(** X5 (witness): a refused upload. *)
Lemma upload_to_gcs_refused_witness :
  gcs_objects (snd (upload_to_gcs refusing_gcs "bucket" "X/report"
                                  [Byte.x09] stocked))
  = gcs_objects stocked.
Proof.
  apply (upload_to_gcs_refused refusing_gcs "bucket" "X/report" [Byte.x09]
           stocked (OtherException "403 Forbidden") eq_refl).
Defined.

(** ** More on paths *)

Lemma split_parts_no_sep sep s :
  Forall (fun p => has_char sep p = false) (Py.split sep s).
Proof.
  induction s as [|c s IH]; cbn [Py.split].
  - repeat constructor.
  - destruct (Ascii.eqb c sep) eqn:Hc.
    + constructor; [reflexivity | exact IH].
    + destruct (Py.split sep s) as [|p ps]; [repeat constructor; cbn;
                                              now rewrite Hc|].
      inversion IH as [|? ? Hp Hps]; subst.
      constructor; [cbn; now rewrite Hc, Hp | exact Hps].
Qed.

Lemma join_snoc l x :
  l <> [] -> Py.join "/" (l ++ [x]) = (Py.join "/" l ++ "/" ++ x)%string.
Proof.
  induction l as [|y l IH]; [congruence|]. intros _.
  destruct l as [|z l]; [reflexivity|].
  change (Py.join "/" ((y :: z :: l) ++ [x]))
    with (y ++ "/" ++ Py.join "/" ((z :: l) ++ [x]))%string.
  rewrite IH by discriminate.
  change (Py.join "/" (y :: z :: l))
    with (y ++ "/" ++ Py.join "/" (z :: l))%string.
  now rewrite !string_app_assoc.
Qed.

Lemma join_ends_with_last l x :
  exists p, Py.join "/" (l ++ [x]) = (p ++ x)%string.
Proof.
  destruct l as [|y l]; [now exists ""|].
  rewrite join_snoc by discriminate.
  exists (Py.join "/" (y :: l) ++ "/")%string. now rewrite !string_app_assoc.
Qed.

Lemma join_ends_with_tail pre l :
  l <> [] -> exists p, Py.join "/" (pre ++ l) = (p ++ Py.join "/" l)%string.
Proof.
  intros Hl. induction pre as [|y pre IH]; [now exists ""|].
  destruct IH as [p Hp].
  destruct (pre ++ l) as [|z r] eqn:E.
  - destruct pre; [cbn in E; congruence | discriminate].
  - change (Py.join "/" ((y :: pre) ++ l)) with (Py.join "/" (y :: pre ++ l)).
    rewrite E.
    change (Py.join "/" (y :: z :: r))
      with (y ++ "/" ++ Py.join "/" (z :: r))%string.
    rewrite Hp. exists (y ++ "/" ++ p)%string. now rewrite !string_app_assoc.
Qed.

(** A file name and folder path come from a tail of the parts. *)
Lemma relative_to_tail root parts file_name folder_path :
  parts <> [] ->
  relative_to root parts = (Some file_name, Some folder_path) ->
  exists pre init,
    parts = pre ++ init ++ [file_name] /\ folder_path = Py.join "/" init.
Proof.
  intros Hne. unfold relative_to.
  destruct (Py.index root parts) as [i|].
  - destruct (drop (i + 1) parts) as [|x rp] eqn:Hdrop; [discriminate|].
    destruct (exists_last (l := x :: rp)) as (init & f & Hlast);
      [discriminate|].
    rewrite Hlast, last_item_snoc, folder_path_of_snoc.
    intros [= <- <-]. exists (take (i + 1) parts), init.
    split; [|reflexivity].
    rewrite <- Hlast, <- Hdrop. symmetry. apply take_drop.
  - destruct (exists_last (l := parts)) as (init & f & Hlast); [exact Hne|].
    rewrite Hlast, last_item_snoc, folder_path_of_snoc.
    intros [= <- <-]. now exists [], init.
Qed.

Lemma relative_path_fst ds file_id shared_folder_id w w' :
  fst (get_relative_path_from_shared_folder ds file_id shared_folder_id w)
  = fst (get_relative_path_from_shared_folder ds file_id shared_folder_id w').
Proof.
  rewrite !relative_path_eq.
  pose proof (get_drive_path_fst ds file_id w w') as H.
  destruct (get_drive_path ds file_id w) as [r w1],
           (get_drive_path ds file_id w') as [r' w1'].
  cbn [fst] in H. subst r'.
  destruct r as [[full_path|]|e]; try reflexivity.
  destruct (Py.truthy full_path); reflexivity.
Qed.

(** X6: [get_relative_path_from_shared_folder] never raises and never
    writes: it returns a pair, and the world it leaves differs from the
    one it found by metadata lookups only. *)
Theorem relative_path_read_only ds file_id shared_folder_id w :
  (exists r,
      fst (get_relative_path_from_shared_folder ds file_id shared_folder_id w)
      = Returned r)
  /\ lookups_only w
       (snd (get_relative_path_from_shared_folder
               ds file_id shared_folder_id w)).
Proof.
  split; [|apply relative_path_lookups].
  rewrite relative_path_eq.
  destruct (get_drive_path ds file_id w) as [[[full_path|]|e] w1];
    try (eexists; reflexivity).
  destruct (Py.truthy full_path); [|eexists; reflexivity].
  destruct (files_get ds shared_folder_id); eexists; reflexivity.
Qed.

(** X7: when the item itself cannot be looked up the answer is
    [(None, None)] and the shared folder is not looked up at all; when the
    shared folder cannot be looked up the answer is [(None, None)]
    too. *)
Theorem relative_path_unresolved ds file_id shared_folder_id w :
  (forall e, files_get ds file_id = Raised e ->
     get_relative_path_from_shared_folder ds file_id shared_folder_id w
     = (Returned (None, None), called (FilesGet file_id) w))
  /\ (forall e, files_get ds shared_folder_id = Raised e ->
        fst (get_relative_path_from_shared_folder
               ds file_id shared_folder_id w)
        = Returned (None, None)).
Proof.
  split; intros e He; rewrite relative_path_eq.
  - rewrite get_drive_path_eq, He. reflexivity.
  - destruct (get_drive_path ds file_id w) as [[[full_path|]|e'] w1];
      try reflexivity.
    destruct (Py.truthy full_path); [|reflexivity].
    rewrite He. reflexivity.
Qed.

(** X7 (witness): an unknown item, and an unknown shared folder. *)
Lemma relative_path_unresolved_witness :
  get_relative_path_from_shared_folder finance_drive "zzz" "r" fresh
  = (Returned (None, None), called (FilesGet "zzz") fresh)
  /\ fst (get_relative_path_from_shared_folder finance_drive "q" "zzz" fresh)
     = Returned (None, None).
Proof.
  destruct (relative_path_unresolved finance_drive "zzz" "r" fresh)
    as [Hitem _].
  destruct (relative_path_unresolved finance_drive "q" "zzz" fresh)
    as [_ Hshared].
  split; [eapply Hitem | eapply Hshared]; reflexivity.
Defined.

(** X8: a file name and folder path that
    [get_relative_path_from_shared_folder] returns recompose into the end
    of the path [get_drive_path] gives for the item, and the file name
    contains no ['/']. *)
Theorem relative_path_is_tail
    ds file_id shared_folder_id w file_name folder_path :
  fst (get_relative_path_from_shared_folder ds file_id shared_folder_id w)
  = Returned (Some file_name, Some folder_path) ->
  has_char "/" file_name = false
  /\ exists full_path,
       fst (get_drive_path ds file_id w) = Returned (Some full_path)
       /\ Py.endswith full_path (relative_name folder_path file_name) = true.
Proof.
  rewrite relative_path_eq.
  destruct (get_drive_path ds file_id w) as [[[full_path|]|e] w1];
    try discriminate.
  destruct (Py.truthy full_path); [|discriminate].
  destruct (files_get ds shared_folder_id) as [shared|e]; [|discriminate].
  cbn [fst]. intros [= Hrel].
  destruct (relative_to_tail _ _ _ _ (split_not_nil "/" full_path) Hrel)
    as (pre & init & Hparts & ->).
  split.
  - pose proof (split_parts_no_sep "/" full_path) as Hall.
    rewrite Hparts in Hall. rewrite !Forall_app in Hall.
    destruct Hall as (_ & _ & Hf). now inversion Hf.
  - exists full_path. split; [reflexivity|].
    apply endswith_spec. rewrite <- (join_split full_path), Hparts.
    unfold relative_name. destruct (Py.truthy (Py.join "/" init)) eqn:Hd.
    + assert (Hinit : init <> []) by (intros ->; discriminate).
      rewrite <- (join_snoc init file_name Hinit).
      apply join_ends_with_tail. destruct init; discriminate.
    + rewrite app_assoc. apply join_ends_with_last.
Qed.

(** X8 (witness): [Q3.gsheet] under [Finance/2025]. *)
Lemma relative_path_is_tail_witness :
  has_char "/" "Q3.gsheet" = false
  /\ exists full_path,
       fst (get_drive_path finance_drive "q" fresh)
       = Returned (Some full_path)
       /\ Py.endswith full_path (relative_name "Finance/2025" "Q3.gsheet")
          = true.
Proof.
  apply (relative_path_is_tail finance_drive "q" "r" fresh).
  reflexivity.
Defined.

Lemma ascent_length ds n id names :
  ascent ds n id names -> List.length names <= n.
Proof. induction 1; cbn [List.length]; lia. Qed.

(** A path that [get_drive_path] returns is the joined chain of the
    item. *)
Lemma get_drive_path_chain ds id w path :
  fst (get_drive_path ds id w) = Returned (Some path) ->
  exists chain, path_chain ds id chain /\ path = Py.join "/" chain.
Proof.
  intros Hpath.
  destruct (files_get ds id) as [m|e] eqn:Hget.
  - destruct (parents m) as [|p ps] eqn:Hpar.
    + exists [name m]. split; [now apply chain_orphan|].
      rewrite get_drive_path_eq, Hget, Hpar in Hpath. cbn [fst] in Hpath.
      injection Hpath as <-. reflexivity.
    + destruct (ascent_total ds max_depth p) as [[names Hasc]|Hab].
      * assert (Hchain : path_chain ds id (rev (name m :: names)))
          by (eapply chain_ascent; eauto).
        exists (rev (name m :: names)). split; [exact Hchain|].
        rewrite (path_chain_walked _ _ _ w Hchain) in Hpath. congruence.
      * rewrite get_drive_path_eq, Hget, Hpar in Hpath.
        destruct (walk_aborts ds _ _ Hab 0 [name m] (called (FilesGet id) w)
                              eq_refl) as [e He].
        destruct (walk ds p 0 [name m] (called (FilesGet id) w))
          as [[parts|e'] w']; cbn in He, Hpath; discriminate.
  - rewrite get_drive_path_eq, Hget in Hpath. discriminate.
Qed.

(** Every name on a chain is the name of some item of the Drive. *)
Lemma ascent_names ds n id names :
  ascent ds n id names ->
  Forall (fun s => exists i m, files_get ds i = Returned m /\ name m = s) names.
Proof.
  induction 1; repeat constructor; eauto.
Qed.

Lemma path_chain_names ds id chain :
  path_chain ds id chain ->
  Forall (fun s => exists i m, files_get ds i = Returned m /\ name m = s) chain.
Proof.
  intros [m Hget _|m p ps names Hget _ Hasc].
  - repeat constructor. eauto.
  - apply Forall_rev. constructor; [eauto|]. eapply ascent_names; eauto.
Qed.

Lemma path_chain_length ds id chain :
  path_chain ds id chain ->
  1 <= List.length chain /\ List.length chain <= 21.
Proof.
  intros [m _ _|m p ps names _ _ Hasc].
  - cbn. lia.
  - apply ascent_length in Hasc. unfold max_depth in Hasc.
    rewrite length_rev. cbn [List.length]. lia.
Qed.

(** X9: in a Drive where no name contains ['/'], a path that
    [get_drive_path] returns has at least one component and at most 21: the
    item's own name and those of at most 20 ancestors. *)
Theorem get_drive_path_depth ds id w path :
  (forall i m, files_get ds i = Returned m -> has_char "/" (name m) = false) ->
  fst (get_drive_path ds id w) = Returned (Some path) ->
  1 <= List.length (Py.split "/" path)
  /\ List.length (Py.split "/" path) <= 21.
Proof.
  intros Hnames Hpath.
  destruct (get_drive_path_chain _ _ _ _ Hpath) as (chain & Hchain & ->).
  rewrite split_join.
  - eapply path_chain_length; eauto.
  - eapply path_chain_not_nil; eauto.
  - eapply Forall_impl; [eapply path_chain_names; eauto|].
    cbn. intros s (i & m & Hget & <-). eauto.
Qed.

(** X9 (witness): the path of [Q3.gsheet] has five components. *)
Lemma get_drive_path_depth_witness :
  1 <= List.length (Py.split "/" "My Drive/Root/Finance/2025/Q3.gsheet")
  /\ List.length (Py.split "/" "My Drive/Root/Finance/2025/Q3.gsheet") <= 21.
Proof.
  apply (get_drive_path_depth finance_drive "q" fresh).
  - intros i m. unfold finance_drive, drive_with. cbn [files_get find_item].
    repeat (destruct (String.eqb _ i);
            [intros [= <-]; reflexivity|]).
    discriminate.
  - reflexivity.
Defined.

(** X10: when no name on the way contains ['/'], the path
    [get_drive_path] returns splits back into exactly the names the walk
    gathered, so the re-rooting searches the names themselves. *)
Theorem walked_path_components ds file_id chain w :
  path_chain ds file_id chain ->
  Forall (fun s => has_char "/" s = false) chain ->
  exists full_path,
    fst (get_drive_path ds file_id w) = Returned (Some full_path)
    /\ Py.split "/" full_path = chain.
Proof.
  intros Hchain Hclean. exists (Py.join "/" chain).
  split; [now apply path_chain_walked|].
  apply split_join; [|exact Hclean]. eapply path_chain_not_nil; eauto.
Qed.

(** X10 (witness): the names of [Q3.gsheet]. *)
Lemma walked_path_components_witness :
  exists full_path,
    fst (get_drive_path finance_drive "q" fresh) = Returned (Some full_path)
    /\ Py.split "/" full_path
       = ["My Drive"; "Root"; "Finance"; "2025"; "Q3.gsheet"].
Proof.
  apply (walked_path_components finance_drive "q" _ fresh finance_chain).
  repeat constructor.
Defined.

Lemma walk_same_lineage ds ds' (Hsame : same_lineage ds ds') :
  forall k cid depth parts w, max_depth - depth <= k ->
    snd (walk ds cid depth parts w) = snd (walk ds' cid depth parts w)
    /\ match fst (walk ds cid depth parts w),
             fst (walk ds' cid depth parts w) with
       | Returned names, Returned names' => names = names'
       | Raised _, Raised _ => True
       | _, _ => False
       end.
Proof.
  induction k as [|k IH]; intros cid depth parts w Hk;
    rewrite (walk_step ds), (walk_step ds').
  - depth_test. rewrite andb_false_r. split; reflexivity.
  - destruct (Py.truthy cid && (depth <? max_depth)%nat) eqn:Hc;
      [|split; reflexivity].
    apply andb_true_iff in Hc as [_ Hlt]. apply Nat.ltb_lt in Hlt.
    specialize (Hsame cid).
    destruct (files_get ds cid) as [m|[msg|msg]],
             (files_get ds' cid) as [m'|[msg'|msg']];
      try contradiction; try (split; [reflexivity | exact I || reflexivity]).
    destruct Hsame as [Hname Hhead]. rewrite Hname.
    destruct (parents m) as [|p ps], (parents m') as [|p' ps'];
      try discriminate; [split; reflexivity|].
    injection Hhead as <-. apply IH. lia.
Qed.

(** X11: the walk reads nothing of an item but its name and its first
    parent: two Drive services that agree on these (and on which lookups
    fail, and how) give the same path and the same lookups, whatever
    further parents or MIME types the items have. *)
Theorem get_drive_path_first_parent_only ds ds' id w :
  same_lineage ds ds' ->
  get_drive_path ds id w = get_drive_path ds' id w.
Proof.
  intros Hsame. rewrite !get_drive_path_eq.
  pose proof (Hsame id) as Hid.
  destruct (files_get ds id) as [m|[msg|msg]],
           (files_get ds' id) as [m'|[msg'|msg']];
    try contradiction; try reflexivity.
  destruct Hid as [Hname Hhead]. rewrite Hname.
  destruct (parents m) as [|p ps], (parents m') as [|p' ps'];
    try discriminate; [reflexivity|].
  injection Hhead as <-.
  destruct (walk_same_lineage ds ds' Hsame max_depth p 0 [name m']
              (called (FilesGet id) w) (Nat.le_refl _)) as [Hw Hr].
  destruct (walk ds p 0 [name m'] (called (FilesGet id) w)) as [[l|e] w1],
           (walk ds' p 0 [name m'] (called (FilesGet id) w)) as [[l'|e'] w1'];
    cbn [fst snd] in *; subst; try contradiction; reflexivity.
Qed.

(** X11 (witness): the finance tree with every item shared into a second
    folder. *)
Lemma get_drive_path_first_parent_only_witness :
  get_drive_path finance_drive "q" fresh
  = get_drive_path finance_drive_shared_twice "q" fresh.
Proof.
  apply get_drive_path_first_parent_only.
  intros id. unfold finance_drive_shared_twice. cbn [files_get].
  destruct (files_get finance_drive id) as [m|[msg|msg]]; [|exact I|exact I].
  cbn [name parents]. split; [reflexivity|].
  destruct (parents m); reflexivity.
Defined.

(** ** Downloads *)



(** The export format of a Google-native type: a spreadsheet and a
    presentation go to their Office formats, everything else to PDF. *)
Lemma export_format_of t :
  dict_get export_formats t ("application/pdf", ".pdf")
  = if bool_decide (t = "application/vnd.google-apps.spreadsheet")
    then ("application/vnd.openxmlformats-officedocument.spreadsheetml.sheet",
          ".xlsx")
    else if bool_decide (t = "application/vnd.google-apps.presentation")
    then ("application/vnd.openxmlformats-officedocument.presentationml.presentation",
          ".pptx")
    else ("application/pdf", ".pdf").
Proof.
  cbn [dict_get export_formats].
  destruct (String.eqb_spec "application/vnd.google-apps.document" t)
    as [<-|Hdoc]; [reflexivity|].
  destruct (String.eqb_spec "application/vnd.google-apps.spreadsheet" t)
    as [<-|Hsheet]; [reflexivity|].
  rewrite bool_decide_eq_false_2 by congruence.
  destruct (String.eqb_spec "application/vnd.google-apps.presentation" t)
    as [<-|Hslide]; [reflexivity|].
  rewrite bool_decide_eq_false_2 by congruence. reflexivity.
Qed.

(** X13: where the content [download_drive_file] returns comes from.  For
    a type that does not start with [application/vnd.google-apps] (or no
    type at all) it is what [get_media] yields, with an empty extension;
    for every other type it is what [export_media] yields for the target
    format: the Office formats for a spreadsheet and a presentation, PDF
    for everything else -- documents, drawings, forms, folders. *)
Theorem download_drive_file_source ds file_id mime_type w :
  (is_google_apps mime_type = false ->
   forall file_content,
     files_get_media ds file_id = Returned file_content ->
     fst (download_drive_file ds file_id mime_type w)
     = Returned (Some file_content, Some ""))
  /\ (is_google_apps mime_type = true ->
      forall file_content,
        files_export_media ds file_id
          (if bool_decide
                (mime_type = Some "application/vnd.google-apps.spreadsheet")
           then "application/vnd.openxmlformats-officedocument.spreadsheetml.sheet"
           else if bool_decide
                     (mime_type
                      = Some "application/vnd.google-apps.presentation")
           then "application/vnd.openxmlformats-officedocument.presentationml.presentation"
           else "application/pdf")
        = Returned file_content ->
        fst (download_drive_file ds file_id mime_type w)
        = Returned
            (Some file_content,
             Some (if bool_decide
                        (mime_type
                         = Some "application/vnd.google-apps.spreadsheet")
                   then ".xlsx"
                   else if bool_decide
                             (mime_type
                              = Some "application/vnd.google-apps.presentation")
                   then ".pptx"
                   else ".pdf"))).
Proof.
  unfold download_drive_file, try_except_HttpError, execute, bind, record_call.
  split; intros Happs file_content Hcontent; rewrite Happs.
  - rewrite Hcontent. reflexivity.
  - destruct mime_type as [t|]; [|discriminate]. cbn [default]. unfold id.
    rewrite export_format_of.
    destruct (decide (t = "application/vnd.google-apps.spreadsheet"))
      as [->|Hsheet].
    + rewrite !bool_decide_eq_true_2 in * by reflexivity.
      rewrite Hcontent. reflexivity.
    + rewrite (bool_decide_eq_false_2 (t = _)) by exact Hsheet.
      rewrite (bool_decide_eq_false_2 (Some t = Some "application/vnd.google-apps.spreadsheet")) in *
        by congruence.
      destruct (decide (t = "application/vnd.google-apps.presentation"))
        as [->|Hslide].
      * rewrite !bool_decide_eq_true_2 in * by reflexivity.
        rewrite Hcontent. reflexivity.
      * rewrite (bool_decide_eq_false_2 (t = _)) by exact Hslide.
        rewrite (bool_decide_eq_false_2 (Some t = Some "application/vnd.google-apps.presentation")) in *
          by congruence.
        rewrite Hcontent. reflexivity.
Qed.

(** X13 (witness): a drawing is exported to PDF, a spreadsheet to its
    Office format, and an image is fetched as it is. *)
Lemma download_drive_file_source_witness :
  fst (download_drive_file converting_drive "q"
         (Some "application/vnd.google-apps.drawing") fresh)
  = Returned (Some [Byte.x01], Some ".pdf")
  /\ fst (download_drive_file converting_drive "q"
            (Some "application/vnd.google-apps.spreadsheet") fresh)
     = Returned (Some [Byte.x02], Some ".xlsx")
  /\ fst (download_drive_file converting_drive "q" (Some "image/png") fresh)
     = Returned (Some [Byte.x03], Some "").
Proof.
  split; [|split].
  - apply (proj2 (download_drive_file_source converting_drive "q"
                    (Some "application/vnd.google-apps.drawing") fresh));
      reflexivity.
  - apply (proj2 (download_drive_file_source converting_drive "q"
                    (Some "application/vnd.google-apps.spreadsheet") fresh));
      reflexivity.
  - apply (proj1 (download_drive_file_source converting_drive "q"
                    (Some "image/png") fresh)); reflexivity.
Defined.

(** ** What a request writes, calls and answers *)

Lemma writes_within_refl P S : writes_within P S S.
Proof. intros k. split; [congruence | auto]. Qed.

Lemma writes_within_insert P S S' k v :
  P k -> writes_within P S S' -> writes_within P S (<[k := v]> S').
Proof.
  intros Hk HS k'. destruct (HS k') as [Hdiff Hkeep].
  destruct (decide (k = k')) as [<-|Hne].
  - split; [auto|]. intros _. rewrite lookup_insert_eq. eauto.
  - rewrite lookup_insert_ne by exact Hne. split; assumption.
Qed.

Lemma prefix_app (a b : string) : String.prefix a (a ++ b)%string = true.
Proof.
  induction a as [|c a IH].
  - change ("" ++ b)%string with b. destruct b; reflexivity.
  - change (String c a ++ b)%string with (String c (a ++ b)%string).
    cbn [String.prefix].
    destruct (Ascii.ascii_dec c c); [exact IH | congruence].
Qed.

Lemma folder_under_base cfg relative_folder_path rest :
  Py.startswith
    (gcs_folder_path (GCS_BASE_PATH cfg) relative_folder_path ++ "/" ++ rest)
    (GCS_BASE_PATH cfg ++ "/")%string = true.
Proof.
  unfold gcs_folder_path, Py.startswith.
  destruct (Py.truthy_opt relative_folder_path).
  - rewrite !string_app_assoc.
    rewrite <- (string_app_assoc (GCS_BASE_PATH cfg) "/" _).
    apply prefix_app.
  - rewrite <- (string_app_assoc (GCS_BASE_PATH cfg) "/" _).
    apply prefix_app.
Qed.

(** Counting the calls of a list. *)
Lemma count_nil p : count p [] = 0.
Proof. reflexivity. Qed.

Lemma count_cons p c cs :
  count p (c :: cs) = (if p c then 1 else 0) + count p cs.
Proof. unfold count. cbn [List.filter]. destruct (p c); reflexivity. Qed.

Lemma count_app p cs cs' : count p (cs ++ cs') = count p cs + count p cs'.
Proof. unfold count. now rewrite List.filter_app, length_app. Qed.

Lemma count_lookups ids : count is_lookup (map FilesGet ids) = List.length ids.
Proof.
  induction ids as [|i ids IH]; [reflexivity|].
  cbn [map]. rewrite count_cons, IH. reflexivity.
Qed.

Lemma count_store_lookups ids : count is_store_request (map FilesGet ids) = 0.
Proof.
  induction ids as [|i ids IH]; [reflexivity|].
  cbn [map]. rewrite count_cons, IH. reflexivity.
Qed.

(** The request of the download is neither a lookup nor a request to the
    store. *)
Lemma download_not_lookup ds file_id mime_type :
  is_lookup (fst (download_request ds file_id mime_type)) = false.
Proof. unfold download_request. now destruct (is_google_apps _). Qed.

Lemma download_not_store ds file_id mime_type :
  is_store_request (fst (download_request ds file_id mime_type)) = false.
Proof. unfold download_request. now destruct (is_google_apps _). Qed.

Ltac count_calls :=
  split;
  rewrite ?count_app, ?count_cons, ?count_nil, ?count_lookups,
    ?count_store_lookups;
  rewrite ?download_not_lookup, ?download_not_store;
  cbn [is_lookup is_store_request]; lia.

Lemma create_folder_world gc bucket_name gcs_path w :
  exists cs,
    calls (snd (create_gcs_folder_structure gc bucket_name gcs_path w))
    = calls w ++ cs
    /\ (count is_lookup cs = 0 /\ count is_store_request cs <= 2)
    /\ (gcs_objects (snd (create_gcs_folder_structure
                            gc bucket_name gcs_path w)) = gcs_objects w
        \/ gcs_objects (snd (create_gcs_folder_structure
                               gc bucket_name gcs_path w))
           = <[(bucket_name, (gcs_path ++ "/")%string) := []]> (gcs_objects w)).
Proof.
  rewrite create_gcs_folder_structure_eq.
  destruct (negb (Py.truthy gcs_path) || String.eqb gcs_path "/").
  { exists []. cbn. rewrite app_nil_r. repeat split; auto. }
  cbv zeta.
  destruct (exists_error gc bucket_name (gcs_path ++ "/")).
  { eexists [_]. cbn. repeat split; auto. }
  destruct (bool_decide _).
  { eexists [_]. cbn. repeat split; auto. }
  destruct (upload_error gc bucket_name (gcs_path ++ "/"));
    eexists [_; _]; cbn; repeat split; auto.
Qed.

Lemma get_drive_path_world ds id w :
  exists ids,
    snd (get_drive_path ds id w) = after (map FilesGet ids) w
    /\ List.length ids <= 21.
Proof.
  rewrite get_drive_path_eq.
  destruct (files_get ds id) as [m|e];
    [|exists [id]; split; [reflexivity | cbn; lia]].
  destruct (parents m) as [|p ps];
    [exists [id]; split; [reflexivity | cbn; lia]|].
  destruct (walk_world ds max_depth p 0 [name m] (called (FilesGet id) w))
    as (ids & Hw & Hlen); [lia|].
  unfold max_depth in Hlen.
  destruct (walk ds p 0 [name m] (called (FilesGet id) w)) as [[parts|e] w'];
    cbn [snd] in *; subst w'; rewrite called_after, after_after;
    (exists (id :: ids); split; [reflexivity | cbn [List.length]; lia]).
Qed.

Lemma relative_path_world ds file_id shared_folder_id w :
  exists ids,
    snd (get_relative_path_from_shared_folder ds file_id shared_folder_id w)
    = after (map FilesGet ids) w
    /\ List.length ids <= 22.
Proof.
  rewrite relative_path_eq.
  destruct (get_drive_path_world ds file_id w) as (ids & Hw & Hlen).
  destruct (get_drive_path ds file_id w) as [[[full_path|]|e] w1];
    cbn [snd] in *; subst w1;
    try (exists ids; split; [reflexivity | lia]).
  destruct (Py.truthy full_path); cbn [snd];
    [|exists ids; split; [reflexivity | lia]].
  exists (ids ++ [shared_folder_id]).
  rewrite called_after, after_after, map_app, length_app.
  split; [reflexivity | cbn [List.length]; lia].
Qed.

Lemma before_download_world cfg gc relative_folder_path w :
  exists cs,
    calls (before_download cfg gc relative_folder_path w) = calls w ++ cs
    /\ (count is_lookup cs = 0 /\ count is_store_request cs <= 2)
    /\ writes_within (under_base cfg) (gcs_objects w)
         (gcs_objects (before_download cfg gc relative_folder_path w)).
Proof.
  unfold before_download.
  destruct (Py.truthy_opt relative_folder_path) eqn:Hrel.
  - destruct (create_folder_world gc (BUCKET_NAME cfg)
                (gcs_folder_path (GCS_BASE_PATH cfg) relative_folder_path) w)
      as (cs & Hcalls & Hlen & [Hsame|Hput]); exists cs.
    + rewrite Hsame. auto using writes_within_refl.
    + rewrite Hput. split; [exact Hcalls|]. split; [exact Hlen|].
      apply writes_within_insert; [|apply writes_within_refl].
      split; [reflexivity|]. cbn [snd].
      rewrite <- (string_app_empty "/"). apply folder_under_base.
  - exists []. rewrite app_nil_r. split; [reflexivity|].
    split; [count_calls | apply writes_within_refl].
Qed.

(** Rule out the key ["path"] in a response body written out in full. *)
Ltac no_path_key :=
  let v := fresh "v" in
  let Hin := fresh "Hin" in
  intros v Hin; cbn in Hin;
  repeat (destruct Hin as [Hin|Hin]; [discriminate Hin|]);
  exact Hin.

(** What is shown of every run of the handler: a response whose body has
    no key ["path"], the calls added, and the objects written. *)
Ltac run_ends body status cs :=
  exists body, status, cs; cbn [fst snd called calls gcs_objects];
  split; [reflexivity|]; split; [no_path_key|].

(** One lemma for every way a request can go: the response, the calls
    made and the objects written. *)
Lemma handle_webhook_run cfg account data w :
  exists body status cs,
    fst (handle_webhook cfg account data w) = Returned (body, status)
    /\ (forall v, ~ In ("path", v) body)
    /\ calls (snd (handle_webhook cfg account data w)) = calls w ++ cs
    /\ (count is_lookup cs <= 23 /\ count is_store_request cs <= 3)
    /\ writes_within (under_base cfg) (gcs_objects w)
         (gcs_objects (snd (handle_webhook cfg account data w))).
Proof.
  destruct (Py.or_else (data_get data "file_id") (data_get data "id"))
    as [[|c0 s0]|] eqn:Hreq;
    try (rewrite handle_webhook_without_id by (rewrite Hreq; reflexivity);
         run_ends (error_body "File ID not provided") 400 (@nil call);
         rewrite app_nil_r;
         (split; [reflexivity|]);
         (split; [count_calls | apply writes_within_refl])).
  assert (Hrequested : requested data (String c0 s0))
    by (split; [exact Hreq | reflexivity]).
  destruct (build_drive account) as [ds|e] eqn:Hds;
    [|rewrite (handle_webhook_unauthenticated _ _ _ _ _ Hrequested)
        by (left; eauto);
      run_ends (error_body "Authentication failed") 500 (@nil call);
      rewrite app_nil_r; (split; [reflexivity|]);
      (split; [count_calls | apply writes_within_refl])].
  destruct (storage_client account) as [gc|e] eqn:Hgc;
    [|rewrite (handle_webhook_unauthenticated _ _ _ _ _ Hrequested)
        by (right; eauto);
      run_ends (error_body "Authentication failed") 500 (@nil call);
      rewrite app_nil_r; (split; [reflexivity|]);
      (split; [count_calls | apply writes_within_refl])].
  destruct (files_get ds (String c0 s0)) as [m|[msg|msg]] eqn:Hget.
  - destruct (is_folder m) eqn:Hfolder.
    { rewrite (proj2 (handle_webhook_lookup _ _ _ w _ _ _ Hrequested Hds Hgc)
                 m Hget Hfolder).
      eexists _, _, [_]. cbn [fst snd called calls gcs_objects].
      split; [reflexivity|]. split; [no_path_key|]. split; [reflexivity|].
      split; [count_calls | apply writes_within_refl]. }
    rewrite (handle_webhook_file _ _ _ w _ _ _ _ Hrequested Hds Hgc Hget
               Hfolder).
    destruct (relative_path_world ds (String c0 s0) (SHARED_FOLDER_ID cfg)
                (called (FilesGet (String c0 s0)) w)) as (ids & Hw2 & Hids).
    destruct (get_relative_path_from_shared_folder _ _ _ _) as [r w2].
    cbn [snd] in Hw2. rewrite called_after, after_after in Hw2.
    assert (Hc2 : calls w2
                  = calls w ++ [FilesGet (String c0 s0)] ++ map FilesGet ids)
      by (rewrite Hw2; reflexivity).
    assert (Hg2 : gcs_objects w2 = gcs_objects w)
      by (rewrite Hw2; reflexivity).
    clear Hw2.
    assert (Hpath : forall body status,
               (forall v, ~ In ("path", v) body) ->
               exists body' status' cs,
                 fst (@Returned Response (body, status), w2)
                 = Returned (body', status')
                 /\ (forall v, ~ In ("path", v) body')
                 /\ calls (snd (@Returned Response (body, status), w2))
                    = calls w ++ cs
                 /\ (count is_lookup cs <= 23
                     /\ count is_store_request cs <= 3)
                 /\ writes_within (under_base cfg) (gcs_objects w)
                      (gcs_objects (snd (@Returned Response (body, status),
                                         w2)))).
    { intros body status Hbody. exists body, status.
      eexists. cbn [fst snd]. rewrite Hc2, Hg2.
      split; [reflexivity|]. split; [exact Hbody|]. split; [reflexivity|].
      split; [|apply writes_within_refl].
      count_calls. }
    destruct r as [[[[|c s]|] rfp]|e]; try (apply Hpath; no_path_key).
    cbv zeta.
    destruct (before_download_world cfg gc rfp w2) as (cs1 & Hcs1 & [Hlk1 Hst1] & Hst).
    rewrite Hc2 in Hcs1. rewrite Hg2 in Hst.
    assert (Hkey : under_base cfg
                     (BUCKET_NAME cfg,
                      destination cfg rfp (String c s) (mimeType m))).
    { split; [reflexivity|]. apply folder_under_base. }
    destruct (snd (download_request ds (String c0 s0) (mimeType m)))
      as [content|[emsg|emsg]].
    + destruct (upload_error gc (BUCKET_NAME cfg)
                  (destination cfg rfp (String c s) (mimeType m))).
      * eexists _, _, _. cbn [fst snd called calls gcs_objects].
        rewrite Hcs1, <- !app_assoc.
        split; [reflexivity|]. split; [no_path_key|]. split; [reflexivity|].
        split; [|exact Hst].
        count_calls.
      * eexists _, _, _. cbn [fst snd called calls gcs_objects].
        rewrite Hcs1, <- !app_assoc.
        split; [reflexivity|]. split; [no_path_key|]. split; [reflexivity|].
        split; [|now apply writes_within_insert].
        count_calls.
    + eexists _, _, _. cbn [fst snd called calls gcs_objects].
      rewrite Hcs1, <- !app_assoc.
      split; [reflexivity|]. split; [no_path_key|]. split; [reflexivity|].
      split; [|exact Hst].
      count_calls.
    + eexists _, _, _. cbn [fst snd called calls gcs_objects].
      rewrite Hcs1, <- !app_assoc.
      split; [reflexivity|]. split; [no_path_key|]. split; [reflexivity|].
      split; [|exact Hst].
      count_calls.
  - rewrite (proj1 (handle_webhook_lookup _ _ _ w _ _ _ Hrequested Hds Hgc)
               msg Hget).
    eexists _, _, [_]. cbn [fst snd called calls gcs_objects].
    split; [reflexivity|]. split; [no_path_key|]. split; [reflexivity|].
    split; [count_calls | apply writes_within_refl].
  - unfold handle_webhook, try_except_Exception, bind.
    rewrite Hreq, authenticate_drive_eq, authenticate_gcs_eq, Hds, Hgc.
    rewrite get_file_metadata_eq, Hget.
    eexists _, _, [_]. cbn [fst snd called calls gcs_objects].
    split; [reflexivity|]. split; [no_path_key|]. split; [reflexivity|].
    split; [count_calls | apply writes_within_refl].
Qed.

(** X14: whatever happens, a request keeps every object the store had and
    writes only in the configured bucket, at names that begin with the
    base path followed by ['/']. *)
Theorem handle_webhook_writes_under_base cfg account data w :
  writes_within (under_base cfg) (gcs_objects w)
    (gcs_objects (snd (handle_webhook cfg account data w))).
Proof.
  destruct (handle_webhook_run cfg account data w)
    as (body & status & cs & _ & _ & _ & _ & Hstore).
  exact Hstore.
Qed.

(** X15: the handler never gives the "Skipped file - not in target
    folder" response: the path filter accepts every file. *)
Theorem handle_webhook_never_skips_file cfg account data w file_name
    relative_folder_path :
  fst (handle_webhook cfg account data w)
  <> Returned ([("success", JBool true);
                ("message", JString "Skipped file - not in target folder");
                ("file_name", JString file_name);
                ("path", json_of relative_folder_path)], 200).
Proof.
  destruct (handle_webhook_run cfg account data w)
    as (body & status & cs & Hrun & Hbody & _).
  rewrite Hrun. intros [= -> _].
  apply (Hbody (json_of relative_folder_path)). cbn. tauto.
Qed.

(** X16: whatever the services answer, a request looks up metadata at
    most 23 times -- the item, at most 21 lookups of the walk, and the
    shared folder -- and calls the storage client at most 3 times: for the
    folder marker, its existence and its creation, and for the upload.  The
    requests of the download itself are not among those counted. *)
Theorem handle_webhook_call_budget cfg account data w :
  exists cs,
    calls (snd (handle_webhook cfg account data w)) = calls w ++ cs
    /\ count is_lookup cs <= 23
    /\ count is_store_request cs <= 3.
Proof.
  destruct (handle_webhook_run cfg account data w)
    as (body & status & cs & _ & _ & Hcalls & [Hlookups Hstore] & _).
  now exists cs.
Qed.

(** X17: a request that carries neither a non-empty [file_id] nor a
    non-empty [id] is answered 400 before any client is built or any call
    made. *)
Theorem handle_webhook_needs_id cfg account data w :
  Py.truthy_opt (data_get data "file_id") = false ->
  Py.truthy_opt (data_get data "id") = false ->
  handle_webhook cfg account data w
  = (Returned (error_body "File ID not provided", 400), w).
Proof.
  intros Hfile Hid. apply handle_webhook_without_id.
  unfold Py.or_else. rewrite Hfile. exact Hid.
Qed.

(** X17 (witness): a body with only a display name, and one whose
    identifiers are empty. *)
Lemma handle_webhook_needs_id_witness :
  handle_webhook test_config
    (mkAccount (Returned finance_drive) (Returned willing_gcs))
    [("file_name", "Q3.gsheet")] fresh
  = (Returned (error_body "File ID not provided", 400), fresh)
  /\ handle_webhook test_config
       (mkAccount (Returned finance_drive) (Returned willing_gcs))
       [("file_id", ""); ("id", "")] fresh
     = (Returned (error_body "File ID not provided", 400), fresh).
Proof.
  split; apply handle_webhook_needs_id; reflexivity.
Defined.

Lemma before_download_frame cfg gc relative_folder_path w k :
  k <> (BUCKET_NAME cfg,
        (gcs_folder_path (GCS_BASE_PATH cfg) relative_folder_path ++ "/")%string)
  ->
  gcs_objects (before_download cfg gc relative_folder_path w) !! k
  = gcs_objects w !! k.
Proof.
  intros Hk. unfold before_download.
  destruct (Py.truthy_opt relative_folder_path); [|reflexivity].
  destruct (create_folder_world gc (BUCKET_NAME cfg)
              (gcs_folder_path (GCS_BASE_PATH cfg) relative_folder_path) w)
    as (cs & _ & _ & [-> | ->]); [reflexivity|].
  now rewrite lookup_insert_ne.
Qed.

(** X18: when the item is a file whose path resolves, its download
    succeeds and the store accepts the upload, the handler answers 200
    with the destination key, the content is in the bucket at that key,
    and apart from the key and the folder marker no object has
    changed. *)
Theorem handle_webhook_mirrors
    cfg account data w file_id ds gc m file_name relative_folder_path
    file_content :
  requested data file_id ->
  build_drive account = Returned ds ->
  storage_client account = Returned gc ->
  files_get ds file_id = Returned m ->
  is_folder m = false ->
  fst (get_relative_path_from_shared_folder
         ds file_id (SHARED_FOLDER_ID cfg) w)
  = Returned (Some file_name, relative_folder_path) ->
  Py.truthy file_name = true ->
  snd (download_request ds file_id (mimeType m)) = Returned file_content ->
  upload_error gc (BUCKET_NAME cfg)
    (destination cfg relative_folder_path file_name (mimeType m)) = None ->
  let key := destination cfg relative_folder_path file_name (mimeType m) in
  let marker :=
    (gcs_folder_path (GCS_BASE_PATH cfg) relative_folder_path ++ "/")%string in
  fst (handle_webhook cfg account data w)
  = Returned (replicated_body file_id file_name m relative_folder_path key, 200)
  /\ gcs_objects (snd (handle_webhook cfg account data w))
       !! (BUCKET_NAME cfg, key) = Some file_content
  /\ forall k,
       k <> (BUCKET_NAME cfg, key) -> k <> (BUCKET_NAME cfg, marker) ->
       gcs_objects (snd (handle_webhook cfg account data w)) !! k
       = gcs_objects w !! k.
Proof.
  intros Hreq Hds Hgc Hget Hfolder Hrel Hname Hdl Hup key marker.
  subst key marker.
  rewrite (handle_webhook_file _ _ _ _ _ _ _ _ Hreq Hds Hgc Hget Hfolder).
  rewrite (relative_path_fst ds file_id (SHARED_FOLDER_ID cfg) w
             (called (FilesGet file_id) w)) in Hrel.
  destruct (relative_path_lookups ds file_id (SHARED_FOLDER_ID cfg)
              (called (FilesGet file_id) w)) as [Hstore _].
  destruct (get_relative_path_from_shared_folder _ _ _ _) as [r w2].
  cbn [fst snd] in Hrel, Hstore. subst r.
  destruct file_name as [|c s]; [discriminate|].
  cbv zeta. rewrite Hdl, Hup. cbn [fst snd gcs_objects called].
  split; [reflexivity|]. split; [apply lookup_insert_eq|].
  intros k Hkey Hmarker. rewrite lookup_insert_ne by congruence.
  rewrite before_download_frame by exact Hmarker. now rewrite Hstore.
Qed.

(** X18 (witness): [Q3.gsheet] into a bucket that holds other objects. *)
Lemma handle_webhook_mirrors_witness :
  fst (handle_webhook test_config
         (mkAccount (Returned finance_drive) (Returned willing_gcs))
         [("file_id", "q")] stocked)
  = Returned (replicated_body "q" "Q3.gsheet"
                (mkMetadata "Q3.gsheet" ["y"]
                   (Some "application/vnd.google-apps.spreadsheet"))
                (Some "Finance/2025") "X/Finance/2025/Q3.gsheet.xlsx", 200)
  /\ gcs_objects
       (snd (handle_webhook test_config
               (mkAccount (Returned finance_drive) (Returned willing_gcs))
               [("file_id", "q")] stocked))
       !! ("bucket", "X/Finance/2025/Q3.gsheet.xlsx") = Some []
  /\ gcs_objects
       (snd (handle_webhook test_config
               (mkAccount (Returned finance_drive) (Returned willing_gcs))
               [("file_id", "q")] stocked))
       !! ("bucket", "X/report") = Some [Byte.x02].
Proof.
  destruct (handle_webhook_mirrors test_config
              (mkAccount (Returned finance_drive) (Returned willing_gcs))
              [("file_id", "q")] stocked "q" finance_drive willing_gcs
              (mkMetadata "Q3.gsheet" ["y"]
                 (Some "application/vnd.google-apps.spreadsheet"))
              "Q3.gsheet" (Some "Finance/2025") [])
    as (Hresp & Hput & Hframe);
    [split; reflexivity | reflexivity | reflexivity | reflexivity
    | reflexivity | reflexivity | reflexivity | reflexivity | reflexivity |].
  split; [exact Hresp|]. split; [exact Hput|].
  rewrite Hframe; [reflexivity | discriminate | discriminate].
Defined.

(** ** The diagnostic endpoints *)

Lemma get_drive_path_returns ds id w :
  exists r, fst (get_drive_path ds id w) = Returned r.
Proof.
  rewrite get_drive_path_eq.
  destruct (files_get ds id) as [m|e]; [|eexists; reflexivity].
  destruct (parents m); [eexists; reflexivity|].
  destruct (walk ds _ 0 _ _) as [[parts|e] w']; eexists; reflexivity.
Qed.

Lemma relative_path_returns ds file_id shared_folder_id w :
  exists r,
    fst (get_relative_path_from_shared_folder ds file_id shared_folder_id w)
    = Returned r.
Proof.
  rewrite relative_path_eq.
  destruct (get_drive_path ds file_id w) as [[[full_path|]|e] w1];
    try (eexists; reflexivity).
  destruct (Py.truthy full_path); [|eexists; reflexivity].
  destruct (files_get ds shared_folder_id); eexists; reflexivity.
Qed.

Lemma lookups_only_refl w : lookups_only w w.
Proof. split; [reflexivity|]. exists []. cbn. now rewrite app_nil_r. Qed.

Lemma lookups_only_called id w : lookups_only w (called (FilesGet id) w).
Proof. split; [reflexivity|]. now exists [id]. Qed.

Lemma lookups_only_trans w1 w2 w3 :
  lookups_only w1 w2 -> lookups_only w2 w3 -> lookups_only w1 w3.
Proof.
  intros [Hg1 [ids1 Hc1]] [Hg2 [ids2 Hc2]]. split; [congruence|].
  exists (ids1 ++ ids2). rewrite Hc2, Hc1, map_app, app_assoc. reflexivity.
Qed.

(** A file name that is [None] comes with a folder path that is [None]
    or empty. *)
Lemma relative_path_without_name ds file_id shared_folder_id w folder_path :
  fst (get_relative_path_from_shared_folder ds file_id shared_folder_id w)
  = Returned (None, folder_path) ->
  Py.truthy_opt folder_path = false.
Proof.
  rewrite relative_path_eq.
  destruct (get_drive_path ds file_id w) as [[[full_path|]|e] w1];
    try (intros [= <-]; reflexivity).
  destruct (Py.truthy full_path); [|intros [= <-]; reflexivity].
  destruct (files_get ds shared_folder_id) as [shared|e];
    [|intros [= <-]; reflexivity].
  cbn [fst]. unfold relative_to.
  destruct (Py.index (name shared) (Py.split "/" full_path)); [|discriminate].
  destruct (drop _ _); [intros [= <-]; reflexivity | discriminate].
Qed.

(** The debugging endpoint on an item that is found. *)
Lemma test_file_processing_found cfg account file_id w ds m :
  build_drive account = Returned ds ->
  files_get ds file_id = Returned m ->
  exists full_path file_name relative_path w2,
    fst (get_drive_path ds file_id w) = Returned full_path
    /\ fst (get_relative_path_from_shared_folder
              ds file_id (SHARED_FOLDER_ID cfg) w)
       = Returned (file_name, relative_path)
    /\ lookups_only w w2
    /\ test_file_processing cfg account file_id w
       = (match mimeType m with
          | None => Returned (error_report "'mimeType'", 500)
          | Some mime_type =>
              Returned
                ([("file_id", Leaf (JString file_id));
                  ("file_name", Leaf (json_of file_name));
                  ("full_drive_path", Leaf (json_of full_path));
                  ("relative_path", Leaf (json_of relative_path));
                  ("should_process", Leaf (JBool true));
                  ("gcs_path",
                   Leaf (JString
                           (if Py.truthy_opt relative_path
                            then (GCS_BASE_PATH cfg ++ "/"
                                  ++ format_opt relative_path ++ "/"
                                  ++ format_opt file_name)%string
                            else (GCS_BASE_PATH cfg ++ "/"
                                  ++ format_opt file_name)%string)));
                  ("metadata",
                   Node [("name", Leaf (JString (name m)));
                         ("mimeType", Leaf (JString mime_type));
                         ("parents", Items (parents m))])], 200)
          end, w2).
Proof.
  intros Hds Hget.
  unfold test_file_processing, try_except_Exception, bind.
  rewrite authenticate_drive_eq, Hds, get_file_metadata_eq, Hget.
  destruct (get_drive_path_returns ds file_id (called (FilesGet file_id) w))
    as [full_path Hfull].
  assert (Hp : fst (get_drive_path ds file_id w) = Returned full_path)
    by (rewrite <- Hfull; apply get_drive_path_fst).
  pose proof (get_drive_path_lookups ds file_id (called (FilesGet file_id) w))
    as Hl1.
  destruct (get_drive_path ds file_id (called (FilesGet file_id) w))
    as [p w1]. cbn [fst snd] in Hfull, Hl1. subst p.
  destruct (relative_path_returns ds file_id (SHARED_FOLDER_ID cfg) w1)
    as [[file_name relative_path] Hrel].
  assert (Hr : fst (get_relative_path_from_shared_folder
                      ds file_id (SHARED_FOLDER_ID cfg) w)
               = Returned (file_name, relative_path))
    by (rewrite <- Hrel; apply relative_path_fst).
  pose proof (relative_path_lookups ds file_id (SHARED_FOLDER_ID cfg) w1)
    as Hl2.
  destruct (get_relative_path_from_shared_folder ds file_id _ w1) as [r w2].
  cbn [fst snd] in Hrel, Hl2. subst r.
  exists full_path, file_name, relative_path, w2.
  split; [exact Hp|]. split; [exact Hr|].
  split.
  { eapply lookups_only_trans; [apply lookups_only_called|].
    eapply lookups_only_trans; eassumption. }
  rewrite validate_file_path_accepts_all.
  unfold mimeType_item. destruct (mimeType m); reflexivity.
Qed.

(** X19: the debugging endpoint always answers and only reads: it never
    raises, and the world it leaves differs from the one it found by
    metadata lookups only -- no download, no request to the store. *)
Theorem test_file_processing_read_only cfg account file_id w :
  (exists report,
      fst (test_file_processing cfg account file_id w) = Returned report)
  /\ lookups_only w (snd (test_file_processing cfg account file_id w)).
Proof.
  destruct (build_drive account) as [ds|e] eqn:Hds.
  - destruct (files_get ds file_id) as [m|[msg|msg]] eqn:Hget.
    + destruct (test_file_processing_found cfg account file_id w ds m Hds Hget)
        as (full_path & file_name & relative_path & w2 & _ & _ & Hl & ->).
      split; [|exact Hl]. destruct (mimeType m); eexists; reflexivity.
    + unfold test_file_processing, try_except_Exception, bind.
      rewrite authenticate_drive_eq, Hds, get_file_metadata_eq, Hget.
      split; [eexists; reflexivity | apply lookups_only_called].
    + unfold test_file_processing, try_except_Exception, bind.
      rewrite authenticate_drive_eq, Hds, get_file_metadata_eq, Hget.
      split; [eexists; reflexivity | apply lookups_only_called].
  - unfold test_file_processing, try_except_Exception, bind.
    rewrite authenticate_drive_eq, Hds.
    split; [eexists; reflexivity | apply lookups_only_refl].
Qed.

(** X20: for a file whose path resolves, the debugging endpoint reports
    as [gcs_path] the folder path and the bare file name: the key
    [handle_webhook] writes to when the file name already ends with the
    export extension (or there is none), and that key without the
    extension otherwise. *)
Theorem test_file_processing_plain_key
    cfg account file_id w ds m mime_type file_name relative_path :
  build_drive account = Returned ds ->
  files_get ds file_id = Returned m ->
  mimeType m = Some mime_type ->
  fst (get_relative_path_from_shared_folder
         ds file_id (SHARED_FOLDER_ID cfg) w)
  = Returned (Some file_name, Some relative_path) ->
  let reported :=
    gcs_object_name
      (gcs_folder_path (GCS_BASE_PATH cfg) (Some relative_path)) file_name in
  let extension := download_extension (Some mime_type) in
  (exists fields,
      fst (test_file_processing cfg account file_id w)
      = Returned (fields, 200)
      /\ In ("gcs_path", Leaf (JString reported)) fields)
  /\ destination cfg (Some relative_path) file_name (Some mime_type)
     = if Py.endswith file_name extension then reported
       else (reported ++ extension)%string.
Proof.
  intros Hds Hget Hmime Hrel reported extension. split.
  - destruct (test_file_processing_found cfg account file_id w ds m Hds Hget)
      as (full_path & fn & rp & w2 & _ & Hrel' & _ & ->).
    rewrite Hrel in Hrel'. injection Hrel' as <- <-.
    rewrite Hmime. eexists. split; [reflexivity|].
    unfold reported. rewrite object_name_shape. cbn [format_opt default In].
    do 5 right. left. reflexivity.
  - unfold destination, reported, extension. rewrite gcs_filename_eq.
    destruct (Py.endswith file_name _); [reflexivity|].
    unfold gcs_object_name. now rewrite !string_app_assoc.
Qed.

(** X20 (witness): [Q3.gsheet] is reported at [X/Finance/2025/Q3.gsheet]
    and mirrored to [X/Finance/2025/Q3.gsheet.xlsx]. *)
Lemma test_file_processing_plain_key_witness :
  (exists fields,
      fst (test_file_processing test_config
             (mkAccount (Returned finance_drive) (Returned willing_gcs))
             "q" fresh)
      = Returned (fields, 200)
      /\ In ("gcs_path", Leaf (JString "X/Finance/2025/Q3.gsheet")) fields)
  /\ destination test_config (Some "Finance/2025") "Q3.gsheet"
       (Some "application/vnd.google-apps.spreadsheet")
     = "X/Finance/2025/Q3.gsheet.xlsx".
Proof.
  apply (test_file_processing_plain_key test_config
           (mkAccount (Returned finance_drive) (Returned willing_gcs))
           "q" fresh finance_drive
           (mkMetadata "Q3.gsheet" ["y"]
              (Some "application/vnd.google-apps.spreadsheet"))
           "application/vnd.google-apps.spreadsheet"
           "Q3.gsheet" "Finance/2025"); reflexivity.
Defined.

(** X21: when the path does not resolve to a file name, the debugging
    endpoint still answers 200: it reports the file name [null] and the
    key [<base>/None]. *)
Theorem test_file_processing_unresolved
    cfg account file_id w ds m mime_type relative_path :
  build_drive account = Returned ds ->
  files_get ds file_id = Returned m ->
  mimeType m = Some mime_type ->
  fst (get_relative_path_from_shared_folder
         ds file_id (SHARED_FOLDER_ID cfg) w)
  = Returned (None, relative_path) ->
  exists fields,
    fst (test_file_processing cfg account file_id w) = Returned (fields, 200)
    /\ In ("file_name", Leaf JNull) fields
    /\ In ("gcs_path", Leaf (JString (GCS_BASE_PATH cfg ++ "/None")%string))
          fields.
Proof.
  intros Hds Hget Hmime Hrel.
  pose proof (relative_path_without_name _ _ _ _ _ Hrel) as Hfalsy.
  destruct (test_file_processing_found cfg account file_id w ds m Hds Hget)
    as (full_path & fn & rp & w2 & _ & Hrel' & _ & ->).
  rewrite Hrel in Hrel'. injection Hrel' as <- <-.
  rewrite Hmime, Hfalsy. eexists. split; [reflexivity|].
  cbn [In json_of format_opt]. split; [right; left; reflexivity|].
  do 5 right. left. reflexivity.
Qed.

(** X21 (witness): the shared folder itself. *)
Lemma test_file_processing_unresolved_witness :
  exists fields,
    fst (test_file_processing test_config
           (mkAccount (Returned finance_drive) (Returned willing_gcs))
           "r" fresh)
    = Returned (fields, 200)
    /\ In ("file_name", Leaf JNull) fields
    /\ In ("gcs_path", Leaf (JString "X/None")) fields.
Proof.
  apply (test_file_processing_unresolved test_config
           (mkAccount (Returned finance_drive) (Returned willing_gcs))
           "r" fresh finance_drive
           (mkMetadata "Root" ["d"] (Some "application/vnd.google-apps.folder"))
           "application/vnd.google-apps.folder" (Some "")); reflexivity.
Defined.

(** X22: the debugging endpoint's errors.  Without a Drive client it
    answers 500 and calls nothing; an item whose lookup fails with an
    [HttpError] gives 404; metadata without a MIME type gives 500 with
    the text of the [KeyError]. *)
Theorem test_file_processing_errors cfg account file_id w :
  (forall e, build_drive account = Raised e ->
     test_file_processing cfg account file_id w
     = (Returned (error_report "Drive authentication failed", 500), w))
  /\ (forall ds msg,
         build_drive account = Returned ds ->
         files_get ds file_id = Raised (HttpError msg) ->
         test_file_processing cfg account file_id w
         = (Returned (error_report "File not found or not accessible", 404),
            called (FilesGet file_id) w))
  /\ (forall ds m,
         build_drive account = Returned ds ->
         files_get ds file_id = Returned m ->
         mimeType m = None ->
         fst (test_file_processing cfg account file_id w)
         = Returned (error_report "'mimeType'", 500)).
Proof.
  split; [|split].
  - intros e He. unfold test_file_processing, try_except_Exception, bind.
    rewrite authenticate_drive_eq, He. reflexivity.
  - intros ds msg Hds Hget.
    unfold test_file_processing, try_except_Exception, bind.
    rewrite authenticate_drive_eq, Hds, get_file_metadata_eq, Hget.
    reflexivity.
  - intros ds m Hds Hget Hmime.
    destruct (test_file_processing_found cfg account file_id w ds m Hds Hget)
      as (full_path & fn & rp & w2 & _ & _ & _ & ->).
    rewrite Hmime. reflexivity.
Qed.

(** X22 (witness): no client, an unknown item, an item without a MIME
    type. *)
Lemma test_file_processing_errors_witness :
  fst (test_file_processing test_config
         (mkAccount (Raised (OtherException "bad key")) (Returned willing_gcs))
         "q" fresh)
  = Returned (error_report "Drive authentication failed", 500)
  /\ fst (test_file_processing test_config
            (mkAccount (Returned finance_drive) (Returned willing_gcs))
            "zzz" fresh)
     = Returned (error_report "File not found or not accessible", 404)
  /\ fst (test_file_processing test_config
            (mkAccount (Returned untyped_drive) (Returned willing_gcs))
            "u" fresh)
     = Returned (error_report "'mimeType'", 500).
Proof.
  destruct (test_file_processing_errors test_config
              (mkAccount (Raised (OtherException "bad key"))
                         (Returned willing_gcs)) "q" fresh) as (Hauth & _).
  destruct (test_file_processing_errors test_config
              (mkAccount (Returned finance_drive) (Returned willing_gcs))
              "zzz" fresh) as (_ & Hmissing & _).
  destruct (test_file_processing_errors test_config
              (mkAccount (Returned untyped_drive) (Returned willing_gcs))
              "u" fresh) as (_ & _ & Huntyped).
  split; [erewrite Hauth; reflexivity|].
  split; [erewrite Hmissing; reflexivity|].
  eapply Huntyped; reflexivity.
Defined.

(** X23: with both clients built and the key file readable, the health
    check answers 200 whether or not the shared folder can be looked up:
    a folder that is found is reported by name with access [true], one
    whose lookup fails with an [HttpError] as "Not accessible" with access
    [false].  Either way the lookup is the only call made. *)
Theorem test_endpoint_reports_access cfg account key_file w ds gc email :
  build_drive account = Returned ds ->
  storage_client account = Returned gc ->
  client_email key_file = Returned email ->
  snd (test_endpoint cfg account key_file w)
  = called (FilesGet (SHARED_FOLDER_ID cfg)) w
  /\ (forall m, files_get ds (SHARED_FOLDER_ID cfg) = Returned m ->
        exists fields,
          fst (test_endpoint cfg account key_file w) = Returned (fields, 200)
          /\ In ("shared_folder_name", Leaf (JString (name m))) fields
          /\ In ("shared_folder_access", Leaf (JBool true)) fields)
  /\ (forall msg,
         files_get ds (SHARED_FOLDER_ID cfg) = Raised (HttpError msg) ->
         exists fields,
           fst (test_endpoint cfg account key_file w) = Returned (fields, 200)
           /\ In ("shared_folder_name", Leaf (JString "Not accessible")) fields
           /\ In ("shared_folder_access", Leaf (JBool false)) fields).
Proof.
  intros Hds Hgc Hemail.
  unfold test_endpoint, try_except_Exception, bind.
  rewrite authenticate_drive_eq, authenticate_gcs_eq, Hds, Hgc.
  rewrite get_file_metadata_eq, Hemail.
  destruct (files_get ds (SHARED_FOLDER_ID cfg)) as [m|[msg|msg]].
  - split; [reflexivity|]. split; [|discriminate].
    intros m' [= <-]. eexists. split; [reflexivity|]. cbn [In].
    split; [do 4 right; left; reflexivity | do 5 right; left; reflexivity].
  - split; [reflexivity|]. split; [discriminate|].
    intros msg' _. eexists. split; [reflexivity|]. cbn [In].
    split; [do 4 right; left; reflexivity | do 5 right; left; reflexivity].
  - split; [reflexivity|]. split; discriminate.
Qed.

(** X23 (witness): the finance tree, and a Drive that does not know the
    shared folder. *)
Lemma test_endpoint_reports_access_witness :
  (exists fields,
      fst (test_endpoint test_config
             (mkAccount (Returned finance_drive) (Returned willing_gcs))
             good_key_file fresh)
      = Returned (fields, 200)
      /\ In ("shared_folder_name", Leaf (JString "Root")) fields
      /\ In ("shared_folder_access", Leaf (JBool true)) fields)
  /\ (exists fields,
         fst (test_endpoint test_config
                (mkAccount (Returned untyped_drive) (Returned willing_gcs))
                good_key_file fresh)
         = Returned (fields, 200)
         /\ In ("shared_folder_name", Leaf (JString "Not accessible")) fields
         /\ In ("shared_folder_access", Leaf (JBool false)) fields).
Proof.
  destruct (test_endpoint_reports_access test_config
              (mkAccount (Returned finance_drive) (Returned willing_gcs))
              good_key_file fresh finance_drive willing_gcs
              "sync@project.iam.gserviceaccount.com"
              eq_refl eq_refl eq_refl) as (_ & Hfound & _).
  destruct (test_endpoint_reports_access test_config
              (mkAccount (Returned untyped_drive) (Returned willing_gcs))
              good_key_file fresh untyped_drive willing_gcs
              "sync@project.iam.gserviceaccount.com"
              eq_refl eq_refl eq_refl) as (_ & _ & Hlost).
  split.
  - apply (Hfound (mkMetadata "Root" ["d"]
                     (Some "application/vnd.google-apps.folder"))).
    reflexivity.
  - apply (Hlost "File not found"). reflexivity.
Defined.

(** X24: the health check's errors, each answered 500.  If either client
    cannot be built nothing is called; if the key file cannot be read the
    message is the exception's text. *)
Theorem test_endpoint_errors cfg account key_file w :
  ((exists e, build_drive account = Raised e)
   \/ (exists e, storage_client account = Raised e) ->
   test_endpoint cfg account key_file w
   = (Returned (error_report "Authentication failed", 500), w))
  /\ (forall ds gc e,
         build_drive account = Returned ds ->
         storage_client account = Returned gc ->
         client_email key_file = Raised e ->
         (forall msg, files_get ds (SHARED_FOLDER_ID cfg)
                      <> Raised (OtherException msg)) ->
         test_endpoint cfg account key_file w
         = (Returned (error_report (str e), 500),
            called (FilesGet (SHARED_FOLDER_ID cfg)) w)).
Proof.
  split.
  - intros Hauth. unfold test_endpoint, try_except_Exception, bind.
    rewrite authenticate_drive_eq, authenticate_gcs_eq.
    destruct Hauth as [[e He]|[e He]]; rewrite He; [reflexivity|].
    destruct (build_drive account); reflexivity.
  - intros ds gc e Hds Hgc Hemail Hget.
    unfold test_endpoint, try_except_Exception, bind.
    rewrite authenticate_drive_eq, authenticate_gcs_eq, Hds, Hgc.
    rewrite get_file_metadata_eq, Hemail.
    destruct (files_get ds (SHARED_FOLDER_ID cfg)) as [m|[msg|msg]];
      try reflexivity.
    now destruct (Hget msg).
Qed.

(** X24 (witness): no storage client, and no key file. *)
Lemma test_endpoint_errors_witness :
  test_endpoint test_config
    (mkAccount (Returned finance_drive) (Raised (OtherException "bad key")))
    good_key_file fresh
  = (Returned (error_report "Authentication failed", 500), fresh)
  /\ test_endpoint test_config
       (mkAccount (Returned finance_drive) (Returned willing_gcs))
       missing_key_file fresh
     = (Returned (error_report "[Errno 2] No such file or directory", 500),
        called (FilesGet "r") fresh).
Proof.
  destruct (test_endpoint_errors test_config
              (mkAccount (Returned finance_drive)
                         (Raised (OtherException "bad key")))
              good_key_file fresh) as [Hauth _].
  destruct (test_endpoint_errors test_config
              (mkAccount (Returned finance_drive) (Returned willing_gcs))
              missing_key_file fresh) as [_ Hkey].
  split; [apply Hauth; right; eexists; reflexivity|].
  apply (Hkey finance_drive willing_gcs
           (OtherException "[Errno 2] No such file or directory"));
    try reflexivity.
  intros msg. discriminate.
Defined.

(** ** Delivering a webhook twice *)

Lemma string_app_inv_head (a b c : string) :
  (a ++ b)%string = (a ++ c)%string -> b = c.
Proof.
  induction a as [|x a IH]; [exact (fun H => H)|].
  change (String x (a ++ b)%string = String x (a ++ c)%string -> b = c).
  intros [= H]. exact (IH H).
Qed.

Lemma gcs_filename_not_empty file_name extension :
  Py.truthy file_name = true -> gcs_filename file_name extension <> "".
Proof.
  destruct file_name as [|c s]; [discriminate|]. intros _.
  unfold gcs_filename. destruct (_ && _); discriminate.
Qed.

Lemma destination_not_marker cfg relative_folder_path file_name mime_type :
  Py.truthy file_name = true ->
  (BUCKET_NAME cfg,
   destination cfg relative_folder_path file_name mime_type)
  <> (BUCKET_NAME cfg,
      (gcs_folder_path (GCS_BASE_PATH cfg) relative_folder_path ++ "/")%string).
Proof.
  intros Hname [= H]. unfold destination, gcs_object_name in H.
  rewrite <- (string_app_empty "/") in H at 2.
  apply string_app_inv_head in H.
  apply (string_app_inv_head "/") in H.
  now apply gcs_filename_not_empty in H.
Qed.

(** Once a file has been written next to it, the folder marker is settled:
    dealing with the marker again leaves the bucket as it is. *)
Lemma before_download_settled cfg gc relative_folder_path w w' k file_content :
  k <> (BUCKET_NAME cfg,
        (gcs_folder_path (GCS_BASE_PATH cfg) relative_folder_path ++ "/")%string)
  ->
  gcs_objects w'
  = <[k := file_content]>
      (gcs_objects (before_download cfg gc relative_folder_path w)) ->
  gcs_objects (before_download cfg gc relative_folder_path w')
  = gcs_objects w'.
Proof.
  intros Hk. unfold before_download.
  destruct (Py.truthy_opt relative_folder_path); [|reflexivity].
  set (folder := gcs_folder_path (GCS_BASE_PATH cfg) relative_folder_path)
    in *.
  rewrite !create_gcs_folder_structure_eq.
  destruct (negb (Py.truthy folder) || String.eqb folder "/");
    [reflexivity|].
  cbv zeta.
  destruct (exists_error gc (BUCKET_NAME cfg) (folder ++ "/"));
    [reflexivity|].
  destruct (bool_decide (is_Some (gcs_objects w
                                  !! (BUCKET_NAME cfg, (folder ++ "/")%string))))
    eqn:Hthere.
  - apply bool_decide_eq_true in Hthere. cbn [snd called gcs_objects].
    intros Hw'. rewrite bool_decide_eq_true_2; [reflexivity|].
    rewrite Hw', lookup_insert_ne by exact Hk. exact Hthere.
  - apply bool_decide_eq_false in Hthere.
    destruct (upload_error gc (BUCKET_NAME cfg) (folder ++ "/")).
    + cbn [snd after gcs_objects]. intros Hw'.
      rewrite bool_decide_eq_false_2; [reflexivity|].
      rewrite Hw', lookup_insert_ne by exact Hk. exact Hthere.
    + cbn [snd gcs_objects]. intros Hw'.
      rewrite bool_decide_eq_true_2; [reflexivity|].
      rewrite Hw', lookup_insert_ne by exact Hk.
      rewrite lookup_insert_eq. eauto.
Qed.

(** X25: delivering the same webhook again is harmless.  After a request
    that mirrored a file, the same request -- Drive and the clients
    answering as before -- gives the same response and leaves the bucket
    exactly as the first one left it. *)
Theorem handle_webhook_idempotent
    cfg account data w file_id ds gc m file_name relative_folder_path
    file_content :
  requested data file_id ->
  build_drive account = Returned ds ->
  storage_client account = Returned gc ->
  files_get ds file_id = Returned m ->
  is_folder m = false ->
  fst (get_relative_path_from_shared_folder
         ds file_id (SHARED_FOLDER_ID cfg) w)
  = Returned (Some file_name, relative_folder_path) ->
  Py.truthy file_name = true ->
  snd (download_request ds file_id (mimeType m)) = Returned file_content ->
  upload_error gc (BUCKET_NAME cfg)
    (destination cfg relative_folder_path file_name (mimeType m)) = None ->
  let w1 := snd (handle_webhook cfg account data w) in
  fst (handle_webhook cfg account data w1)
  = fst (handle_webhook cfg account data w)
  /\ gcs_objects (snd (handle_webhook cfg account data w1)) = gcs_objects w1.
Proof.
  intros Hreq Hds Hgc Hget Hfolder Hrel Hname Hdl Hup w1. subst w1.
  pose proof (destination_not_marker cfg relative_folder_path file_name
                (mimeType m) Hname) as Hkey.
  assert (Hrun : forall w0,
             exists w2,
               gcs_objects w2 = gcs_objects w0
               /\ handle_webhook cfg account data w0
                  = (Returned
                       (replicated_body file_id file_name m
                          relative_folder_path
                          (destination cfg relative_folder_path file_name
                                       (mimeType m)), 200),
                     mkWorld
                       (<[(BUCKET_NAME cfg,
                           destination cfg relative_folder_path file_name
                                       (mimeType m)) := file_content]>
                          (gcs_objects
                             (before_download cfg gc relative_folder_path w2)))
                       (calls
                          (called
                             (fst (download_request ds file_id (mimeType m)))
                             (before_download cfg gc relative_folder_path w2))
                        ++ [BlobUploadFromFile (BUCKET_NAME cfg)
                              (destination cfg relative_folder_path file_name
                                           (mimeType m))]))).
  { intros w0.
    rewrite (handle_webhook_file _ _ _ _ _ _ _ _ Hreq Hds Hgc Hget Hfolder).
    pose proof Hrel as Hrel0.
    rewrite (relative_path_fst ds file_id (SHARED_FOLDER_ID cfg) w
               (called (FilesGet file_id) w0)) in Hrel0.
    destruct (relative_path_lookups ds file_id (SHARED_FOLDER_ID cfg)
                (called (FilesGet file_id) w0)) as [Hstore _].
    destruct (get_relative_path_from_shared_folder
                ds file_id (SHARED_FOLDER_ID cfg)
                (called (FilesGet file_id) w0)) as [r w2].
    cbn [fst snd] in Hrel0, Hstore. subst r. exists w2.
    split; [exact Hstore|].
    destruct file_name as [|c s]; [discriminate|].
    cbv zeta. rewrite Hdl, Hup. reflexivity. }
  destruct (Hrun w) as (w2 & Hg2 & Hfirst). rewrite Hfirst. cbn [fst snd].
  match goal with |- context [handle_webhook cfg account data ?w1] =>
    destruct (Hrun w1) as (w2' & Hg2' & Hsecond); rewrite Hsecond
  end.
  cbn [fst snd gcs_objects] in *. split; [reflexivity|].
  rewrite (before_download_settled cfg gc relative_folder_path w2 w2' _
             file_content Hkey Hg2').
  rewrite Hg2'. apply insert_insert_eq.
Qed.

(** X25 (witness): [Q3.gsheet] delivered twice. *)
Lemma handle_webhook_idempotent_witness :
  let w1 :=
    snd (handle_webhook test_config
           (mkAccount (Returned finance_drive) (Returned willing_gcs))
           [("file_id", "q")] stocked) in
  fst (handle_webhook test_config
         (mkAccount (Returned finance_drive) (Returned willing_gcs))
         [("file_id", "q")] w1)
  = fst (handle_webhook test_config
           (mkAccount (Returned finance_drive) (Returned willing_gcs))
           [("file_id", "q")] stocked)
  /\ gcs_objects
       (snd (handle_webhook test_config
               (mkAccount (Returned finance_drive) (Returned willing_gcs))
               [("file_id", "q")] w1))
     = gcs_objects w1.
Proof.
  apply (handle_webhook_idempotent test_config
           (mkAccount (Returned finance_drive) (Returned willing_gcs))
           [("file_id", "q")] stocked "q" finance_drive willing_gcs
           (mkMetadata "Q3.gsheet" ["y"]
              (Some "application/vnd.google-apps.spreadsheet"))
           "Q3.gsheet" (Some "Finance/2025") []);
    [split; reflexivity | reflexivity | reflexivity | reflexivity
    | reflexivity | reflexivity | reflexivity | reflexivity | reflexivity].
Defined.
